(** * pr-code-reviewer: orchestration and webhook layer

    A shallow embedding of [src/code-reviewer.js], of the three analyzers
    ([gitignore-analyzer.js], [env-analyzer.js], [dependency-analyzer.js]) and
    of [github-webhook-handler.js], followed by the properties of the
    specification that the code satisfies, and by the inputs on which it
    departs from it.

    Conventions.
    - A JavaScript computation that may throw is a value of [js A]:
      [Return v] or [Throw e], where [e] carries the [message] of the error.
    - Texts (comment bodies, reports, file names) are [string]s holding the
      UTF-8 encoding of the JavaScript string; equality, [startsWith] and
      [includes] agree on both representations, and [trim] strips the
      white space of ECMAScript in its encoding of one to three bytes.
    - Buffers are lists of bytes, each byte a [Z] in [0, 256).
    - The value of an HTTP header is a string of characters below 256 (Node
      decodes header bytes as latin1), held one [ascii] per character.
    - Rule files are well typed: a namespace is a record of optional lists
      of strings, as in the rule file format of the specification.
    - The file system, the clock, [JSON.parse] and the GitHub REST API are
      explicit arguments.  A request to the API is built from the
      parameters the client knows by name.  [console] output is not
      modelled. *)

From Stdlib Require Import ZArith List Ascii String Bool Lia DecimalString.
From stdpp Require Import base option list gmap strings.
Import ListNotations.

Local Open Scope string_scope.
Local Open Scope list_scope.
Local Open Scope Z_scope.

(** ** Exceptions *)

Module Js.

Record Error := mkError { message : string }.

Inductive js (A : Type) : Type :=
| Return (v : A)
| Throw (e : Error).
Arguments Return {A} v.
Arguments Throw {A} e.

Definition bind {A B} (m : js A) (k : A -> js B) : js B :=
  match m with
  | Return v => k v
  | Throw e => Throw e
  end.

(** [try { m } catch (error) { h error }] *)
Definition try_catch {A} (m : js A) (h : Error -> js A) : js A :=
  match m with
  | Return v => Return v
  | Throw e => h e
  end.

(** Truthiness of a string: every string but the empty one. *)
Definition truthy (s : string) : bool :=
  match s with
  | EmptyString => false
  | String _ _ => true
  end.

(** Truthiness of a property that may be absent ([undefined]). *)
Definition truthy_opt (o : option string) : bool :=
  match o with
  | Some s => truthy s
  | None => false
  end.

(** [a || b] on strings, [a] possibly [undefined]. *)
Definition or_default (a : option string) (b : string) : string :=
  match a with
  | Some s => if truthy s then s else b
  | None => b
  end.

(** [s.startsWith(p)] *)
Definition startsWith (s p : string) : bool := String.prefix p s.

(** [s.includes(p)] *)
Fixpoint includes (s p : string) : bool :=
  String.prefix p s ||
  match s with
  | EmptyString => false
  | String _ s' => includes s' p
  end.

(** [l.join(sep)] *)
Fixpoint join (sep : string) (l : list string) : string :=
  match l with
  | [] => ""
  | [x] => x
  | x :: rest => x +:+ sep +:+ join sep rest
  end.

(** Template interpolation of a non-negative integer. *)
Definition show_nat (n : nat) : string :=
  NilZero.string_of_uint (Nat.to_uint n).

End Js.
Export Js.

Declare Scope js_scope.
Delimit Scope js_scope with js.
Notation "x <- m ;; k" := (Js.bind m (fun x => k))
  (at level 100, m at next level, right associativity) : js_scope.

(** ** Node's [crypto] and [Buffer] *)

Module Crypto.

Definition bytes := list Z.

(** *** SHA-256 (FIPS 180-4), words as [Z] reduced modulo [2^32] *)

Definition w32 (x : Z) : Z := x mod 2 ^ 32.
Definition add32 (x y : Z) : Z := w32 (x + y).
Definition rotr (n x : Z) : Z :=
  Z.lor (Z.shiftr x n) (w32 (Z.shiftl x (32 - n))).

Definition Ch (x y z : Z) : Z :=
  Z.lxor (Z.land x y) (Z.land (Z.lnot x) z).
Definition Maj (x y z : Z) : Z :=
  Z.lxor (Z.lxor (Z.land x y) (Z.land x z)) (Z.land y z).
Definition Sigma0 (x : Z) : Z :=
  Z.lxor (Z.lxor (rotr 2 x) (rotr 13 x)) (rotr 22 x).
Definition Sigma1 (x : Z) : Z :=
  Z.lxor (Z.lxor (rotr 6 x) (rotr 11 x)) (rotr 25 x).
Definition sigma0 (x : Z) : Z :=
  Z.lxor (Z.lxor (rotr 7 x) (rotr 18 x)) (Z.shiftr x 3).
Definition sigma1 (x : Z) : Z :=
  Z.lxor (Z.lxor (rotr 17 x) (rotr 19 x)) (Z.shiftr x 10).

Definition K256 : list Z :=
  [ 1116352408; 1899447441; 3049323471; 3921009573; 961987163; 1508970993;
    2453635748; 2870763221; 3624381080; 310598401; 607225278; 1426881987;
    1925078388; 2162078206; 2614888103; 3248222580; 3835390401; 4022224774;
    264347078; 604807628; 770255983; 1249150122; 1555081692; 1996064986;
    2554220882; 2821834349; 2952996808; 3210313671; 3336571891; 3584528711;
    113926993; 338241895; 666307205; 773529912; 1294757372; 1396182291;
    1695183700; 1986661051; 2177026350; 2456956037; 2730485921; 2820302411;
    3259730800; 3345764771; 3516065817; 3600352804; 4094571909; 275423344;
    430227734; 506948616; 659060556; 883997877; 958139571; 1322822218;
    1537002063; 1747873779; 1955562222; 2024104815; 2227730452; 2361852424;
    2428436474; 2756734187; 3204031479; 3329325298 ].

Record hstate := mkH { ha : Z; hb : Z; hc : Z; hd : Z;
                       he : Z; hf : Z; hg : Z; hh : Z }.

Definition H0 : hstate :=
  mkH 1779033703 3144134277 1013904242 2773480762
      1359893119 2600822924 528734635 1541459225.

(** The message schedule is kept as a window of the sixteen words
    [W t .. W (t+15)]; sliding it by one computes [W (t+16)]. *)
Definition slide (w : list Z) : list Z :=
  let x := add32 (add32 (sigma1 (nth 14 w 0)) (nth 9 w 0))
                 (add32 (sigma0 (nth 1 w 0)) (nth 0 w 0)) in
  tl w ++ [x].

Definition round (sw : hstate * list Z) (k : Z) : hstate * list Z :=
  let '(s, w) := sw in
  let t1 := add32 (add32 (add32 (hh s) (Sigma1 (he s)))
                         (add32 (Ch (he s) (hf s) (hg s)) k))
                  (nth 0 w 0) in
  let t2 := add32 (Sigma0 (ha s)) (Maj (ha s) (hb s) (hc s)) in
  (mkH (add32 t1 t2) (ha s) (hb s) (hc s)
       (add32 (hd s) t1) (he s) (hf s) (hg s),
   slide w).

Fixpoint be_words (n : nat) (b : bytes) : list Z :=
  match n with
  | O => []
  | S n' =>
      (nth 0 b 0 * 16777216 + nth 1 b 0 * 65536 + nth 2 b 0 * 256 + nth 3 b 0)
        :: be_words n' (skipn 4 b)
  end.

Definition compress (s : hstate) (block : bytes) : hstate :=
  let s' := fst (fold_left round K256 (s, be_words 16 block)) in
  mkH (add32 (ha s) (ha s')) (add32 (hb s) (hb s'))
      (add32 (hc s) (hc s')) (add32 (hd s) (hd s'))
      (add32 (he s) (he s')) (add32 (hf s) (hf s'))
      (add32 (hg s) (hg s')) (add32 (hh s) (hh s')).

Definition be_bytes (n : nat) (x : Z) : bytes :=
  map (fun i => (Z.shiftr x (8 * Z.of_nat i)) mod 256) (rev (seq 0 n)).

Definition pad (m : bytes) : bytes :=
  let l := Z.of_nat (length m) in
  let z := Z.to_nat ((55 - l) mod 64) in
  m ++ [128] ++ repeat 0 z ++ be_bytes 8 (8 * l).

Fixpoint blocks (n : nat) (s : hstate) (m : bytes) : hstate :=
  match n with
  | O => s
  | S n' => blocks n' (compress s (firstn 64 m)) (skipn 64 m)
  end.

Definition digest_of (s : hstate) : bytes :=
  flat_map (be_bytes 4)
    [ha s; hb s; hc s; hd s; he s; hf s; hg s; hh s].

Definition sha256 (m : bytes) : bytes :=
  let p := pad m in
  digest_of (blocks (Nat.div (length p) 64) H0 p).

(** *** HMAC (RFC 2104) over SHA-256 *)

Definition hmac_key (key : bytes) : bytes :=
  let k := if (64 <? length key)%nat then sha256 key else key in
  k ++ repeat 0 (64 - length k)%nat.

Definition hmac_sha256 (key msg : bytes) : bytes :=
  let k := hmac_key key in
  sha256 (map (Z.lxor 92) k ++ sha256 (map (Z.lxor 54) k ++ msg)).

(** *** [digest('hex')] *)

Definition hex_digit (n : Z) : ascii :=
  ascii_of_N (Z.to_N (if n <? 10 then 48 + n else 87 + n)).

Definition hex_byte (b : Z) : list ascii :=
  [hex_digit (b / 16); hex_digit (b mod 16)].

Definition hex (b : bytes) : string :=
  string_of_list_ascii (flat_map hex_byte b).

(** *** Strings and buffers *)

Definition code (c : ascii) : Z := Z.of_N (N_of_ascii c).

(** The bytes of a text, which is held as its UTF-8 encoding. *)
Definition bytes_of_text (s : string) : bytes :=
  map code (list_ascii_of_string s).

(** [Buffer.from(s)] for a string [s] whose characters are code points
    below 256, one [ascii] per character: this is what an HTTP header value
    is, Node decoding header bytes as latin1.  [Buffer.from] encodes the
    string as UTF-8, so a character from 128 on takes two bytes. *)
Definition utf8_char (c : ascii) : bytes :=
  let n := code c in
  if n <? 128 then [n]
  else [Z.lor 192 (Z.shiftr n 6); Z.lor 128 (Z.land n 63)].

Definition Buffer_from (s : string) : bytes :=
  flat_map utf8_char (list_ascii_of_string s).

(** Reading one character back from the front of a buffer. *)
Definition utf8_head (b : bytes) : option (ascii * bytes) :=
  match b with
  | [] => None
  | x :: r =>
      if x <? 128 then Some (ascii_of_N (Z.to_N x), r)
      else match r with
           | [] => None
           | y :: r' =>
               Some (ascii_of_N (Z.to_N ((x - 192) * 64 + (y - 128))), r')
           end
  end.

Definition bytes_eqb (a b : bytes) : bool :=
  bool_decide (a = b).

(** [crypto.timingSafeEqual(a, b)]: throws a [RangeError] when the two
    buffers differ in byte length, and compares them otherwise. *)
Definition timingSafeEqual (a b : bytes) : js bool :=
  if Nat.eqb (length a) (length b)
  then Return (bytes_eqb a b)
  else Throw (mkError "Input buffers must have the same byte length").

(** [crypto.createHmac('sha256', secret).update(payload).digest('hex')] *)
Definition hmac_sha256_hex (secret : string) (payload : bytes) : string :=
  hex (hmac_sha256 (bytes_of_text secret) payload).

End Crypto.

(** ** Strings *)

Module Str.

Definition nl : string := String (ascii_of_nat 10) "".

(** The white space and line terminators of ECMAScript, as [trim] sees
    them in a text held in UTF-8: the characters of one byte (TAB, LF,
    VT, FF, CR, SP), of two bytes (U+00A0) and of three bytes (U+1680,
    U+2000 to U+200A, U+2028, U+2029, U+202F, U+205F, U+3000, U+FEFF). *)
Definition is_space (c : ascii) : bool :=
  let n := nat_of_ascii c in
  (n =? 32)%nat || ((9 <=? n)%nat && (n <=? 13)%nat).

Definition is_space2 (c1 c2 : ascii) : bool :=
  (nat_of_ascii c1 =? 194)%nat && (nat_of_ascii c2 =? 160)%nat.

Definition is_space3 (c1 c2 c3 : ascii) : bool :=
  let n1 := nat_of_ascii c1 in
  let n2 := nat_of_ascii c2 in
  let n3 := nat_of_ascii c3 in
  ((n1 =? 225)%nat && (n2 =? 154)%nat && (n3 =? 128)%nat)
  || ((n1 =? 226)%nat && (n2 =? 128)%nat
      && (((128 <=? n3)%nat && (n3 <=? 138)%nat)
          || (n3 =? 168)%nat || (n3 =? 169)%nat || (n3 =? 175)%nat))
  || ((n1 =? 226)%nat && (n2 =? 129)%nat && (n3 =? 159)%nat)
  || ((n1 =? 227)%nat && (n2 =? 128)%nat && (n3 =? 128)%nat)
  || ((n1 =? 239)%nat && (n2 =? 187)%nat && (n3 =? 191)%nat).

(** The white space at the head of [s] is dropped.  The bytes of [s] are
    in reading order when [forward] holds, and in reverse order
    otherwise, in which case the bytes of a character come last byte
    first. *)
Fixpoint strip (forward : bool) (s : string) : string :=
  match s with
  | EmptyString => EmptyString
  | String c1 s1 =>
      if is_space c1 then strip forward s1
      else
        match s1 with
        | EmptyString => s
        | String c2 s2 =>
            if (if forward then is_space2 c1 c2 else is_space2 c2 c1)
            then strip forward s2
            else
              match s2 with
              | EmptyString => s
              | String c3 s3 =>
                  if (if forward then is_space3 c1 c2 c3
                      else is_space3 c3 c2 c1)
                  then strip forward s3
                  else s
              end
        end
  end.

(** [s.trimStart()] *)
Definition trimStart (s : string) : string := strip true s.

Definition rev_string (s : string) : string :=
  string_of_list_ascii (rev (list_ascii_of_string s)).

(** [s.trimEnd()] *)
Definition trimEnd (s : string) : string :=
  rev_string (strip false (rev_string s)).

(** [s.trim()] *)
Definition trim (s : string) : string :=
  trimEnd (trimStart s).

(** [s.split('\n')] *)
Fixpoint split_lines (s : string) : list string :=
  match s with
  | EmptyString => [EmptyString]
  | String c s' =>
      if Ascii.eqb c (ascii_of_nat 10) then EmptyString :: split_lines s'
      else match split_lines s' with
           | l :: ls => String c l :: ls
           | [] => [String c EmptyString]
           end
  end.

(** [s.replace('/', '')]: the first slash is removed. *)
Fixpoint remove_first_slash (s : string) : string :=
  match s with
  | EmptyString => EmptyString
  | String c s' => if Ascii.eqb c "/"%char then s' else String c (remove_first_slash s')
  end.

(** The string with its [i]-th character replaced by [c]. *)
Fixpoint substitute (i : nat) (c : ascii) (s : string) : string :=
  match s, i with
  | EmptyString, _ => EmptyString
  | String _ s', O => String c s'
  | String d s', S i' => String d (substitute i' c s')
  end.

(** The last two characters, the last one first. *)
Definition last_two (s : string) : list ascii :=
  firstn 2 (rev (list_ascii_of_string s)).

(** [l.includes(x)] on an array of strings. *)
Definition mem (x : string) (l : list string) : bool :=
  existsb (String.eqb x) l.

End Str.

(** ** The file system, as [fs] and [path] see it *)

Module Fs.

Record FileSystem := mkFS {
  existsSync : string -> bool;
  readFileSync : string -> js string;
  readdirSync : string -> js (list string);
  (** [fs.statSync(p).isDirectory()] *)
  isDirectory : string -> js bool
}.

(** [path.join(dir, name)]; the segments are kept as they are, and the
    file system resolves the path. *)
Definition path_join (dir name : string) : string :=
  dir +:+ "/" +:+ name.

(** [path.basename(p)]: the last segment, trailing slashes dropped. *)
Fixpoint last_segment (l : list ascii) : list ascii :=
  match l with
  | [] => []
  | c :: l' => if Ascii.eqb c "/"%char then [] else c :: last_segment l'
  end.

Fixpoint drop_slashes (l : list ascii) : list ascii :=
  match l with
  | c :: l' => if Ascii.eqb c "/"%char then drop_slashes l' else l
  | [] => []
  end.

Definition basename (p : string) : string :=
  string_of_list_ascii
    (rev (last_segment (drop_slashes (rev (list_ascii_of_string p))))).

(** A concrete file system built from a finite table, for examples. *)
Inductive node :=
| File (content : string)
| Dir (entries : list string).

Fixpoint find_node (t : list (string * node)) (p : string) : option node :=
  match t with
  | [] => None
  | (q, n) :: t' => if String.eqb q p then Some n else find_node t' p
  end.

Definition of_table (t : list (string * node)) : FileSystem :=
  {| existsSync p := match find_node t p with Some _ => true | None => false end;
     readFileSync p :=
       match find_node t p with
       | Some (File c) => Return c
       | Some (Dir _) => Throw (mkError "EISDIR: illegal operation on a directory, read")
       | None => Throw (mkError ("ENOENT: no such file or directory, open '" +:+ p +:+ "'"))
       end;
     readdirSync p :=
       match find_node t p with
       | Some (Dir es) => Return es
       | Some (File _) => Throw (mkError ("ENOTDIR: not a directory, scandir '" +:+ p +:+ "'"))
       | None => Throw (mkError ("ENOENT: no such file or directory, scandir '" +:+ p +:+ "'"))
       end;
     isDirectory p :=
       match find_node t p with
       | Some (Dir _) => Return true
       | Some (File _) => Return false
       | None => Throw (mkError ("ENOENT: no such file or directory, stat '" +:+ p +:+ "'"))
       end |}.

End Fs.
Export Fs.

(** ** Rules, findings and results *)

(** One namespace of a rule file; a field that the file leaves out is
    [None] ([undefined]). *)
Record NamespaceRules := mkNamespace {
  requiredFiles : option (list string);
  prohibitedFiles : option (list string);
  prohibitedFolders : option (list string);
  gitignoreRules : option (list string)
}.

(** The object read from a rule file: namespaces by name. *)
Abbreviation RuleSet := (gmap string NamespaceRules).

Record Finding := mkFinding {
  rule : string;
  message : string;
  suggestion : option string
}.

(** What an analyzer returns: [{analyzer, passed, failed, warnings}]. *)
Module Findings.
Record t := mk {
  analyzer : string;
  passed : list Finding;
  failed : list Finding;
  warnings : list Finding
}.

Definition new (name : string) : t := mk name [] [] [].

(** [results.passed.push(f)] and its two siblings. *)
Definition push_passed (r : t) (f : Finding) : t :=
  mk (analyzer r) (passed r ++ [f]) (failed r) (warnings r).
Definition push_failed (r : t) (f : Finding) : t :=
  mk (analyzer r) (passed r) (failed r ++ [f]) (warnings r).
Definition push_warning (r : t) (f : Finding) : t :=
  mk (analyzer r) (passed r) (failed r) (warnings r ++ [f]).
End Findings.

(** The capability the orchestrator calls. *)
Record Analyzer := mkAnalyzer {
  name : string;
  analyze : FileSystem -> string -> RuleSet -> js Findings.t
}.

(** ** gitignore-analyzer.js *)

Module GitignoreAnalyzer.
Import Str Findings.

Definition name : string := "Gitignore Analyzer".

Definition checkRequiredRules (gitignoreLines requiredRules : list string)
    (results : Findings.t) : Findings.t :=
  fold_left (fun results rule =>
    let found :=
      existsb (fun line =>
                 String.eqb line rule || includes line (remove_first_slash rule))
              gitignoreLines in
    if found then
      push_passed results
        (mkFinding ("gitignore-has-" +:+ remove_first_slash rule)
                   ("✅ .gitignore includes: " +:+ rule)
                   None)
    else
      push_failed results
        (mkFinding ("gitignore-missing-" +:+ remove_first_slash rule)
                   ("❌ .gitignore missing: " +:+ rule)
                   (Some ("Add '" +:+ rule +:+ "' to your .gitignore file"))))
    requiredRules results.

Definition checkGeneralRules (gitignoreLines : list string)
    (generalRules : NamespaceRules) (results : Findings.t) : Findings.t :=
  match prohibitedFolders generalRules with
  | Some folders =>
      fold_left (fun results folder =>
        let found := existsb (fun line => includes line folder) gitignoreLines in
        if found then
          push_passed results
            (mkFinding ("gitignore-excludes-" +:+ folder)
                       ("✅ .gitignore excludes: " +:+ folder)
                       None)
        else
          push_warning results
            (mkFinding ("gitignore-should-exclude-" +:+ folder)
                       ("⚠️  Consider adding '" +:+ folder +:+ "/' to .gitignore")
                       (Some ("Add '" +:+ folder
                              +:+ "/' to exclude this folder from version control"))))
        folders results
  | None => results
  end.

Definition analyze (fs : FileSystem) (projectPath : string) (rules : RuleSet)
    : js Findings.t :=
  let results := Findings.new name in
  let gitignorePath := path_join projectPath ".gitignore" in
  if negb (existsSync fs gitignorePath) then
    Return
      (push_failed results
         (mkFinding "gitignore-exists"
            "❌ Missing .gitignore file"
            (Some "Create a .gitignore file to exclude unnecessary files from version control")))
  else
    let results :=
      push_passed results
        (mkFinding "gitignore-exists" "✅ .gitignore file found" None) in
    match readFileSync fs gitignorePath with
    | Return gitignoreContent =>
        let gitignoreLines := map trim (split_lines gitignoreContent) in
        match rules !! "nodejs" ≫= gitignoreRules with
        | Some required =>
            Return (checkRequiredRules gitignoreLines required results)
        | None =>
            match rules !! "general" with
            | Some general =>
                Return (checkGeneralRules gitignoreLines general results)
            | None => Return results
            end
        end
    | Throw _ =>
        Return
          (push_failed results
             (mkFinding "gitignore-readable"
                "❌ Could not read .gitignore file"
                (Some "Make sure .gitignore file is readable")))
    end.

Definition it : Analyzer := mkAnalyzer name analyze.

End GitignoreAnalyzer.

(** ** env-analyzer.js *)

Module EnvAnalyzer.
Import Str Findings.

Definition name : string := "Environment Files Analyzer".

Definition findEnvFiles (fs : FileSystem) (projectPath : string)
    (prohibitedFiles : list string) : list string :=
  match readdirSync fs projectPath with
  | Return files =>
      flat_map (fun file =>
        (if mem file prohibitedFiles then [file] else [])
        ++ (if startsWith file ".env" && negb (String.eqb file ".env.example")
            then [file] else []))
        files
  | Throw _ => []
  end.

(** The failed finding pushed for one file found. *)
Definition committed (envFile : string) : Finding :=
  mkFinding "env-file-committed"
    ("❌ Environment file found: " +:+ envFile)
    (Some ("Remove '" +:+ envFile
           +:+ "' from repository and add it to .gitignore. Use '.env.example' instead to show required variables.")).

Definition analyze (fs : FileSystem) (projectPath : string) (rules : RuleSet)
    : js Findings.t :=
  let results := Findings.new name in
  let prohibitedEnvFiles :=
    default [".env"; ".env.local"; ".env.production"; ".env.development"]
            (rules !! "general" ≫= prohibitedFiles) in
  let foundEnvFiles := findEnvFiles fs projectPath prohibitedEnvFiles in
  let results :=
    match foundEnvFiles with
    | [] =>
        push_passed results
          (mkFinding "no-env-files-committed"
                     "✅ No .env files found in repository" None)
    | _ =>
        fold_left (fun results envFile =>
                     push_failed results (committed envFile))
          foundEnvFiles results
    end in
  let envExamplePath := path_join projectPath ".env.example" in
  if existsSync fs envExamplePath then
    Return
      (push_passed results
         (mkFinding "env-example-exists"
                    "✅ .env.example file found (good practice)" None))
  else
    Return
      (push_warning results
         (mkFinding "env-example-recommended"
            "⚠️  Consider creating .env.example file"
            (Some "Create .env.example with dummy values to show required environment variables"))).

(** The recursive variant, which [analyze] does not call.  The walk over
    one directory stops at the first entry whose [statSync] throws and
    keeps what it has found so far. *)
Fixpoint findEnvFilesRecursive_levels (levels : nat) (fs : FileSystem)
    (dir : string) (prohibitedFiles : list string) : list string :=
  match levels with
  | O => []
  | S levels' =>
      match readdirSync fs dir with
      | Return files =>
          (fix walk (files foundFiles : list string) : list string :=
             match files with
             | [] => foundFiles
             | file :: rest =>
                 let filePath := path_join dir file in
                 match isDirectory fs filePath with
                 | Throw _ => foundFiles
                 | Return d =>
                     if d && negb (startsWith file ".")
                          && negb (String.eqb file "node_modules")
                     then walk rest
                            (foundFiles ++
                               findEnvFilesRecursive_levels levels' fs filePath
                                 prohibitedFiles)
                     else if mem file prohibitedFiles
                             || (startsWith file ".env"
                                 && negb (String.eqb file ".env.example"))
                     then walk rest (foundFiles ++ [file])
                     else walk rest foundFiles
                 end
             end) files []
      | Throw _ => []
      end
  end.

(** [depth > maxDepth] leaves no level to visit. *)
Definition findEnvFilesRecursive (fs : FileSystem) (dir : string)
    (prohibitedFiles : list string) (depth maxDepth : nat) : list string :=
  findEnvFilesRecursive_levels (S maxDepth - depth) fs dir prohibitedFiles.

Definition it : Analyzer := mkAnalyzer name analyze.

End EnvAnalyzer.

(** ** dependency-analyzer.js *)

Module DependencyAnalyzer.
Import Str Findings.

Definition name : string := "Dependency Folders Analyzer".

Definition checkPackageManagerFiles (fs : FileSystem) (projectPath : string)
    (results : Findings.t) : Findings.t :=
  let results :=
    if existsSync fs (path_join projectPath "package.json") then
      let results :=
        push_passed results
          (mkFinding "package-json-exists" "✅ package.json found" None) in
      let results :=
        if negb (existsSync fs (path_join projectPath "node_modules")) then
          push_passed results
            (mkFinding "node-modules-not-committed"
                       "✅ node_modules/ not in repository (good!)" None)
        else results in
      if existsSync fs (path_join projectPath "package-lock.json") then
        push_passed results
          (mkFinding "lockfile-exists"
             "✅ package-lock.json found (dependency versions locked)" None)
      else if existsSync fs (path_join projectPath "yarn.lock") then
        push_passed results
          (mkFinding "lockfile-exists"
             "✅ yarn.lock found (dependency versions locked)" None)
      else
        push_warning results
          (mkFinding "lockfile-recommended"
             "⚠️  No lockfile found (package-lock.json or yarn.lock)"
             (Some "Consider committing your lockfile to ensure consistent dependency versions"))
    else results in
  if existsSync fs (path_join projectPath "requirements.txt") then
    let results :=
      push_passed results
        (mkFinding "requirements-exists" "✅ requirements.txt found" None) in
    if negb (existsSync fs (path_join projectPath ".venv"))
       && negb (existsSync fs (path_join projectPath "venv")) then
      push_passed results
        (mkFinding "venv-not-committed"
           "✅ Virtual environment not in repository (good!)" None)
    else results
  else results.

(** The [forEach] over the prohibited folders; [statSync] may throw, and
    the exception leaves [analyze]. *)
Fixpoint checkFolders (fs : FileSystem) (projectPath : string)
    (folders : list string) (results : Findings.t) : js Findings.t :=
  match folders with
  | [] => Return results
  | folder :: rest =>
      let folderPath := path_join projectPath folder in
      if existsSync fs folderPath then
        Js.bind (isDirectory fs folderPath) (fun d =>
          if (d : bool) then
            checkFolders fs projectPath rest
              (push_failed results
                 (mkFinding ("no-" +:+ folder +:+ "-committed")
                    ("❌ Dependency folder found: " +:+ folder +:+ "/")
                    (Some ("Remove '" +:+ folder
                           +:+ "/' from repository and add it to .gitignore"))))
          else checkFolders fs projectPath rest results)
      else
        checkFolders fs projectPath rest
          (push_passed results
             (mkFinding ("no-" +:+ folder +:+ "-committed")
                ("✅ No " +:+ folder +:+ "/ folder found in repository")
                None))
  end.

Definition analyze (fs : FileSystem) (projectPath : string) (rules : RuleSet)
    : js Findings.t :=
  let results := Findings.new name in
  let folders :=
    default ["node_modules"; ".venv"; "__pycache__"; "venv"; "env"]
            (rules !! "general" ≫= prohibitedFolders) in
  Js.bind (checkFolders fs projectPath folders results) (fun results =>
    Return (checkPackageManagerFiles fs projectPath results)).

Definition it : Analyzer := mkAnalyzer name analyze.

End DependencyAnalyzer.

(** ** code-reviewer.js *)

(** One entry of the report: what the analyzer returned, or the [error]
    record pushed when it threw. *)
Module Result.
Record t := mk {
  analyzer : string;
  error : option string;
  passed : list Finding;
  failed : list Finding;
  warnings : list Finding
}.

Definition of_findings (r : Findings.t) : t :=
  mk (Findings.analyzer r) None
     (Findings.passed r) (Findings.failed r) (Findings.warnings r).

(** [if (analyzer.error)] *)
Definition has_error (r : t) : bool := truthy_opt (error r).
End Result.

Module Summary.
Record t := mk {
  totalAnalyzers : nat;
  passed : nat;
  failed : nat;
  warnings : nat
}.
End Summary.

Module Report.
Record t := mk {
  projectPath : string;
  projectType : string;
  timestamp : string;
  summary : Summary.t;
  analyzers : list Result.t
}.
End Report.

Module CodeReviewer.
Import Str.

(** [this.analyzers] *)
Record t := mk { analyzers : list Analyzer }.

(** The constructor registers the three analyzers, in this order. *)
Definition new : t :=
  mk [GitignoreAnalyzer.it; EnvAnalyzer.it; DependencyAnalyzer.it].

(** [{ ...a, ...b }]: the keys of both, [b] winning on a shared key. *)
Definition spread (a b : RuleSet) : RuleSet := b ∪ a.

Section Runtime.

(** [JSON.parse] on the text of a rule file: the rule set it denotes,
    or a [SyntaxError]. *)
Variable JSON_parse : string -> js RuleSet.

(** [path.join(__dirname, '..', 'rules')] *)
Variable rulesDir : string.

Definition loadRules (fs : FileSystem) (projectType : string) : RuleSet :=
  let rulesPath := path_join rulesDir (projectType +:+ "-rules.json") in
  let generalRulesPath := path_join rulesDir "general-rules.json" in
  let attempt : js RuleSet :=
    (rules <-
       (if existsSync fs generalRulesPath then
          text <- readFileSync fs generalRulesPath ;;
          generalRules <- JSON_parse text ;;
          Return (spread ∅ generalRules)
        else Return ∅) ;;
     if existsSync fs rulesPath then
       text <- readFileSync fs rulesPath ;;
       projectRules <- JSON_parse text ;;
       Return (spread rules projectRules)
     else Return rules)%js in
  match attempt with
  | Return rules => rules
  | Throw _ => {[ "general" := mkNamespace None None None None ]}
  end.

Definition detectProjectType (fs : FileSystem) (projectPath : string)
    : js string :=
  try_catch
    (files <- readdirSync fs projectPath ;;
     if mem "package.json" files then Return "nodejs"
     else if mem "requirements.txt" files || mem "setup.py" files
             || mem "pyproject.toml" files
     then Return "python"
     else Return "general")%js
    (fun _ => Return "general").

(** One turn of the loop over [this.analyzers]. *)
Definition run_analyzer (fs : FileSystem) (projectPath : string)
    (rules : RuleSet) (results : Report.t) (analyzer : Analyzer) : Report.t :=
  let s := Report.summary results in
  match analyze analyzer fs projectPath rules with
  | Return analyzerResult =>
      Report.mk (Report.projectPath results) (Report.projectType results)
        (Report.timestamp results)
        (Summary.mk (Summary.totalAnalyzers s)
           (Summary.passed s + length (Findings.passed analyzerResult))
           (Summary.failed s + length (Findings.failed analyzerResult))
           (Summary.warnings s + length (Findings.warnings analyzerResult)))
        (Report.analyzers results ++ [Result.of_findings analyzerResult])
  | Throw error =>
      Report.mk (Report.projectPath results) (Report.projectType results)
        (Report.timestamp results) s
        (Report.analyzers results
           ++ [Result.mk (name analyzer) (Some (Js.message error)) [] [] []])
  end.

(** [now] is [new Date().toISOString()]; [projectType] is [None] when
    the caller leaves it out. *)
Definition analyzeProject (this : t) (fs : FileSystem) (now : string)
    (projectPath : string) (projectType : option string) : js Report.t :=
  if negb (existsSync fs projectPath) then
    Throw (mkError ("Project directory does not exist: " +:+ projectPath))
  else
    (projectType <-
       (if truthy_opt projectType then Return (default "" projectType)
        else detectProjectType fs projectPath) ;;
     let rules := loadRules fs projectType in
     let results :=
       Report.mk projectPath projectType now
         (Summary.mk (length (analyzers this)) 0 0 0) [] in
     Return (fold_left (run_analyzer fs projectPath rules)
                       (analyzers this) results))%js.

End Runtime.

(** The three arrays that [generateReport] fills. *)
Record lines := mkLines {
  criticalIssues : list string;
  warnings : list string;
  successes : list string
}.

Definition with_suggestion (f : Finding) (line : string) : list string :=
  line :: (if truthy_opt (suggestion f)
           then ["   💡 *" +:+ default "" (suggestion f) +:+ "*"]
           else []).

Definition collect (acc : lines) (analyzer : Result.t) : lines :=
  if Result.has_error analyzer then
    mkLines
      (criticalIssues acc
         ++ ["❌ **" +:+ Result.analyzer analyzer +:+ "**: "
             +:+ default "" (Result.error analyzer)])
      (warnings acc) (successes acc)
  else
    mkLines
      (criticalIssues acc
         ++ flat_map (fun failure =>
              with_suggestion failure ("❌ **" +:+ message failure +:+ "**"))
            (Result.failed analyzer))
      (warnings acc
         ++ flat_map (fun warning =>
              with_suggestion warning ("⚠️  **" +:+ message warning +:+ "**"))
            (Result.warnings analyzer))
      (successes acc
         ++ map (fun success => "✅ " +:+ message success)
                (Result.passed analyzer)).

Definition header (results : Report.t) : string :=
  "🤖 **Code Structure Review**" +:+ nl +:+ nl
  +:+ "📁 Project: " +:+ basename (Report.projectPath results) +:+ nl
  +:+ "🔧 Type: " +:+ Report.projectType results +:+ nl
  +:+ "📊 Summary: "
  +:+ show_nat (Summary.passed (Report.summary results)) +:+ " passed, "
  +:+ show_nat (Summary.failed (Report.summary results)) +:+ " failed, "
  +:+ show_nat (Summary.warnings (Report.summary results)) +:+ " warnings"
  +:+ nl +:+ nl.

Definition section (title : string) (l : list string) : string :=
  match l with
  | [] => ""
  | _ => title +:+ nl +:+ join nl l +:+ nl +:+ nl
  end.

Definition recommendations : string :=
  "## 📚 General Recommendations" +:+ nl
  +:+ "- Keep your .gitignore file updated" +:+ nl
  +:+ "- Never commit environment files (.env)" +:+ nl
  +:+ "- Exclude dependency folders (node_modules, .venv)" +:+ nl
  +:+ "- Use .env.example to document required environment variables" +:+ nl.

Definition generateReport (results : Report.t) : string :=
  let acc := fold_left collect (Report.analyzers results) (mkLines [] [] []) in
  header results
  +:+ section "## ❌ Issues Found" (criticalIssues acc)
  +:+ section "## ⚠️  Warnings" (warnings acc)
  +:+ section "## ✅ Good Practices Found" (successes acc)
  +:+ match criticalIssues acc, warnings acc with
      | [], [] => ""
      | _, _ => recommendations
      end.

End CodeReviewer.

(** ** The GitHub REST client ([octokit.rest]) and what it acts on *)

Module GitHub.

(** [owner], [repo] and the number of the pull request. *)
Abbreviation PRKey := (string * string * nat)%type.

Record Comment := mkComment { id : nat; body : string }.
Record PullFile := mkPullFile { filename : string }.
Record Pull := mkPull { title : string; head_sha : string }.

Inductive Endpoint :=
| PullsGet | PullsListFiles
| IssuesListComments | IssuesUpdateComment | IssuesCreateComment.

(** The parameters object of a [pulls] request.  Octokit builds the path
    of the request from [pull_number]; a property it does not know, such
    as [pull_request_number], travels in the query string and selects no
    pull request. *)
Record PullParams := mkPullParams {
  owner : string;
  repo : string;
  pull_number : option nat;
  pull_request_number : option nat
}.

(** The [data] of the answer to [pulls.get]: a pull request or, when the
    path names none and the request reaches the listing of the
    repository, an array of pull requests.  The array has no [head] and
    no [title]; its elements are not read. *)
Inductive PullData :=
| OnePull (pr : Pull)
| PullList.

(** The requests sent, in order.  A listing answers with the whole thread
    or file list, in one page. *)
Inductive Call :=
| GetPull (p : PullParams)
| ListFiles (p : PullParams)
| ListComments (k : PRKey)
| UpdateComment (owner repo : string) (comment_id : nat) (body : string)
| CreateComment (k : PRKey) (body : string).

Record World := mkWorld {
  pulls : gmap PRKey Pull;
  files : gmap PRKey (list PullFile);
  comments : gmap PRKey (list Comment);
  next_id : nat;
  (** the endpoints that answer with an error (permissions, rate limit) *)
  denied : Endpoint -> bool;
  (** [new Date().toISOString()] *)
  now : string;
  calls : list Call
}.

Definition thread (w : World) (k : PRKey) : list Comment :=
  default [] (comments w !! k).

(** Computations that read and change the world and may throw (the
    [async] methods of the handler, awaited one after the other). *)
Definition M (A : Type) : Type := World -> js A * World.

Definition ret {A} (v : A) : M A := fun w => (Return v, w).
Definition throw {A} (e : Error) : M A := fun w => (Throw e, w).
Definition bind {A B} (m : M A) (k : A -> M B) : M B :=
  fun w =>
    match m w with
    | (Return v, w') => k v w'
    | (Throw e, w') => (Throw e, w')
    end.
Definition try_catch {A} (m : M A) (h : Error -> M A) : M A :=
  fun w =>
    match m w with
    | (Return v, w') => (Return v, w')
    | (Throw e, w') => h e w'
    end.
Definition lift {A} (j : js A) : M A := fun w => (j, w).
Definition get_now : M string := fun w => (Return (now w), w).

Definition set_comments (w : World) (c : gmap PRKey (list Comment))
    (n : nat) : World :=
  mkWorld (pulls w) (files w) c n (denied w) (now w) (calls w).

Definition record_call (w : World) (c : Call) : World :=
  mkWorld (pulls w) (files w) (comments w) (next_id w)
          (denied w) (now w) (calls w ++ [c]).

(** Every request is recorded; a denied endpoint rejects. *)
Definition request (e : Endpoint) (c : Call) : M unit :=
  fun w =>
    if denied w e
    then (Throw (mkError "Resource not accessible by integration"),
          record_call w c)
    else (Return tt, record_call w c).

(** [GET /repos/{owner}/{repo}/pulls/{pull_number}]; without a
    [pull_number] the path is that of the listing of the repository, which
    answers with an array. *)
Definition pulls_get (p : PullParams) : M PullData :=
  bind (request PullsGet (GetPull p)) (fun _ w =>
    match pull_number p with
    | Some n =>
        match pulls w !! (owner p, repo p, n) with
        | Some pr => (Return (OnePull pr), w)
        | None => (Throw (mkError "Not Found"), w)
        end
    | None => (Return PullList, w)
    end).

(** [GET /repos/{owner}/{repo}/pulls/{pull_number}/files]; without a
    [pull_number] the path names no pull request and GitHub answers 404. *)
Definition pulls_listFiles (p : PullParams) : M (list PullFile) :=
  bind (request PullsListFiles (ListFiles p)) (fun _ w =>
    match pull_number p with
    | Some n =>
        match files w !! (owner p, repo p, n) with
        | Some l => (Return l, w)
        | None => (Throw (mkError "Not Found"), w)
        end
    | None => (Throw (mkError "Not Found"), w)
    end).

Definition issues_listComments (k : PRKey) : M (list Comment) :=
  bind (request IssuesListComments (ListComments k)) (fun _ w =>
    (Return (thread w k), w)).

Definition set_body (comment_id : nat) (b : string) (c : Comment) : Comment :=
  if Nat.eqb (id c) comment_id then mkComment (id c) b else c.

(** The comment keeps its identifier and its place; its body is replaced. *)
Definition issues_updateComment (owner repo : string) (comment_id : nat)
    (b : string) : M unit :=
  bind (request IssuesUpdateComment (UpdateComment owner repo comment_id b))
    (fun _ w =>
       (Return tt,
        set_comments w (fmap (map (set_body comment_id b)) (comments w))
                     (next_id w))).

Definition issues_createComment (k : PRKey) (b : string) : M unit :=
  bind (request IssuesCreateComment (CreateComment k b)) (fun _ w =>
    (Return tt,
     set_comments w
       (<[k := thread w k ++ [mkComment (next_id w) b]]> (comments w))
       (S (next_id w)))).

End GitHub.

Declare Scope gh_scope.
Delimit Scope gh_scope with gh.
Notation "x <- m ;; k" := (GitHub.bind m (fun x => k))
  (at level 100, m at next level, right associativity) : gh_scope.

(** ** github-webhook-handler.js

    The handler whose pipeline is [analyzePR].  The later version of the
    file renders its reports in Spanish after the event filter; it shares
    [verifyWebhookSignature], [handleWebhook], the event filter of
    [handlePullRequestEvent] and [commentOnPR] with this one, word for
    word. *)

Module GitHubWebhookHandler.
Import Str Crypto GitHub.

(** [process.env] *)
Record Env := mkEnv {
  WEBHOOK_SECRET : option string;
  GITHUB_TOKEN : option string
}.

Record t := mk {
  webhookSecret : string;
  githubToken : option string
}.

(** The constructor: an unset or empty [WEBHOOK_SECRET] is replaced by a
    placeholder. *)
Definition new (env : Env) : t :=
  mk (or_default (WEBHOOK_SECRET env) "your-webhook-secret-here")
     (GITHUB_TOKEN env).

(** The request as [express.raw] hands it over: the two headers read by
    the handler and the raw body. *)
Record Request := mkRequest {
  x_hub_signature_256 : option string;
  x_github_event : option string;
  raw_body : bytes
}.

Inductive Json :=
| ErrorJson (error : string)
| MessageJson (message : string).

Record Response := mkResponse { status : nat; json : Json }.

Record PullRequestPayload := mkPullRequestPayload {
  number : nat;
  pr_title : string;
  pr_body : option string
}.

Record RepositoryPayload := mkRepositoryPayload {
  repo_name : string;
  owner_login : string;
  full_name : string
}.

Record Payload := mkPayload {
  action : option string;
  pull_request : option PullRequestPayload;
  repository : option RepositoryPayload
}.

Record Issue := mkIssue {
  type : string;
  file : option string;
  issue_message : string;
  issue_suggestion : option string
}.

Record Analysis := mkAnalysis {
  projectType : string;
  passed : nat;
  failed : nat;
  warnings_count : nat;
  issues : list Issue;
  warnings : list Issue;
  successes : list Issue
}.

Definition expectedSignature (this : t) (payload : bytes) : string :=
  let computedSignature := hmac_sha256_hex (webhookSecret this) payload in
  "sha256=" +:+ computedSignature.

Definition verifyWebhookSignature (this : t) (payload : bytes)
    (signature : string) : js bool :=
  timingSafeEqual (Buffer_from signature)
                  (Buffer_from (expectedSignature this payload)).

Definition analyzeFiles (owner repo sha : string) (files : list PullFile)
    : Analysis :=
  let hasPackageJson :=
    existsb (fun f => String.eqb (filename f) "package.json") files in
  let hasRequirements :=
    existsb (fun f => String.eqb (filename f) "requirements.txt") files in
  let results :=
    mkAnalysis (if hasPackageJson then "nodejs"
                else if hasRequirements then "python" else "unknown")
               0 0 0 [] [] [] in
  fold_left (fun results file =>
    let filename := filename file in
    let results :=
      if startsWith filename ".env" && negb (String.eqb filename ".env.example")
      then mkAnalysis (projectType results) (passed results)
             (S (failed results)) (warnings_count results)
             (issues results ++
                [mkIssue "env-file" (Some filename)
                   ("❌ Environment file should not be committed: " +:+ filename)
                   (Some ("Remove " +:+ filename +:+ " and add it to .gitignore"))])
             (warnings results) (successes results)
      else results in
    let results :=
      if startsWith filename "node_modules/"
      then mkAnalysis (projectType results) (passed results)
             (S (failed results)) (warnings_count results)
             (issues results ++
                [mkIssue "dependency-folder" (Some "node_modules/")
                   "❌ node_modules/ folder should not be committed"
                   (Some "Add node_modules/ to .gitignore and remove from repository")])
             (warnings results) (successes results)
      else results in
    if String.eqb filename ".gitignore"
    then mkAnalysis (projectType results) (S (passed results))
           (failed results) (warnings_count results)
           (issues results) (warnings results)
           (successes results ++
              [mkIssue "gitignore" None "✅ .gitignore file found" None])
    else results)
    files results.

(** The leading line of every report, which [commentOnPR] looks for. *)
Definition marker : string := "🤖 **Code Structure Review**".

Definition generatePRReport (analysis : Analysis) (pr : Pull)
    (files : list PullFile) (now : string) : string :=
  let report :=
    marker +:+ nl +:+ nl
    +:+ "📋 **PR Summary:** " +:+ title pr +:+ nl
    +:+ "📁 **Files changed:** " +:+ show_nat (length files) +:+ nl
    +:+ "🔧 **Project type:** " +:+ projectType analysis +:+ nl
    +:+ "📊 **Analysis:** " +:+ show_nat (passed analysis) +:+ " passed, "
    +:+ show_nat (failed analysis) +:+ " failed, "
    +:+ show_nat (warnings_count analysis) +:+ " warnings" +:+ nl +:+ nl in
  let report :=
    match issues analysis with
    | [] => report
    | _ =>
        fold_left (fun report issue =>
          let report := report +:+ issue_message issue +:+ nl in
          if truthy_opt (issue_suggestion issue)
          then report +:+ "💡 *" +:+ default "" (issue_suggestion issue)
               +:+ "*" +:+ nl +:+ nl
          else report)
          (issues analysis) (report +:+ "## ❌ Issues Found" +:+ nl +:+ nl)
    end in
  let report :=
    match warnings analysis with
    | [] => report
    | _ =>
        fold_left (fun report warning =>
          report +:+ issue_message warning +:+ nl +:+ nl)
          (warnings analysis) (report +:+ "## ⚠️  Warnings" +:+ nl +:+ nl)
    end in
  let report :=
    match successes analysis with
    | [] => report
    | _ =>
        fold_left (fun report success =>
          report +:+ issue_message success +:+ nl)
          (successes analysis) (report +:+ "## ✅ Good Practices" +:+ nl +:+ nl)
    end in
  report +:+ nl +:+ "---" +:+ nl
  +:+ "🤖 *Automated review by [PR Code Reviewer](https://github.com/sarboleda72/pr-code-reviewer)*"
  +:+ nl +:+ "📊 Reviewed at: " +:+ now +:+ nl
  +:+ "🔄 Commit: `" +:+ String.substring 0 7 (head_sha pr) +:+ "`".

(** The comment posted when the analysis throws. *)
Definition failure_report (error_message : string) : string :=
  "🤖 **Code Review Failed**" +:+ nl +:+ nl
  +:+ "❌ **Error during analysis:** " +:+ error_message +:+ nl +:+ nl
  +:+ "Please check the server logs or contact support." +:+ nl +:+ nl
  +:+ "---" +:+ nl
  +:+ "🔧 *Automated review by PR Code Reviewer*".

Definition commentOnPR (owner repo : string) (prNumber : nat)
    (message : string) : M unit :=
  try_catch
    (comments <- issues_listComments (owner, repo, prNumber) ;;
     let botComment :=
       List.find (fun comment => includes (body comment) marker) comments in
     match botComment with
     | Some botComment =>
         issues_updateComment owner repo (id botComment) message
     | None =>
         issues_createComment (owner, repo, prNumber) message
     end)%gh
    (fun error => throw error).

(** The two reads pass the number as [pull_request_number].  Reading
    [pr.head.sha] throws a [TypeError] when [pr] is the array of the
    listing. *)
Definition analyzePR (owner repo : string) (prNumber : nat)
    : M (Analysis * nat) :=
  (pr <- pulls_get (mkPullParams owner repo None (Some prNumber)) ;;
   files <- pulls_listFiles (mkPullParams owner repo None (Some prNumber)) ;;
   match pr with
   | OnePull pr =>
       let analysisResult := analyzeFiles owner repo (head_sha pr) files in
       now <- get_now ;;
       let report := generatePRReport analysisResult pr files now in
       _ <- commentOnPR owner repo prNumber report ;;
       ret (analysisResult, length files)
   | PullList =>
       throw (mkError "Cannot read properties of undefined (reading 'sha')")
   end)%gh.

Definition relevantActions : list string :=
  ["opened"; "synchronize"; "reopened"].

(** [relevantActions.includes(action)], [action] possibly [undefined]. *)
Definition relevant (action : option string) : bool :=
  match action with
  | Some a => mem a relevantActions
  | None => false
  end.

Definition handlePullRequestEvent (payload : Payload) : M unit :=
  if negb (relevant (action payload)) then ret tt
  else
    match pull_request payload, repository payload with
    | Some pull_request, Some repository =>
        try_catch
          (_ <- analyzePR (owner_login repository) (repo_name repository)
                          (number pull_request) ;;
           ret tt)%gh
          (fun error =>
             commentOnPR (owner_login repository) (repo_name repository)
               (number pull_request) (failure_report (Js.message error)))
    | _, _ =>
        throw (mkError "Cannot read properties of undefined")
    end.

Section Handler.

(** [JSON.parse(req.body.toString())] *)
Variable JSON_parse : bytes -> js Payload.

(** What follows the signature check inside the [try] block. *)
Definition process (req : Request) : M Response :=
  (payload <- lift (JSON_parse (raw_body req)) ;;
   let event := x_github_event req in
   _ <- (if bool_decide (event = Some "pull_request")
         then handlePullRequestEvent payload
         else ret tt) ;;
   ret (mkResponse 200 (MessageJson "Webhook processed successfully")))%gh.

(** The [catch] clause of [handleWebhook]: whatever was thrown inside
    the [try] block is answered with a server error. *)
Definition respond (r : js Response * World) : Response * World :=
  match r with
  | (Return res, w) => (res, w)
  | (Throw _, w) => (mkResponse 500 (ErrorJson "Internal server error"), w)
  end.

Definition handleWebhook (this : t) (req : Request)
    : World -> Response * World :=
  fun w =>
    let signature := x_hub_signature_256 req in
    respond
      ((if truthy (webhookSecret this) && truthy_opt signature then
          (valid <- lift (verifyWebhookSignature this (raw_body req)
                            (default "" signature)) ;;
           if negb valid
           then ret (mkResponse 401 (ErrorJson "Invalid signature"))
           else process req)%gh
        else process req) w).

End Handler.

End GitHubWebhookHandler.

(** ** Quantities the specification speaks of *)

Module Spec.

(** The entries of a report that carry no [error]. *)
Definition without_error (r : Result.t) : bool :=
  match Result.error r with
  | None => true
  | Some _ => false
  end.

(** The sum of the lengths of one of the three lists over the entries
    without [error]. *)
Definition total (proj : Result.t -> list Finding) (l : list Result.t) : nat :=
  list_sum (map (fun r => length (proj r)) (List.filter without_error l)).

(** The entry that one analyzer leaves in the report. *)
Definition entry_of (fs : FileSystem) (projectPath : string) (rules : RuleSet)
    (a : Analyzer) : Result.t :=
  match analyze a fs projectPath rules with
  | Return r => Result.of_findings r
  | Throw e => Result.mk (name a) (Some (Js.message e)) [] [] []
  end.

Definition count_of (fs : FileSystem) (projectPath : string) (rules : RuleSet)
    (proj : Result.t -> list Finding) (l : list Analyzer) : nat :=
  list_sum (map (fun a => length (proj (entry_of fs projectPath rules a))) l).

(** The request passes the signature check of [handleWebhook]: no check
    is made, or the check succeeds. *)
Definition accepted (this : GitHubWebhookHandler.t)
    (req : GitHubWebhookHandler.Request) : Prop :=
  truthy (GitHubWebhookHandler.webhookSecret this)
  && truthy_opt (GitHubWebhookHandler.x_hub_signature_256 req) = false
  \/ GitHubWebhookHandler.verifyWebhookSignature this
       (GitHubWebhookHandler.raw_body req)
       (default "" (GitHubWebhookHandler.x_hub_signature_256 req))
     = Return true.

(** A comment that [commentOnPR] takes for the bot's own. *)
Definition bot (c : GitHub.Comment) : bool :=
  includes (GitHub.body c) GitHubWebhookHandler.marker.

Definition bot_comments (w : GitHub.World) (k : GitHub.PRKey)
    : list GitHub.Comment :=
  List.filter bot (GitHub.thread w k).

(** The identifiers of a thread are distinct and were handed out before
    [next_id]. *)
Definition well_formed (w : GitHub.World) (k : GitHub.PRKey) : Prop :=
  NoDup (map GitHub.id (GitHub.thread w k))
  /\ Forall (fun c => (GitHub.id c < GitHub.next_id w)%nat) (GitHub.thread w k).

(** The upsert step in the words of the specification: the comment
    searched for is one whose body starts with the marker. *)
Definition upsertComment (owner repo : string) (prNumber : nat)
    (message : string) : GitHub.M unit :=
  (comments <- GitHub.issues_listComments (owner, repo, prNumber) ;;
   match List.find (fun comment =>
                      startsWith (GitHub.body comment)
                                 GitHubWebhookHandler.marker) comments with
   | Some botComment =>
       GitHub.issues_updateComment owner repo (GitHub.id botComment) message
   | None =>
       GitHub.issues_createComment (owner, repo, prNumber) message
   end)%gh.

(** The report ends with the closing recommendations section. *)
Definition has_recommendations (report : string) : Prop :=
  exists before, report = before +:+ CodeReviewer.recommendations.

(** An entry that is reported as an issue or as a warning: it carries an
    error, or a failed finding, or a warning finding. *)
Definition troubled (a : Result.t) : bool :=
  Result.has_error a
  || negb (Nat.eqb (length (Result.failed a)) 0)
  || negb (Nat.eqb (length (Result.warnings a)) 0).

End Spec.

(** ** Concrete inputs used in the examples *)

Module Demo.

(** A project whose root holds a committed [.env] and nothing else. *)
Definition fs_env : FileSystem :=
  Fs.of_table
    [ ("/project", Dir [".env"]);
      ("/project/.env", File "SECRET_KEY=abc123") ].

(** The two rule files, and a parser that knows exactly these two texts. *)
Definition general_rules : RuleSet :=
  {[ "general" :=
       mkNamespace (Some [".gitignore"]) (Some [".env"; ".env.local"])
                   (Some ["node_modules"; ".venv"]) None ]}.

Definition nodejs_rules : RuleSet :=
  {[ "nodejs" :=
       mkNamespace (Some [".gitignore"; "package.json"]) None None
                   (Some ["node_modules/"; ".env*"; "dist/"]) ]}.

Definition fs_rules : FileSystem :=
  Fs.of_table
    [ ("/app/rules/general-rules.json", File "<general-rules.json>");
      ("/app/rules/nodejs-rules.json", File "<nodejs-rules.json>") ].

Definition parse_rules (text : string) : js RuleSet :=
  if String.eqb text "<general-rules.json>" then Return general_rules
  else if String.eqb text "<nodejs-rules.json>" then Return nodejs_rules
  else Throw (mkError "Unexpected token in JSON at position 0").

(** A project directory holding a [node_modules] entry on which [stat]
    is refused. *)
Definition fs_denied : FileSystem :=
  {| existsSync p :=
       String.eqb p "/project" || String.eqb p "/project/node_modules";
     readFileSync p :=
       Throw (mkError ("ENOENT: no such file or directory, open '" +:+ p +:+ "'"));
     readdirSync p :=
       if String.eqb p "/project" then Return ["node_modules"]
       else Throw (mkError ("ENOENT: no such file or directory, scandir '" +:+ p +:+ "'"));
     isDirectory p :=
       Throw (mkError ("EACCES: permission denied, stat '" +:+ p +:+ "'")) |}.

(** A handler with a configured secret, and a repository with one open
    pull request that adds a [.env] file. *)
Definition handler : GitHubWebhookHandler.t :=
  GitHubWebhookHandler.new
    (GitHubWebhookHandler.mkEnv (Some "s3cret") (Some "ghp_example")).

Definition pr7 : GitHub.PRKey := ("octo", "demo", 7%nat).

Definition world : GitHub.World :=
  GitHub.mkWorld
    {[ pr7 := GitHub.mkPull "Add login" "0123456789abcdef" ]}
    {[ pr7 := [GitHub.mkPullFile ".env"; GitHub.mkPullFile "index.js"] ]}
    ∅ 1%nat (fun _ => false) "2024-01-01T00:00:00.000Z" [].

Definition quoted (s : string) : string :=
  String (ascii_of_nat 34) s +:+ String (ascii_of_nat 34) "".

(** The body of a delivery for pull request 7, with the given action. *)
Definition delivery_json (action : string) : string :=
  "{" +:+ quoted "action" +:+ ":" +:+ quoted action +:+ ","
  +:+ quoted "pull_request" +:+ ":{" +:+ quoted "number" +:+ ":7,"
  +:+ quoted "title" +:+ ":" +:+ quoted "Add login" +:+ "},"
  +:+ quoted "repository" +:+ ":{" +:+ quoted "name" +:+ ":" +:+ quoted "demo"
  +:+ "," +:+ quoted "full_name" +:+ ":" +:+ quoted "octo/demo" +:+ ","
  +:+ quoted "owner" +:+ ":{" +:+ quoted "login" +:+ ":" +:+ quoted "octo"
  +:+ "}}}".

Definition delivery_payload (action : string) : GitHubWebhookHandler.Payload :=
  GitHubWebhookHandler.mkPayload (Some action)
    (Some (GitHubWebhookHandler.mkPullRequestPayload 7 "Add login" None))
    (Some (GitHubWebhookHandler.mkRepositoryPayload "demo" "octo" "octo/demo")).

(** A parser that knows the deliveries for [opened] and [closed]. *)
Definition parse_payload (b : Crypto.bytes)
    : js GitHubWebhookHandler.Payload :=
  if Crypto.bytes_eqb b (Crypto.bytes_of_text (delivery_json "opened"))
  then Return (delivery_payload "opened")
  else if Crypto.bytes_eqb b (Crypto.bytes_of_text (delivery_json "closed"))
  then Return (delivery_payload "closed")
  else Throw (mkError "Unexpected token in JSON at position 0").

Definition delivery (signature : option string) (action : string)
    : GitHubWebhookHandler.Request :=
  GitHubWebhookHandler.mkRequest signature (Some "pull_request")
    (Crypto.bytes_of_text (delivery_json action)).

(** The signature header that GitHub sends with the two deliveries, and two
    mutations of the first digest character of the first one: to another
    hexadecimal digit, and to the character 233. *)
Definition signature_opened : string :=
  "sha256=9dd91cc8264d126f543266e6b20e92db693b6e99dfc4d05731e38b8a999862e7".

Definition signature_closed : string :=
  "sha256=8d7dad209ab2a6ef3cef3d21050974c7475a62ce2884e77dbf28f83093533670".

Definition signature_hex_mutation : string :=
  Str.substitute 7 "0"%char signature_opened.

Definition signature_high_mutation : string :=
  Str.substitute 7 (ascii_of_nat 233) signature_opened.

(** The same repository after a collaborator has answered, quoting the
    heading of a report. *)
Definition quoting_comment : GitHub.Comment :=
  GitHub.mkComment 1 "> 🤖 **Code Structure Review** is this the bot?".

Definition world_quoted : GitHub.World :=
  GitHub.mkWorld (GitHub.pulls world) (GitHub.files world)
    {[ pr7 := [quoting_comment] ]} 2%nat (fun _ => false)
    "2024-01-01T00:00:00.000Z" [].

Definition report7 : string :=
  GitHubWebhookHandler.generatePRReport
    (GitHubWebhookHandler.analyzeFiles "octo" "demo" "0123456789abcdef"
       [GitHub.mkPullFile ".env"; GitHub.mkPullFile "index.js"])
    (GitHub.mkPull "Add login" "0123456789abcdef")
    [GitHub.mkPullFile ".env"; GitHub.mkPullFile "index.js"]
    "2024-01-01T00:00:00.000Z".

(** The same repository when GitHub refuses to show the pull request. *)
Definition world_refusing : GitHub.World :=
  GitHub.mkWorld (GitHub.pulls world) (GitHub.files world) ∅ 1%nat
    (fun e => match e with GitHub.PullsGet => true | _ => false end)
    "2024-01-01T00:00:00.000Z" [].

(** A report with one analyzer that threw and no finding at all. *)
Definition report_error_only : Report.t :=
  Report.mk "/project" "general" "2024-01-01T00:00:00.000Z"
    (Summary.mk 1 0 0 0)
    [Result.mk "Dependency Folders Analyzer"
       (Some "EACCES: permission denied, stat '/project/node_modules'")
       [] [] []].

End Demo.

(** ** The routes beside [POST /webhook] *)

Module Routes.
Import GitHub GitHubWebhookHandler.

(** The answer of [GET /health]. *)
Record Health := mkHealth {
  health_status : string;
  health_timestamp : string;
  webhook : string;
  github : string
}.

(** [now] is [new Date().toISOString()]. *)
Definition get_health (this : t) (now : string) : Health :=
  mkHealth "ok" now
    (if truthy (webhookSecret this) then "configured" else "not configured")
    (if truthy_opt (githubToken this) then "authenticated"
     else "not authenticated").

(** The body of [POST /analyze], as [express.json] parses it; a field
    that the body leaves out is [None]. *)
Record AnalyzeBody := mkAnalyzeBody {
  owner : option string;
  repo : option string;
  pr_number : option nat
}.

(** What [analyzePR] returns: [{success, pr, analysis, filesAnalyzed}]. *)
Record AnalyzeResult := mkAnalyzeResult {
  success : bool;
  pr : string;
  analysis : Analysis;
  filesAnalyzed : nat
}.

Inductive AnalyzeJson :=
| AnalyzeError (error : string)
| AnalyzeOk (result : AnalyzeResult).

Record AnalyzeResponse := mkAnalyzeResponse {
  analyze_status : nat;
  analyze_json : AnalyzeJson
}.

(** Truthiness of a number that may be absent: [undefined] and [0] are
    falsy. *)
Definition truthy_number (n : option nat) : bool :=
  match n with
  | Some (S _) => true
  | _ => false
  end.

(** The manual analysis route.  It checks no signature. *)
Definition post_analyze (body : AnalyzeBody) : World -> AnalyzeResponse * World :=
  fun w =>
    let attempt : M AnalyzeResponse :=
      if negb (truthy_opt (owner body)) || negb (truthy_opt (repo body))
         || negb (truthy_number (pr_number body))
      then
        ret (mkAnalyzeResponse 400
               (AnalyzeError "Missing required fields: owner, repo, pr_number"))
      else
        let owner := default "" (owner body) in
        let repo := default "" (repo body) in
        let pr_number := default 0%nat (pr_number body) in
        (result <- analyzePR owner repo pr_number ;;
         ret (mkAnalyzeResponse 200
                (AnalyzeOk
                   (mkAnalyzeResult true
                      (owner +:+ "/" +:+ repo +:+ "#" +:+ show_nat pr_number)
                      (fst result) (snd result)))))%gh in
    match attempt w with
    | (Return res, w') => (res, w')
    | (Throw error, w') =>
        (mkAnalyzeResponse 500 (AnalyzeError (Js.message error)), w')
    end.

End Routes.

(** ** app.js: the analysis of a directory over HTTP *)

Module App.

Inductive Json :=
| ErrorJson (error : string)
| SuccessJson (results : Report.t) (report : string).

Record Response := mkResponse { status : nat; json : Json }.

Section Runtime.

Variable JSON_parse : string -> js RuleSet.
Variable rulesDir : string.

(** [POST /analyze] with the [projectPath] of the body, [None] when the
    body leaves it out. *)
Definition post_analyze (codeReviewer : CodeReviewer.t) (fs : FileSystem)
    (now : string) (projectPath : option string) : Response :=
  let attempt : js Response :=
    if negb (truthy_opt projectPath) then
      Return (mkResponse 400 (ErrorJson "projectPath is required"))
    else
      (results <- CodeReviewer.analyzeProject JSON_parse rulesDir codeReviewer
                    fs now (default "" projectPath) None ;;
       let report := CodeReviewer.generateReport results in
       Return (mkResponse 200 (SuccessJson results report)))%js in
  match attempt with
  | Return res => res
  | Throw error => mkResponse 500 (ErrorJson (Js.message error))
  end.

End Runtime.

End App.

(** ** The script run by GitHub Actions *)

Module Actions.
Import Str.

(** What the run leaves behind: the exit code, the text last written to
    [/tmp/analysis-report.md] if a write succeeded, and the outputs set
    for the workflow. *)
Record Outcome := mkOutcome {
  exit_code : nat;
  written : option string;
  outputs : list (string * nat)
}.

Definition reportPath : string := "/tmp/analysis-report.md".

Definition errorReport (error_message : string) : string :=
  "🤖 **Code Structure Review**" +:+ nl +:+ nl
  +:+ "❌ **Analysis Failed**" +:+ nl +:+ nl
  +:+ "```" +:+ nl
  +:+ error_message +:+ nl
  +:+ "```" +:+ nl +:+ nl
  +:+ "Please check the GitHub Actions logs for more details." +:+ nl +:+ nl
  +:+ "---" +:+ nl
  +:+ "🔧 *This is likely a configuration issue. Please check:*" +:+ nl
  +:+ "- Repository structure" +:+ nl
  +:+ "- File permissions" +:+ nl
  +:+ "- Dependencies installation".

Section Runtime.

Variable JSON_parse : string -> js RuleSet.
Variable rulesDir : string.

(** [fs.writeFileSync(path, data)]: whether the write succeeds. *)
Variable writeFileSync : string -> string -> js unit.

(** [argv2] is [process.argv[2]], [cwd] is [process.cwd()]. *)
Definition runGitHubAnalysis (argv2 : option string) (cwd : string)
    (fs : FileSystem) (now : string) : Outcome :=
  let projectPath := or_default argv2 cwd in
  let attempt : js Outcome :=
    if negb (existsSync fs projectPath) then
      Throw (mkError ("Project directory not found: " +:+ projectPath))
    else
      (let reviewer := CodeReviewer.new in
       results <- CodeReviewer.analyzeProject JSON_parse rulesDir reviewer
                    fs now projectPath None ;;
       let report := CodeReviewer.generateReport results in
       _ <- writeFileSync reportPath report ;;
       Return
         (mkOutcome 0 (Some report)
            [("passed", Summary.passed (Report.summary results));
             ("failed", Summary.failed (Report.summary results));
             ("warnings", Summary.warnings (Report.summary results));
             ("total", Summary.totalAnalyzers (Report.summary results))]))%js in
  match attempt with
  | Return outcome => outcome
  | Throw error =>
      match writeFileSync reportPath (errorReport (Js.message error)) with
      | Return _ => mkOutcome 1 (Some (errorReport (Js.message error))) []
      | Throw _ => mkOutcome 1 None []
      end
  end.

End Runtime.

End Actions.

(** ** github-webhook-handler.js, the later version: the analyses

    The later version of the handler analyses the file list of the pull
    request with [analyzeFileStructure] and, when that fails, the title
    and the description with [analyzePRWebhookData].  Both fill the
    record that [analyzeFiles] fills, with [summary] flattened. *)

Module GitHubWebhookHandlerV2.
Import Str GitHub GitHubWebhookHandler.

(** [s.endsWith(suffix)] *)
Definition endsWith (s suffix : string) : bool :=
  String.prefix (rev_string suffix) (rev_string s).

(** [s.split('/')] *)
Fixpoint split_slash (s : string) : list string :=
  match s with
  | EmptyString => [EmptyString]
  | String c s' =>
      if Ascii.eqb c "/"%char then EmptyString :: split_slash s'
      else match split_slash s' with
           | l :: ls => String c l :: ls
           | [] => [String c EmptyString]
           end
  end.

(** [s.split('/')[0]] *)
Definition first_segment (s : string) : string :=
  hd "" (split_slash s).

(** What the [forEach] of [analyzeFileStructure] updates. *)
Record Scan := mkScan {
  results : Analysis;
  filesOutsideSrc : list string;
  srcStructure : gmap string bool;
  hasGitignore : bool;
  hasPackageJson : bool
}.

Definition push_issue (r : Analysis) (i : Issue) : Analysis :=
  mkAnalysis (projectType r) (passed r) (S (failed r)) (warnings_count r)
             (issues r ++ [i]) (warnings r) (successes r).

Definition push_success (r : Analysis) (i : Issue) : Analysis :=
  mkAnalysis (projectType r) (S (passed r)) (failed r) (warnings_count r)
             (issues r) (warnings r) (successes r ++ [i]).

Definition push_warning (r : Analysis) (i : Issue) : Analysis :=
  mkAnalysis (projectType r) (passed r) (failed r) (S (warnings_count r))
             (issues r) (warnings r ++ [i]) (successes r).

Definition srcStructure0 : gmap string bool :=
  {[ "controllers" := false; "services" := false; "routes" := false;
     "models" := false; "utils" := false; "gateways" := false ]}.

(** One turn of the [forEach] over the files. *)
Definition scan_file (s : Scan) (file : PullFile) : Scan :=
  let filename := filename file in
  let r := results s in
  let r :=
    if startsWith filename ".env" && negb (String.eqb filename ".env.example")
    then push_issue r
           (mkIssue "env-file" (Some filename)
              ("❌ Archivo de entorno detectado: " +:+ filename)
              (Some ("Eliminar '" +:+ filename
                     +:+ "' del repositorio y agregarlo a .gitignore. Usar '.env.example' para mostrar variables requeridas.")))
    else r in
  let r :=
    if startsWith filename "node_modules/"
    then push_issue r
           (mkIssue "dependency-folder" (Some "node_modules/")
              "❌ Carpeta node_modules/ no debe estar en el repositorio"
              (Some "Agregar node_modules/ a .gitignore y eliminar del repositorio"))
    else r in
  let r :=
    if startsWith filename ".venv/" || startsWith filename "venv/"
    then push_issue r
           (mkIssue "venv-folder" (Some (first_segment filename +:+ "/"))
              ("❌ Entorno virtual " +:+ first_segment filename
               +:+ "/ no debe estar en el repositorio")
              (Some ("Agregar " +:+ first_segment filename
                     +:+ "/ a .gitignore y eliminar del repositorio")))
    else r in
  let '(r, hasGitignore) :=
    if String.eqb filename ".gitignore"
    then (push_success r
            (mkIssue "gitignore" None "✅ Archivo .gitignore encontrado" None),
          true)
    else (r, hasGitignore s) in
  let '(r, hasPackageJson) :=
    if String.eqb filename "package.json"
    then (push_success r
            (mkIssue "package-json" None "✅ Archivo package.json encontrado"
                     None),
          true)
    else (r, hasPackageJson s) in
  if startsWith filename "src/" then
    let srcStructure :=
      match split_slash filename with
      | _ :: folder :: _ =>
          match srcStructure s !! folder with
          | Some _ => <[folder := true]> (srcStructure s)
          | None => srcStructure s
          end
      | _ => srcStructure s
      end in
    mkScan r (filesOutsideSrc s) srcStructure hasGitignore hasPackageJson
  else
    let code :=
      endsWith filename ".js" || endsWith filename ".ts"
      || endsWith filename ".jsx" || endsWith filename ".tsx" in
    let excluded :=
      startsWith filename "test" || startsWith filename "spec"
      || startsWith filename "." in
    let parts := split_slash filename in
    let generated :=
      startsWith (hd "" parts) "node_modules" || startsWith (hd "" parts) "dist"
      || startsWith (hd "" parts) "build" || startsWith (hd "" parts) "coverage" in
    let filesOutsideSrc :=
      if code && negb excluded
              && (Nat.eqb (length parts) 1 || negb generated)
      then filesOutsideSrc s ++ [filename]
      else filesOutsideSrc s in
    mkScan r filesOutsideSrc (srcStructure s) hasGitignore hasPackageJson.

Definition analyzeFileStructure (files : list PullFile) (repoName : string)
    : Analysis :=
  let s :=
    fold_left scan_file files
      (mkScan (mkAnalysis "nodejs" 0 0 0 [] [] []) [] srcStructure0
              false false) in
  let r := results s in
  let r :=
    if negb (hasGitignore s)
    then push_issue r
           (mkIssue "missing-gitignore" None "❌ Archivo .gitignore faltante"
              (Some "Crear archivo .gitignore para excluir archivos innecesarios del control de versiones"))
    else r in
  let recommendedFolders := ["controllers"; "services"; "routes"] in
  let missingSrcFolders :=
    List.filter (fun folder => negb (default false (srcStructure s !! folder)))
                recommendedFolders in
  let r :=
    if existsb (fun exists_ : bool => exists_)
               (map snd (map_to_list (srcStructure s)))
    then
      let r :=
        push_success r
          (mkIssue "src-structure" None "✅ Estructura src/ encontrada" None) in
      match missingSrcFolders with
      | [] => r
      | _ =>
          push_warning r
            (mkIssue "missing-folders" None
               ("⚠️  Considerar agregar: src/"
                +:+ join "/, src/" missingSrcFolders
                +:+ "/ para mejor organización")
               (Some "Organizar el código en carpetas específicas (controllers, services, routes) mejora la mantenibilidad"))
      end
    else r in
  match filesOutsideSrc s with
  | [] => r
  | _ =>
      push_warning r
        (mkIssue "files-outside-src" None
           ("⚠️  Archivos fuera de src/: "
            +:+ join ", " (firstn 3 (filesOutsideSrc s))
            +:+ (if (3 <? length (filesOutsideSrc s))%nat then "..." else ""))
           (Some "Considerar mover archivos de código a la carpeta src/ para mejor organización"))
  end.

Section Text.

(** [String.prototype.toLowerCase] *)
Variable toLowerCase : string -> string.

(** The fallback analysis, on the title and the description of the pull
    request alone. *)
Definition analyzePRWebhookData (pull_request : PullRequestPayload)
    (repository : RepositoryPayload) : Analysis :=
  let r := mkAnalysis "nodejs" 0 0 0 [] [] [] in
  let prTitle := or_default (Some (pr_title pull_request)) "" in
  let prBody := or_default (pr_body pull_request) "" in
  let prText := toLowerCase (prTitle +:+ " " +:+ prBody) in
  let r :=
    if includes prText ".env" || includes prText "environment"
    then push_issue r
           (mkIssue "env-mentioned" None
              "❌ Se mencionan archivos .env en el PR"
              (Some "Verificar que no se hayan committeado archivos .env con credenciales"))
    else r in
  let r :=
    if includes prText "node_modules"
    then push_issue r
           (mkIssue "nodemodules-mentioned" None
              "❌ Se menciona node_modules en el PR"
              (Some "Verificar que la carpeta node_modules/ esté en .gitignore"))
    else r in
  let r :=
    if includes prText ".venv" || includes prText "venv"
    then push_issue r
           (mkIssue "venv-mentioned" None
              "❌ Se mencionan entornos virtuales Python"
              (Some "Verificar que carpetas .venv/ o venv/ estén en .gitignore"))
    else r in
  let r :=
    if includes prText "gitignore"
    then push_success r
           (mkIssue "gitignore-mentioned" None
              "✅ Se menciona .gitignore (buena práctica)" None)
    else r in
  let r :=
    if includes prText "src/" || includes prText "estructura"
       || includes prText "organiz"
    then push_success r
           (mkIssue "structure-mentioned" None
              "✅ Se menciona organización de código" None)
    else r in
  let r :=
    if includes prText "test" || includes prText "prueba"
    then push_success r
           (mkIssue "testing-mentioned" None
              "✅ Se mencionan pruebas (excelente práctica)" None)
    else r in
  match issues r with
  | [] =>
      push_warning r
        (mkIssue "general-reminder" None
           "⚠️  Recordatorio: Verificar estructura general del proyecto"
           (Some "Revisar que archivos sensibles (.env) no estén committeados y código esté organizado en src/"))
  | _ => r
  end.

End Text.

End GitHubWebhookHandlerV2.

(** ** Findings and conditions named in the statements below *)

Module Shapes.

(** A rule file that is there and cannot be used: reading it throws, or
    its text does not parse. *)
Definition unusable (JSON_parse : string -> js RuleSet) (fs : FileSystem)
    (p : string) : Prop :=
  existsSync fs p = true
  /\ match readFileSync fs p with
     | Return text => exists e, JSON_parse text = Throw e
     | Throw _ => True
     end.

(** The rule set [loadRules] falls back to. *)
Definition default_rules : RuleSet :=
  {[ "general" := mkNamespace None None None None ]}.

(** The second test of [findEnvFiles]. *)
Definition env_like (file : string) : bool :=
  startsWith file ".env" && negb (String.eqb file ".env.example").

(** The list of files [EnvAnalyzer.analyze] looks for. *)
Definition prohibited_env_files (rules : RuleSet) : list string :=
  default [".env"; ".env.local"; ".env.production"; ".env.development"]
          (rules !! "general" ≫= prohibitedFiles).

(** The list of folders [DependencyAnalyzer.analyze] looks for. *)
Definition prohibited_folders (rules : RuleSet) : list string :=
  default ["node_modules"; ".venv"; "__pycache__"; "venv"; "env"]
          (rules !! "general" ≫= prohibitedFolders).

(** The two findings [DependencyAnalyzer.analyze] pushes for a folder. *)
Definition folder_committed (folder : string) : Finding :=
  mkFinding ("no-" +:+ folder +:+ "-committed")
    ("❌ Dependency folder found: " +:+ folder +:+ "/")
    (Some ("Remove '" +:+ folder
           +:+ "/' from repository and add it to .gitignore")).

Definition folder_absent (folder : string) : Finding :=
  mkFinding ("no-" +:+ folder +:+ "-committed")
    ("✅ No " +:+ folder +:+ "/ folder found in repository") None.

(** The folder is there and [statSync] says it is a directory. *)
Definition is_committed (fs : FileSystem) (projectPath folder : string) : bool :=
  existsSync fs (path_join projectPath folder)
  && match isDirectory fs (path_join projectPath folder) with
     | Return d => d
     | Throw _ => false
     end.

(** [statSync] throws on one of the folders of the list that is there. *)
Definition stat_fails (fs : FileSystem) (projectPath : string)
    (folders : list string) : bool :=
  existsb (fun folder =>
             existsSync fs (path_join projectPath folder)
             && match isDirectory fs (path_join projectPath folder) with
                | Return _ => false
                | Throw _ => true
                end)
          folders.

(** The findings of [GitignoreAnalyzer.checkRequiredRules] for one rule. *)
Definition rule_included (rule : string) : Finding :=
  mkFinding ("gitignore-has-" +:+ Str.remove_first_slash rule)
    ("✅ .gitignore includes: " +:+ rule) None.

Definition rule_missing (rule : string) : Finding :=
  mkFinding ("gitignore-missing-" +:+ Str.remove_first_slash rule)
    ("❌ .gitignore missing: " +:+ rule)
    (Some ("Add '" +:+ rule +:+ "' to your .gitignore file")).

(** The test [checkRequiredRules] makes for one rule: some line is the
    rule, or contains the rule without its first slash. *)
Definition rule_found (gitignoreLines : list string) (rule : string) : bool :=
  existsb (fun line =>
             String.eqb line rule
             || includes line (Str.remove_first_slash rule))
          gitignoreLines.

(** The test [checkGeneralRules] makes for one folder. *)
Definition folder_found (gitignoreLines : list string) (folder : string) : bool :=
  existsb (fun line => includes line folder) gitignoreLines.

(** The first finding of [GitignoreAnalyzer.analyze] when the file is there. *)
Definition gitignore_found : Finding :=
  mkFinding "gitignore-exists" "✅ .gitignore file found" None.

(** The finding of [EnvAnalyzer.analyze] when it has found no file. *)
Definition no_env_files : Finding :=
  mkFinding "no-env-files-committed"
            "✅ No .env files found in repository" None.

(** The warning of [checkPackageManagerFiles]. *)
Definition lockfile_recommended : Finding :=
  mkFinding "lockfile-recommended"
    "⚠️  No lockfile found (package-lock.json or yarn.lock)"
    (Some "Consider committing your lockfile to ensure consistent dependency versions").

(** The lines of a [.gitignore] as the analyzer reads them. *)
Definition gitignore_lines (content : string) : list string :=
  map Str.trim (Str.split_lines content).

(** The counters of an analysis agree with its lists. *)
Definition consistent (a : GitHubWebhookHandler.Analysis) : Prop :=
  GitHubWebhookHandler.failed a = length (GitHubWebhookHandler.issues a)
  /\ GitHubWebhookHandler.passed a = length (GitHubWebhookHandler.successes a)
  /\ GitHubWebhookHandler.warnings_count a
     = length (GitHubWebhookHandler.warnings a).

(** The issue of [analyzeFileStructure] for a missing [.gitignore], and
    the reminder of [analyzePRWebhookData]. *)
Definition missing_gitignore : GitHubWebhookHandler.Issue :=
  GitHubWebhookHandler.mkIssue "missing-gitignore" None
    "❌ Archivo .gitignore faltante"
    (Some "Crear archivo .gitignore para excluir archivos innecesarios del control de versiones").

Definition general_reminder : GitHubWebhookHandler.Issue :=
  GitHubWebhookHandler.mkIssue "general-reminder" None
    "⚠️  Recordatorio: Verificar estructura general del proyecto"
    (Some "Revisar que archivos sensibles (.env) no estén committeados y código esté organizado en src/").

(** The thread of a pull request after the bot's comment has been
    written with the given body: the first comment that holds the marker
    gets the body, or a new comment is appended. *)
Definition upserted (w : GitHub.World) (k : GitHub.PRKey) (message : string)
    : list GitHub.Comment :=
  match List.find Spec.bot (GitHub.thread w k) with
  | Some c => map (GitHub.set_body (GitHub.id c) message) (GitHub.thread w k)
  | None => GitHub.thread w k ++ [GitHub.mkComment (GitHub.next_id w) message]
  end.

(** The request that writes it. *)
Definition upsert_call (w : GitHub.World) (k : GitHub.PRKey) (message : string)
    : GitHub.Call :=
  match List.find Spec.bot (GitHub.thread w k) with
  | Some c => GitHub.UpdateComment (fst (fst k)) (snd (fst k)) (GitHub.id c) message
  | None => GitHub.CreateComment k message
  end.

(** No endpoint of GitHub refuses. *)
Definition allowed (w : GitHub.World) : Prop :=
  forall e, GitHub.denied w e = false.

End Shapes.

(** ** Further concrete inputs *)

Module Cases.

(** The rule directory with a project rule file that is not JSON. *)
Definition fs_broken_rules : FileSystem :=
  Fs.of_table
    [ ("/app/rules/general-rules.json", File "<general-rules.json>");
      ("/app/rules/nodejs-rules.json", File "{ oops") ].

(** A project whose [.gitignore] only mentions [node_modules]: in a
    comment, and in a pattern that takes it out of the ignored files. *)
Definition fs_mention : FileSystem :=
  Fs.of_table
    [ ("/project", Dir [".gitignore"; "package.json"]);
      ("/project/.gitignore",
       File ("# node_modules is kept on purpose" +:+ Str.nl
             +:+ "!node_modules/"));
      ("/project/package.json", File "{}") ].

(** A project directory that cannot be listed. *)
Definition fs_unlistable : FileSystem :=
  {| existsSync p := String.eqb p "/project";
     readFileSync p :=
       Throw (mkError ("ENOENT: no such file or directory, open '" +:+ p +:+ "'"));
     readdirSync p :=
       Throw (mkError ("EACCES: permission denied, scandir '" +:+ p +:+ "'"));
     isDirectory p :=
       if String.eqb p "/project" then Return true
       else Throw (mkError ("ENOENT: no such file or directory, stat '" +:+ p +:+ "'")) |}.

(** A project with a committed [node_modules] directory, a plain file
    called [env], and a [package.json] without a lockfile. *)
Definition fs_deps : FileSystem :=
  Fs.of_table
    [ ("/project", Dir ["node_modules"; "env"; "package.json"; ".env.example"]);
      ("/project/node_modules", Dir ["left-pad"]);
      ("/project/env", File "PATH=/usr/bin");
      ("/project/package.json", File "{}");
      ("/project/.env.example", File "SECRET_KEY=") ].

(** A delivery whose body is not JSON. *)
Definition garbled : GitHubWebhookHandler.Request :=
  GitHubWebhookHandler.mkRequest None (Some "ping")
    (Crypto.bytes_of_text "zen=Keep+it+logically+awesome").

(** The repository of [Demo.world] when the application may not read or
    write comments. *)
Definition world_silenced : GitHub.World :=
  GitHub.mkWorld (GitHub.pulls Demo.world) (GitHub.files Demo.world) ∅ 1%nat
    (fun e => match e with GitHub.IssuesListComments => true | _ => false end)
    "2024-01-01T00:00:00.000Z" [].

(** The same repository with an earlier review of the bot in the
    thread, when GitHub refuses the first read. *)
Definition world_reviewed_refusing : GitHub.World :=
  GitHub.mkWorld (GitHub.pulls Demo.world) (GitHub.files Demo.world)
    {[ Demo.pr7 := [GitHub.mkComment 1 Demo.report7] ]} 2%nat
    (fun e => match e with GitHub.PullsGet => true | _ => false end)
    "2024-01-02T00:00:00.000Z" [].

End Cases.

(** * Properties *)

Import GitHub.

(** ** Strings *)

Lemma append_cons (c : ascii) (s t : string) :
  String c s +:+ t = String c (s +:+ t).
Proof. reflexivity. Qed.

Lemma append_nil_r (s : string) : s +:+ "" = s.
Proof.
  induction s as [|c s IH]; [reflexivity|]. now rewrite append_cons, IH.
Qed.

Lemma append_assoc (a b c : string) : (a +:+ b) +:+ c = a +:+ (b +:+ c).
Proof.
  induction a as [|x a IH]; [reflexivity|]. now rewrite !append_cons, IH.
Qed.

Lemma length_append (a b : string) :
  String.length (a +:+ b) = (String.length a + String.length b)%nat.
Proof.
  induction a as [|x a IH]; [reflexivity|].
  rewrite append_cons. cbn [String.length Nat.add]. now rewrite IH.
Qed.

Lemma list_ascii_of_string_append (a b : string) :
  list_ascii_of_string (a +:+ b)
  = list_ascii_of_string a ++ list_ascii_of_string b.
Proof.
  induction a as [|x a IH]; [reflexivity|].
  rewrite append_cons. cbn [list_ascii_of_string app]. now rewrite IH.
Qed.

Lemma length_list_ascii_of_string (s : string) :
  length (list_ascii_of_string s) = String.length s.
Proof. induction s as [|c s IH]; [reflexivity|]. cbn. f_equal. exact IH. Qed.

Lemma prefix_append (p s : string) : String.prefix p (p +:+ s) = true.
Proof.
  induction p as [|c p IH].
  - now destruct s.
  - rewrite append_cons. cbn [String.prefix].
    destruct (ascii_dec c c); [assumption|congruence].
Qed.

Lemma startsWith_includes (s p : string) :
  startsWith s p = true -> includes s p = true.
Proof.
  unfold startsWith. intros H. destruct s; cbn [includes]; now rewrite H.
Qed.

Lemma last_two_append (p t : string) :
  (2 <= String.length t)%nat -> Str.last_two (p +:+ t) = Str.last_two t.
Proof.
  intros H. unfold Str.last_two.
  rewrite list_ascii_of_string_append, rev_app_distr, firstn_app.
  rewrite length_rev, length_list_ascii_of_string.
  replace (2 - String.length t)%nat with 0%nat by lia.
  cbn [firstn]. now rewrite app_nil_r.
Qed.

(** Side conditions of [last_two_append] on concatenations of literals. *)
Ltac long_enough :=
  rewrite ?length_append; cbn [String.length Str.nl]; lia.

(** ** Rule loading and project type detection *)

Section RuleLoader.

Variable JSON_parse : string -> js RuleSet.
Variable rulesDir : string.

Lemma spread_empty (r : RuleSet) : CodeReviewer.spread ∅ r = r.
Proof. unfold CodeReviewer.spread. apply (right_id_L ∅ (∪)). Qed.

(** When both rule files are present and well formed, [loadRules] is the
    spread of the general rules and then of the project rules. *)
Lemma loadRules_both fs projectType baseText catText (base cat : RuleSet) :
  existsSync fs (path_join rulesDir "general-rules.json") = true ->
  readFileSync fs (path_join rulesDir "general-rules.json") = Return baseText ->
  JSON_parse baseText = Return base ->
  existsSync fs (path_join rulesDir (projectType +:+ "-rules.json")) = true ->
  readFileSync fs (path_join rulesDir (projectType +:+ "-rules.json"))
    = Return catText ->
  JSON_parse catText = Return cat ->
  CodeReviewer.loadRules JSON_parse rulesDir fs projectType
  = CodeReviewer.spread base cat.
Proof.
  intros Eg Rg Pg Ep Rp Pp. unfold CodeReviewer.loadRules.
  rewrite Eg, Rg. cbn [Js.bind]. rewrite Pg. cbn [Js.bind].
  rewrite Ep, Rp. cbn [Js.bind]. rewrite Pp. cbn [Js.bind].
  now rewrite spread_empty.
Qed.

(** A missing general file leaves an empty base, a missing project file
    leaves the base as it is. *)
Lemma loadRules_no_files fs projectType :
  existsSync fs (path_join rulesDir "general-rules.json") = false ->
  existsSync fs (path_join rulesDir (projectType +:+ "-rules.json")) = false ->
  CodeReviewer.loadRules JSON_parse rulesDir fs projectType = ∅.
Proof.
  intros Eg Ep. unfold CodeReviewer.loadRules. now rewrite Eg, Ep.
Qed.

(** Malformed content is caught: the default rule set is returned. *)
Lemma loadRules_malformed fs projectType text e :
  existsSync fs (path_join rulesDir "general-rules.json") = true ->
  readFileSync fs (path_join rulesDir "general-rules.json") = Return text ->
  JSON_parse text = Throw e ->
  CodeReviewer.loadRules JSON_parse rulesDir fs projectType
  = {[ "general" := mkNamespace None None None None ]}.
Proof.
  intros Eg Rg Pg. unfold CodeReviewer.loadRules.
  rewrite Eg, Rg. cbn [Js.bind]. now rewrite Pg.
Qed.

(** C4. For any base rule set and any category rule set read from the two
    rule files, the rule set returned by [loadRules] has as top-level keys
    the union of their keys, every key of the category set carries the
    category set's value exactly, and every other key carries the base
    set's value. *)
Theorem loadRules_shallow_merge fs projectType baseText catText
    (base cat : RuleSet) :
  existsSync fs (path_join rulesDir "general-rules.json") = true ->
  readFileSync fs (path_join rulesDir "general-rules.json") = Return baseText ->
  JSON_parse baseText = Return base ->
  existsSync fs (path_join rulesDir (projectType +:+ "-rules.json")) = true ->
  readFileSync fs (path_join rulesDir (projectType +:+ "-rules.json"))
    = Return catText ->
  JSON_parse catText = Return cat ->
  let merged := CodeReviewer.loadRules JSON_parse rulesDir fs projectType in
  dom merged = dom base ∪ dom cat
  /\ (forall k v, cat !! k = Some v -> merged !! k = Some v)
  /\ (forall k, cat !! k = None -> merged !! k = base !! k).
Proof.
  intros Eg Rg Pg Ep Rp Pp merged. subst merged.
  rewrite (loadRules_both fs projectType baseText catText base cat)
    by assumption.
  unfold CodeReviewer.spread. repeat split.
  - rewrite dom_union_L. apply (comm_L (∪)).
  - intros k v Hk. now apply lookup_union_Some_l.
  - intros k Hk. now apply lookup_union_r.
Qed.

End RuleLoader.

(** C10. [detectProjectType] never throws and returns one of ['nodejs'],
    ['python'] and ['general']; when the directory cannot be read the error
    is caught and ['general'] is returned. *)
Theorem detectProjectType_total (fs : FileSystem) (projectPath : string) :
  (exists t,
      CodeReviewer.detectProjectType fs projectPath = Return t
      /\ (t = "nodejs" \/ t = "python" \/ t = "general"))
  /\ (forall e, readdirSync fs projectPath = Throw e ->
        CodeReviewer.detectProjectType fs projectPath = Return "general").
Proof.
  unfold CodeReviewer.detectProjectType. split.
  - destruct (readdirSync fs projectPath) as [files|e]; cbn.
    + destruct (Str.mem "package.json" files); [eauto|].
      destruct (Str.mem "requirements.txt" files || Str.mem "setup.py" files
                || Str.mem "pyproject.toml" files); eauto 6.
    + eauto 6.
  - intros e ->. reflexivity.
Qed.

(** The [catch] clause makes every call return. *)
Lemma detectProjectType_returns (fs : FileSystem) (projectPath : string) :
  exists t, CodeReviewer.detectProjectType fs projectPath = Return t.
Proof.
  unfold CodeReviewer.detectProjectType.
  destruct (readdirSync fs projectPath) as [files|e]; cbn; [|eauto].
  destruct (Str.mem "package.json" files); [eauto|].
  destruct (Str.mem "requirements.txt" files || Str.mem "setup.py" files
            || Str.mem "pyproject.toml" files); eauto.
Qed.

(** The order of the checks is the tie-break: a Node.js manifest wins. *)
Lemma detectProjectType_nodejs_first fs projectPath files :
  readdirSync fs projectPath = Return files ->
  In "package.json" files ->
  CodeReviewer.detectProjectType fs projectPath = Return "nodejs".
Proof.
  intros R Hin. unfold CodeReviewer.detectProjectType. rewrite R. cbn.
  assert (Str.mem "package.json" files = true) as ->; [|reflexivity].
  apply existsb_exists. exists "package.json". split; [assumption|].
  apply String.eqb_refl.
Qed.

(** ** Analyzers *)

(** C9. When the project directory has no [.gitignore], the gitignore
    analyzer returns one failed finding, the [gitignore-exists] rule, and
    no passed finding and no warning: the content rules are not checked. *)
Theorem gitignore_missing_single_failure (fs : FileSystem)
    (projectPath : string) (rules : RuleSet) :
  existsSync fs (path_join projectPath ".gitignore") = false ->
  exists f,
    GitignoreAnalyzer.analyze fs projectPath rules
    = Return (Findings.mk "Gitignore Analyzer" [] [f] [])
    /\ rule f = "gitignore-exists".
Proof.
  intros E. unfold GitignoreAnalyzer.analyze. rewrite E. cbn.
  eexists. split; reflexivity.
Qed.

(** With a [.gitignore] in place the first finding is the passed
    [gitignore-exists] rule. *)
Lemma gitignore_present_passes fs projectPath rules :
  existsSync fs (path_join projectPath ".gitignore") = true ->
  exists r rest,
    GitignoreAnalyzer.analyze fs projectPath rules = Return r
    /\ Findings.passed r
       = mkFinding "gitignore-exists" "✅ .gitignore file found" None :: rest.
Proof.
  intros E. unfold GitignoreAnalyzer.analyze. rewrite E. cbn.
  assert (Hreq : forall lines req r,
             exists rest, Findings.passed (GitignoreAnalyzer.checkRequiredRules lines req r)
                          = Findings.passed r ++ rest).
  { intros lines req. unfold GitignoreAnalyzer.checkRequiredRules.
    induction req as [|x req IH]; intros r; cbn.
    - exists []. now rewrite app_nil_r.
    - match goal with |- context [if ?b then _ else _] => destruct b end;
        match goal with
        | |- context [fold_left ?f req ?r0] =>
            destruct (IH r0) as [rest' Hr]; rewrite Hr; cbn
        end.
      + rewrite <- app_assoc. eauto.
      + eauto. }
  assert (Hgen : forall lines g r,
             exists rest, Findings.passed (GitignoreAnalyzer.checkGeneralRules lines g r)
                          = Findings.passed r ++ rest).
  { intros lines g r. unfold GitignoreAnalyzer.checkGeneralRules.
    destruct (prohibitedFolders g) as [folders|]; [|exists []; now rewrite app_nil_r].
    revert r. induction folders as [|x folders IH]; intros r; cbn.
    - exists []. now rewrite app_nil_r.
    - match goal with |- context [if ?b then _ else _] => destruct b end;
        match goal with
        | |- context [fold_left ?f folders ?r0] =>
            destruct (IH r0) as [rest' Hr]; rewrite Hr; cbn
        end.
      + rewrite <- app_assoc. eauto.
      + eauto. }
  destruct (readFileSync fs (path_join projectPath ".gitignore")) as [content|e].
  - destruct (rules !! "nodejs" ≫= gitignoreRules) as [req|].
    + destruct (Hreq (map Str.trim (Str.split_lines content)) req
                  (Findings.push_passed (Findings.new GitignoreAnalyzer.name)
                     (mkFinding "gitignore-exists" "✅ .gitignore file found" None)))
        as [rest Hr].
      eexists _, rest. split; [reflexivity|]. exact Hr.
    + destruct (rules !! "general") as [g|].
      * destruct (Hgen (map Str.trim (Str.split_lines content)) g
                    (Findings.push_passed (Findings.new GitignoreAnalyzer.name)
                       (mkFinding "gitignore-exists" "✅ .gitignore file found" None)))
          as [rest Hr].
        eexists _, rest. split; [reflexivity|]. exact Hr.
      * eexists _, []. split; reflexivity.
  - eexists _, []. split; reflexivity.
Qed.

(** *** The environment files analyzer *)

Lemma mem_true_iff x l : Str.mem x l = true <-> In x l.
Proof.
  unfold Str.mem. rewrite existsb_exists. split.
  - intros (y & Hy & E). apply String.eqb_eq in E. now subst.
  - intros H. exists x. split; [assumption|apply String.eqb_refl].
Qed.

(** A [.env] file that is also on the prohibited list is pushed by both
    tests of [findEnvFiles], one after the other. *)
Lemma findEnvFiles_dotenv_twice fs projectPath prohibitedFiles files :
  readdirSync fs projectPath = Return files ->
  In ".env" files ->
  In ".env" prohibitedFiles ->
  exists l1 l2,
    EnvAnalyzer.findEnvFiles fs projectPath prohibitedFiles
    = l1 ++ ".env" :: ".env" :: l2.
Proof.
  intros R Hf Hp. unfold EnvAnalyzer.findEnvFiles. rewrite R.
  apply in_split in Hf as (a & b & ->).
  rewrite flat_map_app. cbn [flat_map].
  apply mem_true_iff in Hp. rewrite Hp. cbn.
  eexists _, _. reflexivity.
Qed.

(** The recursive variant tests the two conditions in one disjunction and
    pushes a file once. *)
Lemma findEnvFilesRecursive_dotenv_once fs dir prohibitedFiles :
  readdirSync fs dir = Return [".env"] ->
  isDirectory fs (path_join dir ".env") = Return false ->
  EnvAnalyzer.findEnvFilesRecursive fs dir prohibitedFiles 0 3 = [".env"].
Proof.
  intros R D. unfold EnvAnalyzer.findEnvFilesRecursive. cbn.
  rewrite R, D. cbn. now rewrite orb_true_r.
Qed.

(** Every file found yields one failed finding, in order, and the passed
    list is left alone. *)
Lemma env_failed_findings (found : list string) (r : Findings.t) :
  fold_left (fun results envFile =>
               Findings.push_failed results (EnvAnalyzer.committed envFile))
            found r
  = Findings.mk (Findings.analyzer r) (Findings.passed r)
      (Findings.failed r ++ map EnvAnalyzer.committed found)
      (Findings.warnings r).
Proof.
  revert r. induction found as [|x found IH]; intros r; cbn.
  - rewrite app_nil_r. now destruct r.
  - rewrite IH. cbn. now rewrite <- app_assoc.
Qed.

(** When some file is found, the failed findings are those of the files
    found and the [no-env-files-committed] rule is not among the passed. *)
Lemma env_analyze_found fs projectPath (rules : RuleSet) :
  let found :=
    EnvAnalyzer.findEnvFiles fs projectPath
      (default [".env"; ".env.local"; ".env.production"; ".env.development"]
               (rules !! "general" ≫= prohibitedFiles)) in
  found <> [] ->
  exists r,
    EnvAnalyzer.analyze fs projectPath rules = Return r
    /\ Findings.failed r = map EnvAnalyzer.committed found
    /\ Forall (fun f => rule f <> "no-env-files-committed") (Findings.passed r).
Proof.
  intros found Hne. unfold EnvAnalyzer.analyze. fold found.
  destruct found as [|x found'] eqn:E; [congruence|].
  rewrite env_failed_findings. cbn.
  destruct (existsSync fs (path_join projectPath ".env.example"));
    eexists; (split; [reflexivity|]); cbn; (split; [reflexivity|]).
  - repeat constructor. cbn. discriminate.
  - constructor.
Qed.

(** C6. A project root holding a file named [.env], analysed with the
    default prohibited list: [findEnvFiles] pushes [.env] twice, so the
    analyzer returns two failed findings for it, where the recursive
    variant and the documented output have one.  No passed finding for the
    [no-env-files-committed] rule is returned. *)
Theorem env_file_reported_twice :
  EnvAnalyzer.findEnvFiles Demo.fs_env "/project"
    [".env"; ".env.local"; ".env.production"; ".env.development"]
  = [".env"; ".env"]
  /\ EnvAnalyzer.findEnvFilesRecursive Demo.fs_env "/project"
       [".env"; ".env.local"; ".env.production"; ".env.development"] 0 3
     = [".env"]
  /\ EnvAnalyzer.analyze Demo.fs_env "/project" ∅
     = Return
         (Findings.mk "Environment Files Analyzer" []
            [EnvAnalyzer.committed ".env"; EnvAnalyzer.committed ".env"]
            [mkFinding "env-example-recommended"
               "⚠️  Consider creating .env.example file"
               (Some "Create .env.example with dummy values to show required environment variables")]).
Proof.
  split; [|split]; vm_compute; reflexivity.
Qed.

(** The same holds for every directory and every prohibited list that
    names [.env]: two failed findings for [.env] at least, and no passed
    finding for the [no-env-files-committed] rule. *)
Lemma env_file_two_failures fs projectPath (rules : RuleSet) files :
  readdirSync fs projectPath = Return files ->
  In ".env" files ->
  In ".env"
     (default [".env"; ".env.local"; ".env.production"; ".env.development"]
              (rules !! "general" ≫= prohibitedFiles)) ->
  exists r l1 l2,
    EnvAnalyzer.analyze fs projectPath rules = Return r
    /\ Findings.failed r
       = l1 ++ EnvAnalyzer.committed ".env" :: EnvAnalyzer.committed ".env" :: l2
    /\ Forall (fun f => rule f <> "no-env-files-committed") (Findings.passed r).
Proof.
  intros R Hf Hp.
  destruct (findEnvFiles_dotenv_twice fs projectPath _ files R Hf Hp)
    as (l1 & l2 & E).
  destruct (env_analyze_found fs projectPath rules) as (r & Hr & Hfailed & Hpassed).
  { cbv zeta. rewrite E. now destruct l1. }
  exists r, (map EnvAnalyzer.committed l1), (map EnvAnalyzer.committed l2).
  split; [assumption|]. split; [|assumption].
  rewrite Hfailed. cbv zeta. rewrite E. now rewrite map_app.
Qed.

(** ** The orchestrator *)

Section Orchestrator.

Variable JSON_parse : string -> js RuleSet.
Variable rulesDir : string.
Variable fs : FileSystem.
Variable projectPath : string.
Variable rules : RuleSet.

Abbreviation entry_of := (Spec.entry_of fs projectPath rules).
Abbreviation count_of := (Spec.count_of fs projectPath rules).

Lemma count_of_cons proj (a : Analyzer) (l : list Analyzer) :
  count_of proj (a :: l) = (length (proj (entry_of a)) + count_of proj l)%nat.
Proof. reflexivity. Qed.

(** One turn pushes the entry of the analyzer and adds the sizes of its
    three lists, which are empty when the analyzer threw. *)
Lemma run_analyzer_entry (results : Report.t) (a : Analyzer) :
  CodeReviewer.run_analyzer fs projectPath rules results a
  = Report.mk (Report.projectPath results) (Report.projectType results)
      (Report.timestamp results)
      (Summary.mk (Summary.totalAnalyzers (Report.summary results))
         (Summary.passed (Report.summary results)
          + length (Result.passed (entry_of a)))
         (Summary.failed (Report.summary results)
          + length (Result.failed (entry_of a)))
         (Summary.warnings (Report.summary results)
          + length (Result.warnings (entry_of a))))
      (Report.analyzers results ++ [entry_of a]).
Proof.
  unfold CodeReviewer.run_analyzer, Spec.entry_of.
  destruct (analyze a fs projectPath rules) as [r|e]; cbn; [reflexivity|].
  rewrite !Nat.add_0_r. now destruct (Report.summary results).
Qed.

(** The loop pushes one entry per analyzer, in order. *)
Lemma run_analyzers (l : list Analyzer) (results : Report.t) :
  fold_left (CodeReviewer.run_analyzer fs projectPath rules) l results
  = Report.mk (Report.projectPath results) (Report.projectType results)
      (Report.timestamp results)
      (Summary.mk (Summary.totalAnalyzers (Report.summary results))
         (Summary.passed (Report.summary results) + count_of Result.passed l)
         (Summary.failed (Report.summary results) + count_of Result.failed l)
         (Summary.warnings (Report.summary results) + count_of Result.warnings l))
      (Report.analyzers results ++ map entry_of l).
Proof.
  revert results. induction l as [|a l IH]; intros results.
  - cbn. rewrite app_nil_r, !Nat.add_0_r.
    destruct results as [? ? ? [] ?]; reflexivity.
  - cbn [fold_left]. rewrite IH, run_analyzer_entry.
    cbn [Report.projectPath Report.projectType Report.timestamp
         Report.summary Report.analyzers Summary.totalAnalyzers
         Summary.passed Summary.failed Summary.warnings].
    rewrite !count_of_cons, <- app_assoc, !Nat.add_assoc. reflexivity.
Qed.

(** Entries pushed for a throw hold nothing, entries pushed for a return
    carry no error: counting over all entries or over those without
    error is the same. *)
Lemma count_of_total (proj : Result.t -> list Finding) (l : list Analyzer) :
  (proj = Result.passed \/ proj = Result.failed \/ proj = Result.warnings) ->
  count_of proj l = Spec.total proj (map entry_of l).
Proof.
  intros Hproj. induction l as [|a l IH]; [reflexivity|].
  rewrite count_of_cons, IH. unfold Spec.total. cbn [map List.filter].
  unfold Spec.entry_of at 1 3 4.
  destruct (analyze a fs projectPath rules) as [r|e]; cbn; [reflexivity|].
  destruct Hproj as [->|[->| ->]]; reflexivity.
Qed.

End Orchestrator.

(** ** The report *)

Section Renderer.

Local Abbreviation empty := (CodeReviewer.mkLines [] [] []).

Lemma collect_acc (acc : CodeReviewer.lines) (a : Result.t) :
  CodeReviewer.collect acc a
  = CodeReviewer.mkLines
      (CodeReviewer.criticalIssues acc
         ++ CodeReviewer.criticalIssues (CodeReviewer.collect empty a))
      (CodeReviewer.warnings acc
         ++ CodeReviewer.warnings (CodeReviewer.collect empty a))
      (CodeReviewer.successes acc
         ++ CodeReviewer.successes (CodeReviewer.collect empty a)).
Proof.
  unfold CodeReviewer.collect.
  destruct (Result.has_error a); cbn; now rewrite ?app_nil_r.
Qed.

Lemma collect_all (l : list Result.t) (acc : CodeReviewer.lines) :
  fold_left CodeReviewer.collect l acc
  = CodeReviewer.mkLines
      (CodeReviewer.criticalIssues acc
         ++ flat_map (fun a => CodeReviewer.criticalIssues
                                 (CodeReviewer.collect empty a)) l)
      (CodeReviewer.warnings acc
         ++ flat_map (fun a => CodeReviewer.warnings
                                 (CodeReviewer.collect empty a)) l)
      (CodeReviewer.successes acc
         ++ flat_map (fun a => CodeReviewer.successes
                                 (CodeReviewer.collect empty a)) l).
Proof.
  revert acc. induction l as [|a l IH]; intros acc; cbn [fold_left flat_map].
  - rewrite !app_nil_r. now destruct acc.
  - rewrite IH, collect_acc. cbn. now rewrite <- !app_assoc.
Qed.

Lemma with_suggestion_lines (l : list Finding) (line : Finding -> string) :
  flat_map (fun f => CodeReviewer.with_suggestion f (line f)) l = []
  <-> l = [].
Proof.
  destruct l as [|f l]; cbn; [tauto|]. split; discriminate.
Qed.

(** An entry adds no issue line and no warning line exactly when it is
    not troubled. *)
Lemma collect_quiet (a : Result.t) :
  CodeReviewer.criticalIssues (CodeReviewer.collect empty a) = []
  /\ CodeReviewer.warnings (CodeReviewer.collect empty a) = []
  <-> Spec.troubled a = false.
Proof.
  unfold CodeReviewer.collect, Spec.troubled.
  destruct (Result.has_error a); cbn.
  - split; [intros [H _]; discriminate|discriminate].
  - rewrite !with_suggestion_lines.
    destruct (Result.failed a), (Result.warnings a); cbn;
      split; try tauto; try discriminate; intros [? ?]; discriminate.
Qed.

Lemma lines_quiet (l : list Result.t) :
  CodeReviewer.criticalIssues (fold_left CodeReviewer.collect l empty) = []
  /\ CodeReviewer.warnings (fold_left CodeReviewer.collect l empty) = []
  <-> existsb Spec.troubled l = false.
Proof.
  rewrite collect_all. cbn.
  induction l as [|a l IH]; cbn; [tauto|].
  rewrite orb_false_iff, <- IH, <- collect_quiet.
  split.
  - intros [H1 H2]. apply app_eq_nil in H1, H2. tauto.
  - intros [[-> ->] [-> ->]]. tauto.
Qed.

Lemma header_ends (results : Report.t) :
  Str.last_two (CodeReviewer.header results)
  = [ascii_of_nat 10; ascii_of_nat 10].
Proof.
  unfold CodeReviewer.header.
  repeat (rewrite last_two_append by long_enough).
  reflexivity.
Qed.

Lemma section_ends (title : string) (l : list string) :
  l <> [] ->
  Str.last_two (CodeReviewer.section title l)
  = [ascii_of_nat 10; ascii_of_nat 10].
Proof.
  intros H. destruct l as [|x l]; [congruence|].
  unfold CodeReviewer.section.
  repeat (rewrite last_two_append by long_enough).
  reflexivity.
Qed.

(** Without the closing section the report ends with an empty line. *)
Lemma quiet_report_ends (results : Report.t) :
  existsb Spec.troubled (Report.analyzers results) = false ->
  Str.last_two (CodeReviewer.generateReport results)
  = [ascii_of_nat 10; ascii_of_nat 10].
Proof.
  intros H. apply lines_quiet in H as [Hc Hw].
  unfold CodeReviewer.generateReport. rewrite Hc, Hw.
  cbn [CodeReviewer.section String.append].
  destruct (CodeReviewer.successes
              (fold_left CodeReviewer.collect (Report.analyzers results) empty))
    as [|x l] eqn:E.
  - cbn [CodeReviewer.section]. rewrite !append_nil_r. apply header_ends.
  - rewrite append_nil_r, last_two_append.
    + now apply section_ends.
    + unfold CodeReviewer.section. long_enough.
Qed.

Lemma troubled_report_ends (results : Report.t) :
  existsb Spec.troubled (Report.analyzers results) = true ->
  Spec.has_recommendations (CodeReviewer.generateReport results).
Proof.
  intros H. unfold CodeReviewer.generateReport.
  set (acc := fold_left CodeReviewer.collect (Report.analyzers results) empty).
  assert (Hrec : match CodeReviewer.criticalIssues acc, CodeReviewer.warnings acc with
                 | [], [] => ""
                 | _, _ => CodeReviewer.recommendations
                 end = CodeReviewer.recommendations).
  { destruct (CodeReviewer.criticalIssues acc) eqn:Ec;
      destruct (CodeReviewer.warnings acc) eqn:Ew; try reflexivity.
    assert (existsb Spec.troubled (Report.analyzers results) = false)
      by (apply lines_quiet; fold acc; tauto).
    congruence. }
  rewrite Hrec. eexists. rewrite <- !append_assoc. reflexivity.
Qed.

End Renderer.

(** C7. The text produced by [generateReport] ends with the "General
    Recommendations" section if and only if some entry of the report
    carries an error, or a failed finding, or a warning finding. *)
Theorem generateReport_recommendations (results : Report.t) :
  Spec.has_recommendations (CodeReviewer.generateReport results)
  <-> exists a,
        In a (Report.analyzers results)
        /\ (Result.has_error a = true
            \/ Result.failed a <> [] \/ Result.warnings a <> []).
Proof.
  assert (Htroubled : forall a,
    Spec.troubled a = true
    <-> Result.has_error a = true
        \/ Result.failed a <> [] \/ Result.warnings a <> []).
  { intros a. unfold Spec.troubled.
    destruct (Result.has_error a), (Result.failed a), (Result.warnings a);
      cbn; split; intros H; try tauto; try discriminate;
      try (right; left; discriminate); try (right; right; discriminate);
      destruct H as [H|[H|H]]; congruence. }
  split.
  - intros [before Hb].
    destruct (existsb Spec.troubled (Report.analyzers results)) eqn:E.
    + apply existsb_exists in E as (a & Hin & Ha). exists a.
      split; [assumption|]. now apply Htroubled.
    + apply quiet_report_ends in E. rewrite Hb in E.
      rewrite last_two_append in E by (vm_compute; lia).
      vm_compute in E. discriminate.
  - intros (a & Hin & Ha). apply troubled_report_ends.
    apply existsb_exists. exists a. split; [assumption|]. now apply Htroubled.
Qed.

(** C7, as stated, fails on a report whose only entry is an analyzer that
    threw: no failed finding and no warning finding anywhere, and the
    closing section is there. *)
Lemma recommendations_without_findings :
  Forall (fun a => Result.failed a = [] /\ Result.warnings a = [])
         (Report.analyzers Demo.report_error_only)
  /\ Spec.has_recommendations (CodeReviewer.generateReport Demo.report_error_only).
Proof.
  split.
  - repeat constructor.
  - apply troubled_report_ends. reflexivity.
Qed.

(** ** Instances *)

Lemma loadRules_shallow_merge_witness :
  let merged :=
    CodeReviewer.loadRules Demo.parse_rules "/app/rules" Demo.fs_rules "nodejs" in
  dom merged = dom Demo.general_rules ∪ dom Demo.nodejs_rules
  /\ (forall k v, Demo.nodejs_rules !! k = Some v -> merged !! k = Some v)
  /\ (forall k, Demo.nodejs_rules !! k = None ->
        merged !! k = Demo.general_rules !! k).
Proof.
  apply (loadRules_shallow_merge Demo.parse_rules "/app/rules" Demo.fs_rules
           "nodejs" "<general-rules.json>" "<nodejs-rules.json>");
    reflexivity.
Defined.

Lemma gitignore_missing_single_failure_witness :
  existsSync Demo.fs_env (path_join "/project" ".gitignore") = false
  /\ exists f,
       GitignoreAnalyzer.analyze Demo.fs_env "/project" ∅
       = Return (Findings.mk "Gitignore Analyzer" [] [f] [])
       /\ rule f = "gitignore-exists".
Proof.
  split; [reflexivity|].
  apply (gitignore_missing_single_failure Demo.fs_env "/project" ∅).
  reflexivity.
Defined.

(** ** Signatures *)

Import Crypto.

(** The model of [crypto] agrees with the published test vectors. *)
Example sha256_abc :
  Crypto.hex (Crypto.sha256 (Crypto.bytes_of_text "abc"))
  = "ba7816bf8f01cfea414140de5dae2223b00361a396177a9cb410ff61f20015ad".
Proof. vm_compute. reflexivity. Qed.

Example hmac_sha256_fox :
  Crypto.hmac_sha256_hex "key"
    (Crypto.bytes_of_text "The quick brown fox jumps over the lazy dog")
  = "f7bc83f430538424b13298e6aa6fb143ef4d59a14946175997479dbc2d1a3cd8".
Proof. vm_compute. reflexivity. Qed.

Example hmac_sha256_long_key :
  Crypto.hmac_sha256_hex (string_of_list_ascii (repeat "k"%char 65))
    (Crypto.bytes_of_text "abc")
  = "ed378e5dfa30dc98814ba09b2e610d9b6af66054922ceef9480da094a3f11b2d".
Proof. vm_compute. reflexivity. Qed.

Section Buffers.

Lemma Buffer_from_cons (c : ascii) (s : string) :
  Buffer_from (String c s) = utf8_char c ++ Buffer_from s.
Proof. reflexivity. Qed.

Lemma utf8_head_char (c : ascii) (r : bytes) :
  utf8_head (utf8_char c ++ r) = Some (c, r).
Proof.
  destruct c as [[] [] [] [] [] [] [] []]; reflexivity.
Qed.

(** [Buffer.from] loses nothing: two strings with the same bytes are the
    same string. *)
Lemma Buffer_from_inj (s1 s2 : string) :
  Buffer_from s1 = Buffer_from s2 -> s1 = s2.
Proof.
  revert s2. induction s1 as [|c1 s1 IH]; intros [|c2 s2] H.
  - reflexivity.
  - apply (f_equal utf8_head) in H.
    rewrite Buffer_from_cons, utf8_head_char in H. discriminate.
  - apply (f_equal utf8_head) in H.
    rewrite Buffer_from_cons, utf8_head_char in H. discriminate.
  - apply (f_equal utf8_head) in H.
    rewrite !Buffer_from_cons, !utf8_head_char in H.
    injection H as -> H. f_equal. now apply IH.
Qed.

Lemma utf8_char_length (c : ascii) :
  length (utf8_char c) = if code c <? 128 then 1%nat else 2%nat.
Proof. unfold utf8_char. now destruct (code c <? 128). Qed.

Lemma timingSafeEqual_same (b : bytes) : timingSafeEqual b b = Return true.
Proof.
  unfold timingSafeEqual, bytes_eqb. rewrite Nat.eqb_refl.
  now rewrite bool_decide_eq_true_2.
Qed.

Lemma timingSafeEqual_differ (a b : bytes) :
  length a = length b -> a <> b -> timingSafeEqual a b = Return false.
Proof.
  intros Hl Hne. unfold timingSafeEqual, bytes_eqb.
  rewrite Hl, Nat.eqb_refl. now rewrite bool_decide_eq_false_2.
Qed.

Lemma timingSafeEqual_length (a b : bytes) :
  length a <> length b ->
  timingSafeEqual a b
  = Throw (mkError "Input buffers must have the same byte length").
Proof.
  intros Hl. unfold timingSafeEqual.
  apply Nat.eqb_neq in Hl. now rewrite Hl.
Qed.

(** Replacing a character below 128 by another one below 128 keeps the
    length of the buffer; replacing it by one from 128 on adds a byte. *)
Lemma substitute_length (i : nat) (c : ascii) (s : string) :
  (i < String.length s)%nat ->
  Forall (fun d => code d < 128) (list_ascii_of_string s) ->
  length (Buffer_from (Str.substitute i c s))
  = if code c <? 128 then length (Buffer_from s)
    else S (length (Buffer_from s)).
Proof.
  revert i. induction s as [|d s IH]; intros i Hi Hascii; [cbn in Hi; lia|].
  cbn [list_ascii_of_string] in Hascii. inversion Hascii as [|? ? Hd Hs]; subst.
  destruct i as [|i]; cbn [Str.substitute].
  - rewrite !Buffer_from_cons, !length_app, !utf8_char_length.
    apply Z.ltb_lt in Hd. rewrite Hd. now destruct (code c <? 128).
  - rewrite !Buffer_from_cons, !length_app, IH; [|cbn in Hi; lia|assumption].
    destruct (code c <? 128); lia.
Qed.

Lemma substitute_differs (i : nat) (c : ascii) (s : string) :
  (i < String.length s)%nat ->
  String.get i s <> Some c ->
  Str.substitute i c s <> s.
Proof.
  revert i. induction s as [|d s IH]; intros i Hi Hget; [cbn in Hi; lia|].
  destruct i as [|i]; cbn [Str.substitute]; cbn in Hget.
  - intros H. injection H as ->. congruence.
  - intros H. injection H as H. revert H. apply IH; [cbn in Hi; lia|assumption].
Qed.

End Buffers.

Section Digest.

Lemma be_bytes_range (n : nat) (x : Z) :
  Forall (fun b => 0 <= b < 256) (be_bytes n x).
Proof.
  unfold be_bytes. apply Forall_map, Forall_forall. intros i _.
  now apply Z.mod_pos_bound.
Qed.

Lemma sha256_range (m : bytes) : Forall (fun b => 0 <= b < 256) (sha256 m).
Proof.
  unfold sha256, digest_of. generalize (blocks (length (pad m) / 64) H0 (pad m)).
  intros s. cbn [flat_map]. rewrite app_nil_r.
  repeat (apply Forall_app; split); apply be_bytes_range.
Qed.

Lemma sha256_length (m : bytes) : length (sha256 m) = 32%nat.
Proof. reflexivity. Qed.

Lemma hex_digit_code (n : Z) :
  0 <= n < 16 -> code (hex_digit n) = if n <? 10 then 48 + n else 87 + n.
Proof.
  intros Hn. unfold code, hex_digit.
  rewrite N_ascii_embedding.
  - apply Z2N.id. destruct (n <? 10); lia.
  - destruct (n <? 10); lia.
Qed.

Lemma hex_ascii (b : bytes) :
  Forall (fun x => 0 <= x < 256) b ->
  Forall (fun d => code d < 128) (list_ascii_of_string (hex b)).
Proof.
  intros Hb. unfold hex. rewrite list_ascii_of_string_of_list_ascii.
  induction Hb as [|x b Hx Hb IH]; cbn [flat_map]; [constructor|].
  apply Forall_app. split; [|assumption].
  unfold hex_byte.
  assert (0 <= x / 16 < 16) by (split; [apply Z.div_pos|apply Z.div_lt_upper_bound]; lia).
  assert (0 <= x mod 16 < 16) by (apply Z.mod_pos_bound; lia).
  repeat constructor; rewrite hex_digit_code by assumption;
    match goal with |- context [?n <? 10] => destruct (n <? 10) end; lia.
Qed.

Lemma hex_length (b : bytes) :
  String.length (hex b) = (2 * length b)%nat.
Proof.
  unfold hex. rewrite <- length_list_ascii_of_string,
    list_ascii_of_string_of_list_ascii.
  induction b as [|x b IH]; [reflexivity|].
  cbn [flat_map length]. rewrite length_app, IH. cbn. lia.
Qed.

End Digest.

Section Signature.

Import GitHubWebhookHandler.

Variable this : GitHubWebhookHandler.t.
Variable payload : bytes.

Local Abbreviation expected := (expectedSignature this payload).

Lemma hmac_sha256_range (key msg : bytes) :
  Forall (fun b => 0 <= b < 256) (hmac_sha256 key msg).
Proof. apply sha256_range. Qed.

(** The expected header value is ["sha256="] and 64 hexadecimal digits,
    all of them characters below 128. *)
Lemma expected_length : String.length expected = 71%nat.
Proof.
  unfold expectedSignature, hmac_sha256_hex.
  rewrite length_append, hex_length. reflexivity.
Qed.

Lemma expected_ascii :
  Forall (fun d => code d < 128) (list_ascii_of_string expected).
Proof.
  unfold expectedSignature, hmac_sha256_hex.
  rewrite list_ascii_of_string_append. apply Forall_app. split.
  - repeat constructor.
  - apply hex_ascii, hmac_sha256_range.
Qed.

(** The header value that GitHub computes is accepted. *)
Lemma verify_expected :
  verifyWebhookSignature this payload expected = Return true.
Proof. apply timingSafeEqual_same. Qed.

(** Any other header value of the same byte length is refused. *)
Lemma verify_mismatch (signature : string) :
  length (Buffer_from signature) = length (Buffer_from expected) ->
  signature <> expected ->
  verifyWebhookSignature this payload signature = Return false.
Proof.
  intros Hl Hne. apply timingSafeEqual_differ; [assumption|].
  intros H. now apply Buffer_from_inj in H.
Qed.

(** A header value of another byte length is not refused: the comparison
    throws. *)
Lemma verify_length (signature : string) :
  length (Buffer_from signature) <> length (Buffer_from expected) ->
  verifyWebhookSignature this payload signature
  = Throw (mkError "Input buffers must have the same byte length").
Proof. apply timingSafeEqual_length. Qed.

Lemma ascii_buffer_length (s : string) :
  Forall (fun d => code d < 128) (list_ascii_of_string s) ->
  length (Buffer_from s) = String.length s.
Proof.
  induction s as [|c s IH]; intros H; [reflexivity|].
  cbn [list_ascii_of_string] in H. inversion H as [|? ? Hc Hs]; subst.
  rewrite Buffer_from_cons, length_app, utf8_char_length, IH by assumption.
  apply Z.ltb_lt in Hc. now rewrite Hc.
Qed.

(** Replacing one character of the expected value by another character
    below 128 is refused. *)
Lemma verify_ascii_mutation (i : nat) (c : ascii) :
  (i < 71)%nat ->
  code c < 128 ->
  String.get i expected <> Some c ->
  verifyWebhookSignature this payload (Str.substitute i c expected)
  = Return false.
Proof.
  intros Hi Hc Hget. apply verify_mismatch.
  - rewrite substitute_length.
    + apply Z.ltb_lt in Hc. now rewrite Hc.
    + now rewrite expected_length.
    + apply expected_ascii.
  - apply substitute_differs; [now rewrite expected_length|assumption].
Qed.

(** Replacing one character of the expected value by a character from 128
    on makes the comparison throw. *)
Lemma verify_high_mutation (i : nat) (c : ascii) :
  (i < 71)%nat ->
  128 <= code c ->
  verifyWebhookSignature this payload (Str.substitute i c expected)
  = Throw (mkError "Input buffers must have the same byte length").
Proof.
  intros Hi Hc. apply verify_length.
  rewrite substitute_length.
  - assert ((code c <? 128) = false) as -> by (apply Z.ltb_ge; lia). lia.
  - now rewrite expected_length.
  - apply expected_ascii.
Qed.

End Signature.

(** The header value computed for one body is accepted for another body
    exactly when the two bodies have the same HMAC. *)
Lemma verify_other_body (this : GitHubWebhookHandler.t) (body body' : bytes) :
  GitHubWebhookHandler.verifyWebhookSignature this body'
    (GitHubWebhookHandler.expectedSignature this body)
  = Return (bool_decide (hmac_sha256_hex (GitHubWebhookHandler.webhookSecret this) body
                         = hmac_sha256_hex (GitHubWebhookHandler.webhookSecret this) body')).
Proof.
  unfold GitHubWebhookHandler.verifyWebhookSignature, timingSafeEqual.
  rewrite !ascii_buffer_length, !expected_length by apply expected_ascii.
  cbn [Nat.eqb]. f_equal. unfold bytes_eqb.
  apply bool_decide_ext. split.
  - intros H. apply Buffer_from_inj in H.
    unfold GitHubWebhookHandler.expectedSignature in H.
    now apply (inj (String.append "sha256=")) in H.
  - intros H. unfold GitHubWebhookHandler.expectedSignature. now rewrite H.
Qed.

(** C5. On the delivery of the example, signed with the configured secret:
    the header value that GitHub computes is accepted, and replacing its
    first digest character by another hexadecimal digit is refused; but
    replacing that character by the character 233 does not return [false]:
    [Buffer.from] encodes it on two bytes, the buffers differ in length and
    [crypto.timingSafeEqual] throws. *)
Theorem verifySignature_throws_on_length :
  let body := bytes_of_text (Demo.delivery_json "opened") in
  GitHubWebhookHandler.verifyWebhookSignature Demo.handler body
    Demo.signature_opened = Return true
  /\ GitHubWebhookHandler.verifyWebhookSignature Demo.handler body
       Demo.signature_hex_mutation = Return false
  /\ GitHubWebhookHandler.verifyWebhookSignature Demo.handler body
       Demo.signature_high_mutation
     = Throw (mkError "Input buffers must have the same byte length")
  /\ fst (GitHubWebhookHandler.handleWebhook Demo.parse_payload Demo.handler
            (Demo.delivery (Some Demo.signature_high_mutation) "opened")
            Demo.world)
     = GitHubWebhookHandler.mkResponse 500
         (GitHubWebhookHandler.ErrorJson "Internal server error").
Proof.
  cbv zeta. split; [|split; [|split]]; vm_compute; reflexivity.
Qed.

(** ** The webhook boundary *)

Section Gate.

Import GitHubWebhookHandler.

Variable JSON_parse : bytes -> js Payload.

(** The constructor always leaves a secret in place. *)
Lemma new_secret_truthy (env : Env) :
  truthy (webhookSecret (new env)) = true.
Proof.
  unfold new, or_default. cbn [webhookSecret].
  destruct (WEBHOOK_SECRET env) as [s|]; [|reflexivity].
  destruct (truthy s) eqn:E; [assumption|reflexivity].
Qed.

(** A request that passes the signature check is handed to [process]. *)
Lemma accepted_processed (this : t) (req : Request) (w : World) :
  Spec.accepted this req ->
  handleWebhook JSON_parse this req w = respond (process JSON_parse req w).
Proof.
  intros Hacc. unfold handleWebhook.
  destruct (truthy (webhookSecret this) && truthy_opt (x_hub_signature_256 req))
    eqn:E; [|reflexivity].
  destruct Hacc as [H|H]; [congruence|].
  unfold GitHub.bind, lift. now rewrite H.
Qed.

(** A pull request event whose action is not one of the three relevant
    ones changes nothing and calls nothing. *)
Lemma irrelevant_action_skipped (payload : Payload) (w : World) :
  relevant (action payload) = false ->
  handlePullRequestEvent payload w = (Return tt, w).
Proof.
  intros H. unfold handlePullRequestEvent. now rewrite H.
Qed.

Lemma relevant_false (payload : Payload) :
  (forall a, action payload = Some a ->
             ~ In a ["opened"; "synchronize"; "reopened"]) ->
  relevant (action payload) = false.
Proof.
  intros H. unfold relevant. destruct (action payload) as [a|]; [|reflexivity].
  destruct (Str.mem a relevantActions) eqn:E; [|reflexivity].
  apply mem_true_iff in E. now apply H in E.
Qed.

End Gate.

(** C1. Whatever [WEBHOOK_SECRET] is, the handler holds a secret (an unset
    one is replaced by a placeholder).  A request whose signature header is
    present, has the byte length of the expected value and differs from it
    is answered 401 with the world untouched: nothing is parsed, no request
    is sent.  The check is skipped when the signature header is absent or
    empty, and the request is then processed as it stands. *)
Theorem invalid_signature_rejected
    (JSON_parse : bytes -> js GitHubWebhookHandler.Payload)
    (env : GitHubWebhookHandler.Env) (req : GitHubWebhookHandler.Request)
    (w : World) :
  let this := GitHubWebhookHandler.new env in
  let expected :=
    GitHubWebhookHandler.expectedSignature this
      (GitHubWebhookHandler.raw_body req) in
  truthy (GitHubWebhookHandler.webhookSecret this) = true
  /\ (forall signature,
        GitHubWebhookHandler.x_hub_signature_256 req = Some signature ->
        signature <> "" ->
        length (Buffer_from signature) = length (Buffer_from expected) ->
        signature <> expected ->
        GitHubWebhookHandler.handleWebhook JSON_parse this req w
        = (GitHubWebhookHandler.mkResponse 401
             (GitHubWebhookHandler.ErrorJson "Invalid signature"), w))
  /\ (truthy_opt (GitHubWebhookHandler.x_hub_signature_256 req) = false ->
      GitHubWebhookHandler.handleWebhook JSON_parse this req w
      = GitHubWebhookHandler.respond
          (GitHubWebhookHandler.process JSON_parse req w)).
Proof.
  intros this expected. split; [apply new_secret_truthy|]. split.
  - intros signature Hsig Hne Hlen Hdiff.
    unfold GitHubWebhookHandler.handleWebhook. cbv zeta.
    rewrite Hsig. cbn [truthy_opt default from_option Datatypes.id].
    subst this expected. rewrite new_secret_truthy.
    assert (truthy signature = true) as -> by (now destruct signature).
    cbn [andb]. unfold GitHub.bind, lift.
    rewrite (verify_mismatch _ _ signature Hlen Hdiff). reflexivity.
  - intros Hnone. apply accepted_processed. left.
    rewrite Hnone. apply andb_false_r.
Qed.

(** C8. A delivery that passes the signature check, declares the event type
    [pull_request] and carries an action outside [opened], [synchronize] and
    [reopened] is answered 200 with the world untouched: no request is sent
    to GitHub, so no file is listed and no comment is created or updated. *)
Theorem irrelevant_action_acknowledged
    (JSON_parse : bytes -> js GitHubWebhookHandler.Payload)
    (this : GitHubWebhookHandler.t) (req : GitHubWebhookHandler.Request)
    (payload : GitHubWebhookHandler.Payload) (w : World) :
  Spec.accepted this req ->
  GitHubWebhookHandler.x_github_event req = Some "pull_request" ->
  JSON_parse (GitHubWebhookHandler.raw_body req) = Return payload ->
  (forall a, GitHubWebhookHandler.action payload = Some a ->
             ~ In a ["opened"; "synchronize"; "reopened"]) ->
  GitHubWebhookHandler.handleWebhook JSON_parse this req w
  = (GitHubWebhookHandler.mkResponse 200
       (GitHubWebhookHandler.MessageJson "Webhook processed successfully"), w).
Proof.
  intros Hacc Hevent Hparse Haction.
  rewrite accepted_processed by assumption.
  unfold GitHubWebhookHandler.process, GitHub.bind, lift.
  rewrite Hparse, Hevent. rewrite bool_decide_eq_true_2 by reflexivity.
  rewrite irrelevant_action_skipped by now apply relevant_false.
  reflexivity.
Qed.

(** The world is left untouched whatever the signature check says. *)
Lemma irrelevant_action_no_effect
    (JSON_parse : bytes -> js GitHubWebhookHandler.Payload)
    (this : GitHubWebhookHandler.t) (req : GitHubWebhookHandler.Request)
    (payload : GitHubWebhookHandler.Payload) (w : World) :
  JSON_parse (GitHubWebhookHandler.raw_body req) = Return payload ->
  GitHubWebhookHandler.relevant (GitHubWebhookHandler.action payload) = false ->
  snd (GitHubWebhookHandler.handleWebhook JSON_parse this req w) = w.
Proof.
  intros Hparse Haction.
  assert (Hp : snd (GitHubWebhookHandler.respond
                      (GitHubWebhookHandler.process JSON_parse req w)) = w).
  { unfold GitHubWebhookHandler.process, GitHub.bind, lift. rewrite Hparse.
    destruct (bool_decide (GitHubWebhookHandler.x_github_event req
                           = Some "pull_request")); [|reflexivity].
    now rewrite irrelevant_action_skipped. }
  unfold GitHubWebhookHandler.handleWebhook.
  destruct (truthy (GitHubWebhookHandler.webhookSecret this)
            && truthy_opt (GitHubWebhookHandler.x_hub_signature_256 req));
    [|exact Hp].
  unfold GitHub.bind, lift.
  destruct (GitHubWebhookHandler.verifyWebhookSignature this
              (GitHubWebhookHandler.raw_body req)
              (default "" (GitHubWebhookHandler.x_hub_signature_256 req)))
    as [[|]|e]; [exact Hp|reflexivity|reflexivity].
Qed.

(** C1, as stated, fails on a delivery without signature header: a secret
    is configured, the header is missing, and the request is answered 200
    after four requests to GitHub, one of which creates a comment. *)
Lemma missing_signature_processed :
  truthy (GitHubWebhookHandler.webhookSecret Demo.handler) = true
  /\ GitHubWebhookHandler.x_hub_signature_256 (Demo.delivery None "opened") = None
  /\ GitHubWebhookHandler.status
       (fst (GitHubWebhookHandler.handleWebhook Demo.parse_payload Demo.handler
               (Demo.delivery None "opened") Demo.world)) = 200%nat
  /\ thread Demo.world Demo.pr7 = []
  /\ length
       (thread
          (snd (GitHubWebhookHandler.handleWebhook Demo.parse_payload
                  Demo.handler (Demo.delivery None "opened") Demo.world))
          Demo.pr7) = 1%nat
  /\ length
       (calls
          (snd (GitHubWebhookHandler.handleWebhook Demo.parse_payload
                  Demo.handler (Demo.delivery None "opened") Demo.world)))
     = 4%nat.
Proof.
  split; [reflexivity|]. split; [reflexivity|].
  split; [vm_compute; reflexivity|]. split; [reflexivity|].
  split; vm_compute; reflexivity.
Qed.

(** ** The comment on the pull request *)

Section Upsert.

Import GitHubWebhookHandler.

Variables (owner repo : string) (prNumber : nat) (message : string).

Local Abbreviation k := (owner, repo, prNumber).

Lemma set_body_id (i : nat) (b : string) (c : Comment) :
  id (set_body i b c) = id c.
Proof. unfold set_body. now destruct (Nat.eqb (id c) i). Qed.

Lemma set_body_other (i : nat) (b : string) (c : Comment) :
  id c <> i -> set_body i b c = c.
Proof.
  intros H. unfold set_body. apply Nat.eqb_neq in H. now rewrite H.
Qed.

Lemma set_body_same (i : nat) (b : string) (c : Comment) :
  id c = i -> set_body i b c = mkComment i b.
Proof.
  intros H. unfold set_body. subst i. now rewrite Nat.eqb_refl.
Qed.

Lemma set_body_twice (i : nat) (b : string) (c : Comment) :
  set_body i b (set_body i b c) = set_body i b c.
Proof.
  destruct (Nat.eq_dec (id c) i) as [E|E].
  - rewrite (set_body_same i b c E). now apply set_body_same.
  - now rewrite !(set_body_other i b c E).
Qed.

(** An update keeps the identifiers, in order. *)
Lemma update_keeps_ids (i : nat) (b : string) (l : list Comment) :
  map id (map (set_body i b) l) = map id l.
Proof.
  rewrite map_map. apply map_ext. intros c. apply set_body_id.
Qed.

(** Rethrowing what was caught changes nothing. *)
Lemma rethrow {A} (m : M A) (w : World) :
  GitHub.try_catch m (fun error => throw error) w = m w.
Proof. unfold GitHub.try_catch, throw. now destruct (m w) as [[v|e] w']. Qed.

Lemma commentOnPR_found (w : World) (c : Comment) :
  denied w IssuesListComments = false ->
  denied w IssuesUpdateComment = false ->
  List.find Spec.bot (thread w k) = Some c ->
  exists w1,
    commentOnPR owner repo prNumber message w = (Return tt, w1)
    /\ thread w1 k = map (set_body (id c) message) (thread w k)
    /\ denied w1 = denied w
    /\ next_id w1 = next_id w
    /\ calls w1
       = calls w ++ [ListComments k; UpdateComment owner repo (id c) message].
Proof.
  intros HL HU Hfind. unfold commentOnPR. rewrite rethrow.
  unfold GitHub.bind at 1. unfold issues_listComments, GitHub.bind, request.
  rewrite HL. change (thread (record_call w (ListComments k)) k)
    with (thread w k).
  change (fun comment : Comment => includes (body comment) marker)
    with Spec.bot.
  rewrite Hfind. unfold issues_updateComment, GitHub.bind, request.
  cbn [denied record_call]. rewrite HU.
  eexists. split; [reflexivity|].
  split; [|split; [reflexivity|split; [reflexivity|]]].
  - unfold thread, set_comments. cbn [comments record_call].
    rewrite lookup_fmap. destruct (comments w !! k); reflexivity.
  - cbn. now rewrite <- app_assoc.
Qed.

Lemma commentOnPR_missing (w : World) :
  denied w IssuesListComments = false ->
  denied w IssuesCreateComment = false ->
  List.find Spec.bot (thread w k) = None ->
  exists w1,
    commentOnPR owner repo prNumber message w = (Return tt, w1)
    /\ thread w1 k = thread w k ++ [mkComment (next_id w) message]
    /\ denied w1 = denied w
    /\ next_id w1 = S (next_id w)
    /\ calls w1 = calls w ++ [ListComments k; CreateComment k message].
Proof.
  intros HL HC Hfind. unfold commentOnPR. rewrite rethrow.
  unfold GitHub.bind at 1. unfold issues_listComments, GitHub.bind, request.
  rewrite HL. change (thread (record_call w (ListComments k)) k)
    with (thread w k).
  change (fun comment : Comment => includes (body comment) marker)
    with Spec.bot.
  rewrite Hfind. unfold issues_createComment, GitHub.bind, request.
  cbn [denied record_call]. rewrite HC.
  eexists. split; [reflexivity|].
  split; [|split; [reflexivity|split; [reflexivity|]]].
  - unfold thread at 1, set_comments. cbn [comments record_call].
    now rewrite lookup_insert_eq.
  - cbn. now rewrite <- app_assoc.
Qed.

(** A failure to list or to write the comments reaches the caller. *)
Lemma commentOnPR_list_denied (w : World) :
  denied w IssuesListComments = true ->
  commentOnPR owner repo prNumber message w
  = (Throw (mkError "Resource not accessible by integration"),
     record_call w (ListComments k)).
Proof.
  intros HL. unfold commentOnPR. rewrite rethrow.
  unfold GitHub.bind at 1. unfold issues_listComments, GitHub.bind, request.
  now rewrite HL.
Qed.

Lemma find_app_none {A} (p : A -> bool) (l1 l2 : list A) :
  List.find p l1 = None -> List.find p (l1 ++ l2) = List.find p l2.
Proof.
  induction l1 as [|x l1 IH]; cbn; [reflexivity|].
  destruct (p x); [discriminate|assumption].
Qed.

Lemma filter_none {A} (p : A -> bool) (l : list A) :
  List.find p l = None -> List.filter p l = [].
Proof.
  induction l as [|x l IH]; cbn; [reflexivity|].
  destruct (p x); [discriminate|assumption].
Qed.

Lemma filter_map_length {A} (p : A -> bool) (f : A -> A) (l : list A) :
  (forall x, In x l -> p (f x) = p x) ->
  length (List.filter p (map f l)) = length (List.filter p l).
Proof.
  induction l as [|x l IH]; intros H; cbn; [reflexivity|].
  rewrite (H x) by now left.
  destruct (p x); cbn; rewrite IH; auto; intros y Hy; apply H; now right.
Qed.

Lemma same_id_same_comment (l : list Comment) (x c : Comment) :
  NoDup (map id l) -> In x l -> In c l -> id x = id c -> x = c.
Proof.
  induction l as [|y l IH]; intros Hnd Hx Hc E; [contradiction|].
  cbn in Hnd. inversion Hnd as [|? ? Hy Hnd']; subst.
  destruct Hx as [->|Hx], Hc as [->|Hc]; try reflexivity.
  - exfalso. apply Hy. rewrite E. apply list_elem_of_In. now apply in_map.
  - exfalso. apply Hy. rewrite <- E. apply list_elem_of_In. now apply in_map.
  - now apply IH.
Qed.

Hypothesis Hmarked : includes message marker = true.

(** After the update, the first comment taken for the bot's own carries
    the identifier that was updated. *)
Lemma find_after_update (l : list Comment) (c : Comment) :
  List.find Spec.bot l = Some c ->
  exists c',
    List.find Spec.bot (map (set_body (id c) message) l) = Some c'
    /\ id c' = id c.
Proof.
  induction l as [|x l IH]; intros Hfind; [discriminate|].
  cbn [map List.find] in *.
  destruct (Nat.eq_dec (id x) (id c)) as [E|E].
  - rewrite (set_body_same _ _ _ E). unfold Spec.bot at 1. cbn [body].
    rewrite Hmarked. eauto.
  - rewrite (set_body_other _ _ _ E).
    destruct (Spec.bot x); [injection Hfind as ->; congruence|].
    now apply IH.
Qed.

End Upsert.

(** C2. [commentOnPR] lists the comments of the pull request and looks for
    the first one whose body contains the marker.  If there is one, its body
    is replaced and the thread keeps its identifiers; otherwise a comment is
    appended.  When the message itself contains the marker, a second call
    with the same message sends an update, not a creation, and leaves the
    thread as the first call left it; if at most one comment contained the
    marker at the start, exactly one does after both calls. *)
Theorem commentOnPR_upsert (owner repo : string) (prNumber : nat)
    (message : string) (w : World) :
  let k : PRKey := (owner, repo, prNumber) in
  denied w IssuesListComments = false ->
  denied w IssuesUpdateComment = false ->
  denied w IssuesCreateComment = false ->
  exists w1,
    GitHubWebhookHandler.commentOnPR owner repo prNumber message w
    = (Return tt, w1)
    /\ match List.find Spec.bot (thread w k) with
       | Some c =>
           thread w1 k = map (set_body (id c) message) (thread w k)
           /\ map id (thread w1 k) = map id (thread w k)
       | None =>
           thread w1 k = thread w k ++ [mkComment (next_id w) message]
       end
    /\ (includes message GitHubWebhookHandler.marker = true ->
        Spec.well_formed w k ->
        exists w2 i,
          GitHubWebhookHandler.commentOnPR owner repo prNumber message w1
          = (Return tt, w2)
          /\ calls w2
             = calls w1 ++ [ListComments k; UpdateComment owner repo i message]
          /\ thread w2 k = thread w1 k
          /\ ((length (Spec.bot_comments w k) <= 1)%nat ->
              length (Spec.bot_comments w2 k) = 1%nat)).
Proof.
  intros k HL HU HC. subst k.
  destruct (List.find Spec.bot (thread w (owner, repo, prNumber)))
    as [c|] eqn:Hfind.
  - destruct (commentOnPR_found owner repo prNumber message w c HL HU Hfind)
      as (w1 & Hrun & Hthread & Hdenied & Hnext & Hcalls).
    exists w1. split; [exact Hrun|]. split.
    { split; [exact Hthread|]. rewrite Hthread. apply update_keeps_ids. }
    intros Hmarked [Hnodup Hfresh].
    destruct (find_after_update message Hmarked (thread w (owner, repo, prNumber)) c Hfind)
      as (c' & Hfind' & Hid).
    rewrite <- Hthread in Hfind'.
    rewrite <- Hdenied in HL, HU.
    destruct (commentOnPR_found owner repo prNumber message w1 c' HL HU Hfind')
      as (w2 & Hrun2 & Hthread2 & _ & _ & Hcalls2).
    assert (Hsame : thread w2 (owner, repo, prNumber) = thread w1 (owner, repo, prNumber)).
    { rewrite Hthread2, Hid, Hthread, map_map.
      apply map_ext. intros x. apply set_body_twice. }
    exists w2, (id c'). split; [exact Hrun2|]. split; [exact Hcalls2|].
    split; [exact Hsame|].
    intros Hone. unfold Spec.bot_comments in *. rewrite Hsame, Hthread.
    apply find_some in Hfind as [Hin Hbot].
    rewrite filter_map_length.
    + assert (In c (List.filter Spec.bot (thread w (owner, repo, prNumber))))
        by (apply filter_In; split; assumption).
      destruct (List.filter Spec.bot (thread w (owner, repo, prNumber))) as [|? [|? ?]];
        [contradiction|reflexivity|cbn in Hone; lia].
    + intros x Hx. destruct (Nat.eq_dec (id x) (id c)) as [E|E].
      * rewrite (set_body_same _ _ _ E).
        rewrite (same_id_same_comment (thread w (owner, repo, prNumber)) x c Hnodup Hx Hin E), Hbot.
        unfold Spec.bot. cbn [body]. exact Hmarked.
      * now rewrite (set_body_other _ _ _ E).
  - destruct (commentOnPR_missing owner repo prNumber message w HL HC Hfind)
      as (w1 & Hrun & Hthread & Hdenied & Hnext & Hcalls).
    exists w1. split; [exact Hrun|]. split; [exact Hthread|].
    intros Hmarked [Hnodup Hfresh].
    set (new := mkComment (next_id w) message) in *.
    assert (Hnew : Spec.bot new = true) by exact Hmarked.
    assert (Hfind' : List.find Spec.bot (thread w1 (owner, repo, prNumber)) = Some new).
    { rewrite Hthread, find_app_none by assumption.
      cbn [List.find]. now rewrite Hnew. }
    rewrite <- Hdenied in HL, HU.
    destruct (commentOnPR_found owner repo prNumber message w1 new HL HU Hfind')
      as (w2 & Hrun2 & Hthread2 & _ & _ & Hcalls2).
    assert (Hsame : thread w2 (owner, repo, prNumber) = thread w1 (owner, repo, prNumber)).
    { rewrite Hthread2, Hthread, map_app. f_equal.
      - rewrite <- (map_id (thread w (owner, repo, prNumber))) at 2. apply map_ext_in.
        intros x Hx. apply set_body_other.
        rewrite Forall_forall in Hfresh. apply list_elem_of_In, Hfresh in Hx.
        cbn. lia.
      - cbn. now rewrite set_body_same. }
    exists w2, (id new). split; [exact Hrun2|]. split; [exact Hcalls2|].
    split; [exact Hsame|].
    intros _. unfold Spec.bot_comments. rewrite Hsame, Hthread.
    rewrite List.filter_app, (filter_none _ _ Hfind).
    cbn [List.filter app]. now rewrite Hnew.
Qed.

(** C2, as stated, fails on a thread whose only comment quotes the heading
    of a report: no body starts with the marker, so the step described
    would append a comment; [commentOnPR] finds the marker inside the
    quotation and overwrites the collaborator's comment. *)
Lemma quoting_comment_overwritten :
  List.find (fun c => startsWith (body c) GitHubWebhookHandler.marker)
            (thread Demo.world_quoted Demo.pr7) = None
  /\ thread
       (snd (Spec.upsertComment "octo" "demo" 7 Demo.report7 Demo.world_quoted))
       Demo.pr7
     = [Demo.quoting_comment; mkComment 2 Demo.report7]
  /\ thread
       (snd (GitHubWebhookHandler.commentOnPR "octo" "demo" 7 Demo.report7
               Demo.world_quoted))
       Demo.pr7
     = [mkComment 1 Demo.report7].
Proof.
  split; [vm_compute; reflexivity|].
  split; vm_compute; reflexivity.
Qed.


(** A message without the marker is not found again: the second call
    appends a second comment. *)
Lemma commentOnPR_unmarked_appends (owner repo : string) (prNumber : nat)
    (message : string) (w : World) :
  denied w IssuesListComments = false ->
  denied w IssuesCreateComment = false ->
  includes message GitHubWebhookHandler.marker = false ->
  List.find Spec.bot (thread w (owner, repo, prNumber)) = None ->
  exists w1 w2,
    GitHubWebhookHandler.commentOnPR owner repo prNumber message w
    = (Return tt, w1)
    /\ GitHubWebhookHandler.commentOnPR owner repo prNumber message w1
       = (Return tt, w2)
    /\ thread w2 (owner, repo, prNumber)
       = thread w (owner, repo, prNumber)
         ++ [mkComment (next_id w) message; mkComment (S (next_id w)) message].
Proof.
  intros HL HC Hplain Hfind.
  destruct (commentOnPR_missing owner repo prNumber message w HL HC Hfind)
    as (w1 & Hrun & Hthread & Hdenied & Hnext & _).
  assert (Hfind1 : List.find Spec.bot (thread w1 (owner, repo, prNumber)) = None).
  { rewrite Hthread, find_app_none by assumption.
    cbn [List.find]. unfold Spec.bot at 1. cbn [body]. now rewrite Hplain. }
  rewrite <- Hdenied in HL, HC.
  destruct (commentOnPR_missing owner repo prNumber message w1 HL HC Hfind1)
    as (w2 & Hrun2 & Hthread2 & _).
  exists w1, w2. split; [exact Hrun|]. split; [exact Hrun2|].
  rewrite Hthread2, Hthread, Hnext, <- app_assoc. reflexivity.
Qed.

(** The heading of the Spanish reports of the later handler does not
    contain the marker that its [commentOnPR] looks for. *)
Example spanish_heading_unmarked :
  includes "🤖 **Revisión de Estructura de Código**"
           GitHubWebhookHandler.marker = false.
Proof. reflexivity. Qed.

(** Every report that [generatePRReport] renders starts with the marker, so
    the second part of the theorem applies to it. *)
Lemma prefix_extend (p s t : string) :
  String.prefix p s = true -> String.prefix p (s +:+ t) = true.
Proof.
  revert s. induction p as [|c p IH]; intros s H.
  - now destruct (s +:+ t).
  - destruct s as [|d s]; [discriminate|].
    rewrite append_cons. cbn [String.prefix] in *.
    destruct (ascii_dec c d); [now apply IH|discriminate].
Qed.

Lemma prefix_fold {A} (p : string) (f : string -> A -> string) (l : list A) :
  (forall s x, String.prefix p s = true -> String.prefix p (f s x) = true) ->
  forall s, String.prefix p s = true ->
            String.prefix p (fold_left f l s) = true.
Proof.
  intros Hf. induction l as [|x l IH]; intros s Hs; cbn; [assumption|].
  apply IH, Hf, Hs.
Qed.

Lemma prefix_stage {A} (p report heading : string)
    (f : string -> A -> string) (l : list A) :
  (forall s x, String.prefix p s = true -> String.prefix p (f s x) = true) ->
  String.prefix p report = true ->
  String.prefix p
    match l with
    | [] => report
    | _ => fold_left f l (report +:+ heading)
    end = true.
Proof.
  intros Hf Hr. destruct l; [assumption|].
  apply prefix_fold; [assumption|now apply prefix_extend].
Qed.

Lemma generatePRReport_marked analysis pr files now :
  startsWith (GitHubWebhookHandler.generatePRReport analysis pr files now)
             GitHubWebhookHandler.marker = true.
Proof.
  unfold startsWith, GitHubWebhookHandler.generatePRReport. cbv zeta.
  apply prefix_extend.
  apply prefix_stage; [intros s x Hs; now apply prefix_extend|].
  apply prefix_stage; [intros s x Hs; now apply prefix_extend|].
  apply prefix_stage.
  - intros s x Hs.
    destruct (truthy_opt (GitHubWebhookHandler.issue_suggestion x));
      repeat apply prefix_extend; exact Hs.
  - apply prefix_append.
Qed.

(** The comment posted when the analysis throws is not marked: when GitHub
    refuses to show the pull request, two deliveries leave two comments. *)
Lemma failure_comments_pile_up :
  let once :=
    snd (GitHubWebhookHandler.handleWebhook Demo.parse_payload Demo.handler
           (Demo.delivery None "opened") Demo.world_refusing) in
  let twice :=
    snd (GitHubWebhookHandler.handleWebhook Demo.parse_payload Demo.handler
           (Demo.delivery None "opened") once) in
  map id (thread once Demo.pr7) = [1%nat]
  /\ map id (thread twice Demo.pr7) = [1%nat; 2%nat]
  /\ Spec.bot_comments twice Demo.pr7 = [].
Proof.
  cbv zeta. split; [|split]; vm_compute; reflexivity.
Qed.

Lemma commentOnPR_upsert_witness :
  exists w1 w2,
    GitHubWebhookHandler.commentOnPR "octo" "demo" 7 Demo.report7 Demo.world
    = (Return tt, w1)
    /\ GitHubWebhookHandler.commentOnPR "octo" "demo" 7 Demo.report7 w1
       = (Return tt, w2)
    /\ thread w1 Demo.pr7 = [mkComment 1 Demo.report7]
    /\ thread w2 Demo.pr7 = thread w1 Demo.pr7
    /\ length (Spec.bot_comments w2 Demo.pr7) = 1%nat.
Proof.
  destruct (commentOnPR_upsert "octo" "demo" 7 Demo.report7 Demo.world
              eq_refl eq_refl eq_refl)
    as (w1 & Hrun & Hthread & Htwice).
  destruct Htwice as (w2 & i & Hrun2 & Hcalls & Hsame & Hone).
  - apply startsWith_includes, generatePRReport_marked.
  - split; [constructor|constructor].
  - exists w1, w2. split; [exact Hrun|]. split; [exact Hrun2|].
    split; [exact Hthread|]. split; [exact Hsame|].
    apply Hone. vm_compute. lia.
Defined.

Lemma invalid_signature_rejected_witness :
  GitHubWebhookHandler.handleWebhook Demo.parse_payload Demo.handler
    (Demo.delivery (Some Demo.signature_hex_mutation) "opened")
    Demo.world
  = (GitHubWebhookHandler.mkResponse 401
       (GitHubWebhookHandler.ErrorJson "Invalid signature"), Demo.world)
  /\ GitHubWebhookHandler.handleWebhook Demo.parse_payload Demo.handler
       (Demo.delivery None "opened") Demo.world
     = GitHubWebhookHandler.respond
         (GitHubWebhookHandler.process Demo.parse_payload
            (Demo.delivery None "opened") Demo.world).
Proof.
  split.
  - destruct (invalid_signature_rejected Demo.parse_payload
                (GitHubWebhookHandler.mkEnv (Some "s3cret") (Some "ghp_example"))
                (Demo.delivery (Some Demo.signature_hex_mutation)
                   "opened")
                Demo.world)
      as (_ & Hreject & _).
    apply (Hreject (Demo.signature_hex_mutation)).
    + reflexivity.
    + vm_compute. discriminate.
    + vm_compute. reflexivity.
    + vm_compute. discriminate.
  - destruct (invalid_signature_rejected Demo.parse_payload
                (GitHubWebhookHandler.mkEnv (Some "s3cret") (Some "ghp_example"))
                (Demo.delivery None "opened") Demo.world)
      as (_ & _ & Hskip).
    apply Hskip. reflexivity.
Defined.

Lemma irrelevant_action_acknowledged_witness :
  Spec.accepted Demo.handler
    (Demo.delivery (Some Demo.signature_closed) "closed")
  /\ GitHubWebhookHandler.handleWebhook Demo.parse_payload Demo.handler
       (Demo.delivery (Some Demo.signature_closed) "closed") Demo.world
     = (GitHubWebhookHandler.mkResponse 200
          (GitHubWebhookHandler.MessageJson "Webhook processed successfully"),
        Demo.world).
Proof.
  assert (Hacc : Spec.accepted Demo.handler
                   (Demo.delivery (Some Demo.signature_closed) "closed")).
  { right. vm_compute. reflexivity. }
  split; [exact Hacc|].
  apply (irrelevant_action_acknowledged Demo.parse_payload Demo.handler
           (Demo.delivery (Some Demo.signature_closed) "closed")
           (Demo.delivery_payload "closed") Demo.world Hacc).
  - reflexivity.
  - vm_compute. reflexivity.
  - intros a Ha. injection Ha as <-.
    intros [H|[H|[H|[]]]]; discriminate H.
Defined.

(** * Further properties of the code *)

(** ** [loadRules]: absent and unusable rule files *)

(** X1 ([CodeReviewer.loadRules]).  A project type that has no rule file of
    its own gets the general rules, unchanged: the missing file is skipped
    and is no error. *)
Theorem loadRules_without_project_file
    (JSON_parse : string -> js RuleSet) (rulesDir : string)
    (fs : FileSystem) (projectType text : string) (base : RuleSet) :
  existsSync fs (path_join rulesDir "general-rules.json") = true ->
  readFileSync fs (path_join rulesDir "general-rules.json") = Return text ->
  JSON_parse text = Return base ->
  existsSync fs (path_join rulesDir (projectType +:+ "-rules.json")) = false ->
  CodeReviewer.loadRules JSON_parse rulesDir fs projectType = base.
Proof.
  intros Hg Hread Hparse Hp.
  unfold CodeReviewer.loadRules.
  rewrite Hg, Hread. cbn [Js.bind]. rewrite Hparse. cbn [Js.bind].
  rewrite Hp. apply spread_empty.
Qed.

Lemma loadRules_without_project_file_witness :
  CodeReviewer.loadRules Demo.parse_rules "/app/rules" Demo.fs_rules "python"
  = Demo.general_rules.
Proof.
  apply (loadRules_without_project_file Demo.parse_rules "/app/rules"
           Demo.fs_rules "python" "<general-rules.json>" Demo.general_rules);
    reflexivity.
Defined.

(** X2 ([CodeReviewer.loadRules]).  One rule file that is there but cannot
    be read or parsed costs all the rules: the result is the built-in
    default [{general: {}}], also when the other file is fine. *)
Theorem loadRules_unusable_file_loses_all
    (JSON_parse : string -> js RuleSet) (rulesDir : string)
    (fs : FileSystem) (projectType : string) :
  Shapes.unusable JSON_parse fs (path_join rulesDir "general-rules.json")
  \/ Shapes.unusable JSON_parse fs
       (path_join rulesDir (projectType +:+ "-rules.json")) ->
  CodeReviewer.loadRules JSON_parse rulesDir fs projectType
  = Shapes.default_rules.
Proof.
  unfold Shapes.unusable, CodeReviewer.loadRules, Shapes.default_rules.
  intros [[Hex Hbad] | [Hex Hbad]].
  - rewrite Hex.
    destruct (readFileSync fs (path_join rulesDir "general-rules.json"))
      as [text | e]; cbn [Js.bind]; [| reflexivity].
    destruct Hbad as [e He]. rewrite He. reflexivity.
  - destruct (existsSync fs (path_join rulesDir "general-rules.json")).
    + destruct (readFileSync fs (path_join rulesDir "general-rules.json"))
        as [text | e]; cbn [Js.bind]; [| reflexivity].
      destruct (JSON_parse text) as [base | e]; cbn [Js.bind]; [| reflexivity].
      rewrite Hex.
      destruct (readFileSync fs
                  (path_join rulesDir (projectType +:+ "-rules.json")))
        as [text' | e]; cbn [Js.bind]; [| reflexivity].
      destruct Hbad as [e He]. rewrite He. reflexivity.
    + cbn [Js.bind]. rewrite Hex.
      destruct (readFileSync fs
                  (path_join rulesDir (projectType +:+ "-rules.json")))
        as [text' | e]; cbn [Js.bind]; [| reflexivity].
      destruct Hbad as [e He]. rewrite He. reflexivity.
Qed.

Lemma loadRules_unusable_file_loses_all_witness :
  CodeReviewer.loadRules Demo.parse_rules "/app/rules" Cases.fs_broken_rules
    "nodejs"
  = Shapes.default_rules.
Proof.
  apply (loadRules_unusable_file_loses_all Demo.parse_rules "/app/rules"
           Cases.fs_broken_rules "nodejs").
  right. split; [reflexivity |].
  exists (mkError "Unexpected token in JSON at position 0"). reflexivity.
Defined.

(** ** The three analyzers *)

Section Analyzers.

Variable fs : FileSystem.
Variable projectPath : string.

Lemma includes_append (pre x post : string) :
  includes (pre +:+ x +:+ post) x = true.
Proof.
  induction pre as [| c pre IH].
  - change ("" +:+ x +:+ post) with (x +:+ post).
    apply startsWith_includes. apply prefix_append.
  - rewrite append_cons. cbn [includes]. rewrite IH. apply orb_true_r.
Qed.

Lemma append_inj_l (p a b : string) : p +:+ a = p +:+ b -> a = b.
Proof.
  induction p as [| c p IH]; intros H.
  - exact H.
  - rewrite !append_cons in H. injection H as H. auto.
Qed.

Lemma checkRequiredRules_findings (gitignoreLines req : list string)
    (r : Findings.t) :
  GitignoreAnalyzer.checkRequiredRules gitignoreLines req r
  = Findings.mk (Findings.analyzer r)
      (Findings.passed r
         ++ map Shapes.rule_included
              (List.filter (Shapes.rule_found gitignoreLines) req))
      (Findings.failed r
         ++ map Shapes.rule_missing
              (List.filter (fun rule => negb (Shapes.rule_found gitignoreLines rule))
                 req))
      (Findings.warnings r).
Proof.
  unfold GitignoreAnalyzer.checkRequiredRules.
  revert r. induction req as [| rule req IH]; intros r.
  - cbn. rewrite !app_nil_r. now destruct r.
  - cbn [fold_left List.filter]. rewrite IH. clear IH.
    fold (Shapes.rule_found gitignoreLines rule).
    destruct (Shapes.rule_found gitignoreLines rule); cbn [negb map];
      unfold Findings.push_passed, Findings.push_failed;
      cbn [Findings.analyzer Findings.passed Findings.failed Findings.warnings];
      rewrite <- ?app_assoc; reflexivity.
Qed.

Lemma checkGeneralRules_findings (gitignoreLines folders : list string)
    (general : NamespaceRules) (r : Findings.t) :
  prohibitedFolders general = Some folders ->
  GitignoreAnalyzer.checkGeneralRules gitignoreLines general r
  = Findings.mk (Findings.analyzer r)
      (Findings.passed r
         ++ map (fun folder =>
                   mkFinding ("gitignore-excludes-" +:+ folder)
                     ("✅ .gitignore excludes: " +:+ folder) None)
              (List.filter (Shapes.folder_found gitignoreLines) folders))
      (Findings.failed r)
      (Findings.warnings r
         ++ map (fun folder =>
                   mkFinding ("gitignore-should-exclude-" +:+ folder)
                     ("⚠️  Consider adding '" +:+ folder +:+ "/' to .gitignore")
                     (Some ("Add '" +:+ folder
                            +:+ "/' to exclude this folder from version control")))
              (List.filter
                 (fun folder => negb (Shapes.folder_found gitignoreLines folder))
                 folders)).
Proof.
  intros Hfolders.
  unfold GitignoreAnalyzer.checkGeneralRules. rewrite Hfolders.
  clear Hfolders. revert r. induction folders as [| folder folders IH]; intros r.
  - cbn. rewrite !app_nil_r. now destruct r.
  - cbn [fold_left List.filter]. rewrite IH. clear IH.
    fold (Shapes.folder_found gitignoreLines folder).
    destruct (Shapes.folder_found gitignoreLines folder); cbn [negb map];
      unfold Findings.push_passed, Findings.push_warning;
      cbn [Findings.analyzer Findings.passed Findings.failed Findings.warnings];
      rewrite <- ?app_assoc; reflexivity.
Qed.

Lemma filter_split_length {A} (p : A -> bool) (l : list A) :
  (length (List.filter p l) + length (List.filter (fun x => negb (p x)) l)
   = length l)%nat.
Proof.
  induction l as [| x l IH]; [reflexivity |].
  cbn [List.filter]. destruct (p x); cbn [negb length]; lia.
Qed.

Lemma gitignore_with_required_rules (rules : RuleSet) content req :
  existsSync fs (path_join projectPath ".gitignore") = true ->
  readFileSync fs (path_join projectPath ".gitignore") = Return content ->
  rules !! "nodejs" ≫= gitignoreRules = Some req ->
  GitignoreAnalyzer.analyze fs projectPath rules
  = Return
      (Findings.mk GitignoreAnalyzer.name
         (Shapes.gitignore_found
            :: map Shapes.rule_included
                 (List.filter (Shapes.rule_found (Shapes.gitignore_lines content))
                    req))
         (map Shapes.rule_missing
            (List.filter
               (fun rule =>
                  negb (Shapes.rule_found (Shapes.gitignore_lines content) rule))
               req))
         []).
Proof.
  intros Hex Hread Hreq.
  unfold GitignoreAnalyzer.analyze. cbv zeta.
  rewrite Hex, Hread. cbn [negb]. rewrite Hreq.
  rewrite checkRequiredRules_findings. reflexivity.
Qed.

End Analyzers.

(** X3 ([GitignoreAnalyzer.analyze], [checkRequiredRules]).  With Node.js
    rules loaded and a readable [.gitignore], every required rule gives
    exactly one finding, passed or failed; nothing is a warning, and the
    prohibited folders of the general rules are not looked at. *)
Theorem gitignore_one_finding_per_rule (fs : FileSystem) (projectPath : string)
    (rules : RuleSet) (content : string) (req : list string) :
  existsSync fs (path_join projectPath ".gitignore") = true ->
  readFileSync fs (path_join projectPath ".gitignore") = Return content ->
  rules !! "nodejs" ≫= gitignoreRules = Some req ->
  exists r,
    GitignoreAnalyzer.analyze fs projectPath rules = Return r
    /\ (length (Findings.passed r) + length (Findings.failed r)
        = S (length req))%nat
    /\ Findings.warnings r = []
    /\ (forall rule,
          In rule req ->
          if Shapes.rule_found (Shapes.gitignore_lines content) rule
          then In (Shapes.rule_included rule) (Findings.passed r)
          else In (Shapes.rule_missing rule) (Findings.failed r)).
Proof.
  intros Hex Hread Hreq. eexists. split.
  - apply gitignore_with_required_rules; eassumption.
  - cbn [Findings.passed Findings.failed Findings.warnings].
    split; [| split; [reflexivity |]].
    + cbn [length]. rewrite !length_map.
      pose proof (filter_split_length
                    (Shapes.rule_found (Shapes.gitignore_lines content)) req).
      lia.
    + intros rule Hin.
      destruct (Shapes.rule_found (Shapes.gitignore_lines content) rule) eqn:Hf.
      * right. apply in_map. apply filter_In. auto.
      * apply in_map. apply filter_In. rewrite Hf. auto.
Qed.

Lemma gitignore_one_finding_per_rule_witness :
  exists r,
    GitignoreAnalyzer.analyze Cases.fs_mention "/project" Demo.nodejs_rules
    = Return r
    /\ (length (Findings.passed r) + length (Findings.failed r) = 4)%nat
    /\ Findings.warnings r = [].
Proof.
  destruct (gitignore_one_finding_per_rule Cases.fs_mention "/project"
              Demo.nodejs_rules
              ("# node_modules is kept on purpose" +:+ Str.nl
               +:+ "!node_modules/")
              ["node_modules/"; ".env*"; "dist/"])
    as (r & Hr & Hlen & Hw & _); [reflexivity | reflexivity | reflexivity |].
  exists r. auto.
Defined.

(** X4 ([GitignoreAnalyzer.checkRequiredRules]).  The test for a required
    rule is a substring test: a line that only mentions the rule's text
    (the rule without its first slash), such as a comment or a pattern
    that un-ignores it, makes the rule pass, and it is not reported as
    missing. *)
Theorem gitignore_mention_counts_as_rule (fs : FileSystem)
    (projectPath : string) (rules : RuleSet) (content : string)
    (req : list string) (rule pre post : string) :
  existsSync fs (path_join projectPath ".gitignore") = true ->
  readFileSync fs (path_join projectPath ".gitignore") = Return content ->
  rules !! "nodejs" ≫= gitignoreRules = Some req ->
  In rule req ->
  In (pre +:+ Str.remove_first_slash rule +:+ post)
     (Shapes.gitignore_lines content) ->
  exists r,
    GitignoreAnalyzer.analyze fs projectPath rules = Return r
    /\ In (Shapes.rule_included rule) (Findings.passed r)
    /\ ~ In (Shapes.rule_missing rule) (Findings.failed r).
Proof.
  intros Hex Hread Hreq Hin Hline.
  assert (Hfound : Shapes.rule_found (Shapes.gitignore_lines content) rule = true).
  { unfold Shapes.rule_found. apply existsb_exists.
    eexists. split; [exact Hline |].
    rewrite includes_append. apply orb_true_r. }
  eexists. split; [apply gitignore_with_required_rules; eassumption |].
  cbn [Findings.passed Findings.failed]. split.
  - right. apply in_map. apply filter_In. auto.
  - intros Hm. apply in_map_iff in Hm as (rule' & Heq & Hin').
    apply filter_In in Hin' as [_ Hnot].
    unfold Shapes.rule_missing in Heq. injection Heq as _ Hmsg _.
    apply append_inj_l in Hmsg. subst rule'.
    rewrite Hfound in Hnot. discriminate.
Qed.

Lemma gitignore_mention_counts_as_rule_witness :
  exists r,
    GitignoreAnalyzer.analyze Cases.fs_mention "/project" Demo.nodejs_rules
    = Return r
    /\ In (Shapes.rule_included "node_modules/") (Findings.passed r)
    /\ ~ In (Shapes.rule_missing "node_modules/") (Findings.failed r).
Proof.
  apply (gitignore_mention_counts_as_rule Cases.fs_mention "/project"
           Demo.nodejs_rules
           ("# node_modules is kept on purpose" +:+ Str.nl
            +:+ "!node_modules/")
           ["node_modules/"; ".env*"; "dist/"] "node_modules/"
           "# " " is kept on purpose");
    [reflexivity | reflexivity | reflexivity | | ].
  - left. reflexivity.
  - left. vm_compute. reflexivity.
Defined.

(** X5 ([GitignoreAnalyzer.analyze], [checkGeneralRules]).  Without
    Node.js rules a readable [.gitignore] never fails: each prohibited
    folder of the general rules gives one finding, passed or a warning. *)
Theorem gitignore_general_rules_only_warn (fs : FileSystem)
    (projectPath : string) (rules : RuleSet) (content : string) :
  existsSync fs (path_join projectPath ".gitignore") = true ->
  readFileSync fs (path_join projectPath ".gitignore") = Return content ->
  rules !! "nodejs" ≫= gitignoreRules = None ->
  exists r,
    GitignoreAnalyzer.analyze fs projectPath rules = Return r
    /\ Findings.failed r = []
    /\ (length (Findings.passed r) + length (Findings.warnings r)
        = S (length (default [] (rules !! "general" ≫= prohibitedFolders))))%nat.
Proof.
  intros Hex Hread Hnode.
  unfold GitignoreAnalyzer.analyze. cbv zeta.
  rewrite Hex, Hread. cbn [negb]. rewrite Hnode.
  destruct (rules !! "general") as [general |] eqn:Hg; cbn [mbind option_bind].
  - destruct (prohibitedFolders general) as [folders |] eqn:Hf.
    + eexists. split; [reflexivity |].
      rewrite (checkGeneralRules_findings _ folders) by exact Hf.
      cbn [Findings.passed Findings.failed Findings.warnings Findings.new
           Findings.push_passed default from_option Datatypes.id].
      split; [reflexivity |].
      rewrite length_app, ?length_map. cbn [length app].
      rewrite ?length_map.
      pose proof (filter_split_length
                    (Shapes.folder_found (map Str.trim (Str.split_lines content)))
                    folders).
      lia.
    + eexists. split; [reflexivity |].
      unfold GitignoreAnalyzer.checkGeneralRules. rewrite Hf.
      split; reflexivity.
  - eexists. split; [reflexivity |]. split; reflexivity.
Qed.

Lemma gitignore_general_rules_only_warn_witness :
  exists r,
    GitignoreAnalyzer.analyze Cases.fs_mention "/project" Demo.general_rules
    = Return r
    /\ Findings.failed r = []
    /\ (length (Findings.passed r) + length (Findings.warnings r) = 3)%nat.
Proof.
  apply (gitignore_general_rules_only_warn Cases.fs_mention "/project"
           Demo.general_rules
           ("# node_modules is kept on purpose" +:+ Str.nl
            +:+ "!node_modules/"));
    reflexivity.
Defined.

Section EnvFindings.

Variable fs : FileSystem.
Variable projectPath : string.

Lemma findEnvFiles_In (prohibited files : list string) (f : string) :
  readdirSync fs projectPath = Return files ->
  In f (EnvAnalyzer.findEnvFiles fs projectPath prohibited)
  <-> In f files /\ Str.mem f prohibited || Shapes.env_like f = true.
Proof.
  intros Hread. unfold EnvAnalyzer.findEnvFiles. rewrite Hread.
  rewrite in_flat_map. unfold Shapes.env_like. split.
  - intros (x & Hx & Hin). apply in_app_or in Hin as [Hin | Hin].
    + destruct (Str.mem x prohibited) eqn:Hm; [| destruct Hin].
      destruct Hin as [-> | []]. rewrite Hm. auto.
    + destruct (startsWith x ".env" && negb (String.eqb x ".env.example"))
        eqn:He; [| destruct Hin].
      destruct Hin as [-> | []]. rewrite He, orb_true_r. auto.
  - intros [Hin Htest]. exists f. split; [exact Hin |].
    apply in_or_app. apply orb_true_iff in Htest as [Hm | He].
    + left. rewrite Hm. now left.
    + right. rewrite He. now left.
Qed.

Lemma env_analyze_failed (rules : RuleSet) :
  exists r,
    EnvAnalyzer.analyze fs projectPath rules = Return r
    /\ Findings.analyzer r = EnvAnalyzer.name
    /\ Findings.failed r
       = map EnvAnalyzer.committed
           (EnvAnalyzer.findEnvFiles fs projectPath
              (Shapes.prohibited_env_files rules))
    /\ (EnvAnalyzer.findEnvFiles fs projectPath
          (Shapes.prohibited_env_files rules) = [] ->
        In Shapes.no_env_files (Findings.passed r)).
Proof.
  unfold EnvAnalyzer.analyze. cbv zeta.
  fold (Shapes.prohibited_env_files rules).
  destruct (EnvAnalyzer.findEnvFiles fs projectPath
              (Shapes.prohibited_env_files rules)) as [| x found] eqn:Hfound.
  - destruct (existsSync fs (path_join projectPath ".env.example"));
      (eexists; split; [reflexivity |]);
      cbn; auto.
  - rewrite env_failed_findings.
    destruct (existsSync fs (path_join projectPath ".env.example"));
      (eexists; split; [reflexivity |]);
      cbn [Findings.analyzer Findings.failed Findings.passed Findings.new
           Findings.push_passed Findings.push_warning app];
      (split; [reflexivity |]); (split; [reflexivity | discriminate]).
Qed.

End EnvFindings.

(** X6 ([EnvAnalyzer.analyze], [EnvAnalyzer.findEnvFiles]).  The failed
    findings of the environment analyzer are the entries of the project
    directory that are on the prohibited list or start with [.env]
    without being [.env.example], and nothing else. *)
Theorem env_failures_are_env_files (fs : FileSystem) (projectPath : string)
    (rules : RuleSet) (files : list string) :
  readdirSync fs projectPath = Return files ->
  exists r,
    EnvAnalyzer.analyze fs projectPath rules = Return r
    /\ forall x,
         In x (Findings.failed r)
         <-> exists f,
               In f files
               /\ (Str.mem f (Shapes.prohibited_env_files rules)
                   || Shapes.env_like f) = true
               /\ x = EnvAnalyzer.committed f.
Proof.
  intros Hread.
  destruct (env_analyze_failed fs projectPath rules) as (r & Hr & _ & Hfailed & _).
  exists r. split; [exact Hr |].
  intros x. rewrite Hfailed, in_map_iff. split.
  - intros (f & <- & Hin).
    apply (findEnvFiles_In fs projectPath _ files) in Hin as [Hin Ht];
      [| exact Hread].
    exists f. auto.
  - intros (f & Hin & Ht & ->). exists f. split; [reflexivity |].
    apply (findEnvFiles_In fs projectPath _ files); auto.
Qed.

Lemma env_failures_are_env_files_witness :
  exists r,
    EnvAnalyzer.analyze Cases.fs_deps "/project" ∅ = Return r
    /\ forall x,
         In x (Findings.failed r)
         <-> exists f,
               In f ["node_modules"; "env"; "package.json"; ".env.example"]
               /\ (Str.mem f (Shapes.prohibited_env_files ∅)
                   || Shapes.env_like f) = true
               /\ x = EnvAnalyzer.committed f.
Proof.
  apply (env_failures_are_env_files Cases.fs_deps "/project" ∅
           ["node_modules"; "env"; "package.json"; ".env.example"]).
  reflexivity.
Defined.

(** X7 ([EnvAnalyzer.findEnvFiles], [EnvAnalyzer.analyze]).  A project
    directory that cannot be listed is reported as clean: the error of
    [readdirSync] is swallowed, the analyzer returns normally with no
    failed finding and with the finding that no environment file is
    committed. *)
Theorem env_unlistable_directory_reported_clean (fs : FileSystem)
    (projectPath : string) (rules : RuleSet) (e : Error) :
  readdirSync fs projectPath = Throw e ->
  exists r,
    EnvAnalyzer.analyze fs projectPath rules = Return r
    /\ Findings.failed r = []
    /\ In Shapes.no_env_files (Findings.passed r).
Proof.
  intros Hread.
  destruct (env_analyze_failed fs projectPath rules) as (r & Hr & _ & Hfailed & Hclean).
  assert (Hnone : EnvAnalyzer.findEnvFiles fs projectPath
                    (Shapes.prohibited_env_files rules) = []).
  { unfold EnvAnalyzer.findEnvFiles. now rewrite Hread. }
  exists r. split; [exact Hr |]. split.
  - now rewrite Hfailed, Hnone.
  - auto.
Qed.

Lemma env_unlistable_directory_reported_clean_witness :
  exists r,
    EnvAnalyzer.analyze Cases.fs_unlistable "/project" ∅ = Return r
    /\ Findings.failed r = []
    /\ In Shapes.no_env_files (Findings.passed r).
Proof.
  apply (env_unlistable_directory_reported_clean Cases.fs_unlistable "/project"
           ∅ (mkError "EACCES: permission denied, scandir '/project'")).
  reflexivity.
Defined.

Section DependencyFindings.

Variable fs : FileSystem.
Variable projectPath : string.

Local Abbreviation absent :=
  (fun folder => negb (existsSync fs (path_join projectPath folder))).

Lemma checkFolders_findings (folders : list string) (r : Findings.t) :
  Shapes.stat_fails fs projectPath folders = false ->
  DependencyAnalyzer.checkFolders fs projectPath folders r
  = Return
      (Findings.mk (Findings.analyzer r)
         (Findings.passed r
            ++ map Shapes.folder_absent (List.filter absent folders))
         (Findings.failed r
            ++ map Shapes.folder_committed
                 (List.filter (Shapes.is_committed fs projectPath) folders))
         (Findings.warnings r)).
Proof.
  revert r. induction folders as [| folder folders IH]; intros r Hstat.
  - cbn. rewrite !app_nil_r. now destruct r.
  - cbn [Shapes.stat_fails existsb] in Hstat.
    apply orb_false_iff in Hstat as [Hhere Hrest].
    cbn [DependencyAnalyzer.checkFolders List.filter].
    unfold Shapes.is_committed at 1.
    destruct (existsSync fs (path_join projectPath folder)); cbn [negb andb].
    + cbn [andb] in Hhere.
      destruct (isDirectory fs (path_join projectPath folder)) as [[|] | e];
        [| | discriminate]; cbn [Js.bind].
      * rewrite IH by exact Hrest.
        unfold Findings.push_failed.
        cbn [Findings.analyzer Findings.passed Findings.failed
             Findings.warnings map].
        rewrite <- app_assoc. reflexivity.
      * rewrite IH by exact Hrest. reflexivity.
    + rewrite IH by exact Hrest.
      unfold Findings.push_passed.
      cbn [Findings.analyzer Findings.passed Findings.failed
           Findings.warnings map].
      rewrite <- app_assoc. reflexivity.
Qed.

Lemma checkFolders_throws (folders : list string) (r : Findings.t) :
  Shapes.stat_fails fs projectPath folders = true ->
  exists folder e,
    In folder folders
    /\ existsSync fs (path_join projectPath folder) = true
    /\ isDirectory fs (path_join projectPath folder) = Throw e
    /\ DependencyAnalyzer.checkFolders fs projectPath folders r = Throw e.
Proof.
  revert r. induction folders as [| folder folders IH]; intros r Hstat.
  - discriminate.
  - cbn [Shapes.stat_fails existsb] in Hstat.
    cbn [DependencyAnalyzer.checkFolders].
    destruct (existsSync fs (path_join projectPath folder)) eqn:Hex.
    + destruct (isDirectory fs (path_join projectPath folder))
        as [d | e] eqn:Hdir; cbn [Js.bind].
      * cbn [andb orb] in Hstat.
        destruct d;
          (edestruct IH as (f & e & Hin & Hex' & Hdir' & Hthrow);
           [exact Hstat |]);
          exists f, e; rewrite Hthrow; repeat split; auto; now right.
      * exists folder, e. repeat split; auto. now left.
    + cbn [andb orb] in Hstat.
      edestruct IH as (f & e & Hin & Hex' & Hdir' & Hthrow); [exact Hstat |].
      exists f, e. rewrite Hthrow. repeat split; auto. now right.
Qed.

Lemma checkPackageManagerFiles_findings (r : Findings.t) :
  let pkg := existsSync fs (path_join projectPath "package.json") in
  let lock := existsSync fs (path_join projectPath "package-lock.json") in
  let yarn := existsSync fs (path_join projectPath "yarn.lock") in
  let r' := DependencyAnalyzer.checkPackageManagerFiles fs projectPath r in
  Findings.analyzer r' = Findings.analyzer r
  /\ Findings.failed r' = Findings.failed r
  /\ Findings.warnings r'
     = Findings.warnings r
       ++ (if pkg && negb lock && negb yarn
           then [Shapes.lockfile_recommended] else []).
Proof.
  cbv zeta. unfold DependencyAnalyzer.checkPackageManagerFiles.
  destruct (existsSync fs (path_join projectPath "package.json"));
    destruct (existsSync fs (path_join projectPath "node_modules"));
    destruct (existsSync fs (path_join projectPath "package-lock.json"));
    destruct (existsSync fs (path_join projectPath "yarn.lock"));
    destruct (existsSync fs (path_join projectPath "requirements.txt"));
    destruct (existsSync fs (path_join projectPath ".venv"));
    destruct (existsSync fs (path_join projectPath "venv"));
    cbn; rewrite ?app_nil_r; auto.
Qed.

End DependencyFindings.

(** X8 ([DependencyAnalyzer.analyze]).  When [statSync] answers for every
    prohibited folder that is there, the failed findings of the
    dependency analyzer are the prohibited folders that exist and are
    directories, one finding each, in the order of the list; an entry of
    that name that is a plain file is not reported. *)
Theorem dependency_failures_are_committed_directories (fs : FileSystem)
    (projectPath : string) (rules : RuleSet) :
  Shapes.stat_fails fs projectPath (Shapes.prohibited_folders rules) = false ->
  exists r,
    DependencyAnalyzer.analyze fs projectPath rules = Return r
    /\ Findings.analyzer r = DependencyAnalyzer.name
    /\ Findings.failed r
       = map Shapes.folder_committed
           (List.filter (Shapes.is_committed fs projectPath)
              (Shapes.prohibited_folders rules)).
Proof.
  intros Hstat. unfold DependencyAnalyzer.analyze. cbv zeta.
  fold (Shapes.prohibited_folders rules).
  rewrite checkFolders_findings by exact Hstat. cbn [Js.bind].
  eexists. split; [reflexivity |].
  destruct (checkPackageManagerFiles_findings fs projectPath
              (Findings.mk (Findings.analyzer (Findings.new DependencyAnalyzer.name))
                 (Findings.passed (Findings.new DependencyAnalyzer.name)
                    ++ map Shapes.folder_absent
                         (List.filter
                            (fun folder =>
                               negb (existsSync fs (path_join projectPath folder)))
                            (Shapes.prohibited_folders rules)))
                 (Findings.failed (Findings.new DependencyAnalyzer.name)
                    ++ map Shapes.folder_committed
                         (List.filter (Shapes.is_committed fs projectPath)
                            (Shapes.prohibited_folders rules)))
                 (Findings.warnings (Findings.new DependencyAnalyzer.name))))
    as (Ha & Hf & _).
  rewrite Ha, Hf. split; reflexivity.
Qed.

Lemma dependency_failures_are_committed_directories_witness :
  exists r,
    DependencyAnalyzer.analyze Cases.fs_deps "/project" ∅ = Return r
    /\ Findings.analyzer r = DependencyAnalyzer.name
    /\ Findings.failed r = [Shapes.folder_committed "node_modules"].
Proof.
  destruct (dependency_failures_are_committed_directories Cases.fs_deps
              "/project" ∅) as (r & Hr & Hname & Hfailed); [reflexivity |].
  exists r. split; [exact Hr |]. split; [exact Hname |].
  rewrite Hfailed. vm_compute. reflexivity.
Defined.

(** X9 ([DependencyAnalyzer.analyze]).  The dependency analyzer has no
    [try]: it throws exactly when [statSync] throws on a prohibited
    folder that is there, and the error thrown is that of [statSync]. *)
Theorem dependency_analyzer_throws_stat_error (fs : FileSystem)
    (projectPath : string) (rules : RuleSet) :
  ((exists e, DependencyAnalyzer.analyze fs projectPath rules = Throw e)
   <-> Shapes.stat_fails fs projectPath (Shapes.prohibited_folders rules) = true)
  /\ forall e,
       DependencyAnalyzer.analyze fs projectPath rules = Throw e ->
       exists folder,
         In folder (Shapes.prohibited_folders rules)
         /\ existsSync fs (path_join projectPath folder) = true
         /\ isDirectory fs (path_join projectPath folder) = Throw e.
Proof.
  unfold DependencyAnalyzer.analyze. cbv zeta.
  fold (Shapes.prohibited_folders rules).
  destruct (Shapes.stat_fails fs projectPath (Shapes.prohibited_folders rules))
    eqn:Hstat.
  - destruct (checkFolders_throws fs projectPath _
                (Findings.new DependencyAnalyzer.name) Hstat)
      as (folder & e & Hin & Hex & Hdir & Hthrow).
    rewrite Hthrow. cbn [Js.bind]. split.
    + split; [reflexivity | intros _; now exists e].
    + intros e' He'. injection He' as <-. now exists folder.
  - rewrite checkFolders_findings by exact Hstat. cbn [Js.bind]. split.
    + split; [intros [e He]; discriminate | discriminate].
    + intros e He. discriminate.
Qed.

(** X10 ([DependencyAnalyzer.checkPackageManagerFiles]).  The only warning
    the dependency analyzer gives is the lockfile one, and it gives it
    exactly when the project has a [package.json] and neither
    [package-lock.json] nor [yarn.lock]. *)
Theorem dependency_lockfile_warning (fs : FileSystem) (projectPath : string)
    (rules : RuleSet) (r : Findings.t) :
  DependencyAnalyzer.analyze fs projectPath rules = Return r ->
  Findings.warnings r
  = if existsSync fs (path_join projectPath "package.json")
       && negb (existsSync fs (path_join projectPath "package-lock.json"))
       && negb (existsSync fs (path_join projectPath "yarn.lock"))
    then [Shapes.lockfile_recommended]
    else [].
Proof.
  unfold DependencyAnalyzer.analyze. cbv zeta.
  destruct (DependencyAnalyzer.checkFolders fs projectPath
              (default ["node_modules"; ".venv"; "__pycache__"; "venv"; "env"]
                       (rules !! "general" ≫= prohibitedFolders))
              (Findings.new DependencyAnalyzer.name)) as [r0 | e] eqn:Hfolders;
    cbn [Js.bind]; [| discriminate].
  intros Hr. injection Hr as <-.
  destruct (checkPackageManagerFiles_findings fs projectPath r0) as (_ & _ & Hw).
  rewrite Hw.
  assert (Hr0 : Findings.warnings r0 = []).
  { destruct (Shapes.stat_fails fs projectPath
                (default ["node_modules"; ".venv"; "__pycache__"; "venv"; "env"]
                         (rules !! "general" ≫= prohibitedFolders))) eqn:Hstat.
    - destruct (checkFolders_throws fs projectPath _
                  (Findings.new DependencyAnalyzer.name) Hstat)
        as (folder & e & _ & _ & _ & Hthrow).
      rewrite Hthrow in Hfolders. discriminate.
    - rewrite checkFolders_findings in Hfolders by exact Hstat.
      injection Hfolders as <-. reflexivity. }
  rewrite Hr0. reflexivity.
Qed.

Lemma dependency_lockfile_warning_witness :
  exists r,
    DependencyAnalyzer.analyze Cases.fs_deps "/project" ∅ = Return r
    /\ Findings.warnings r = [Shapes.lockfile_recommended].
Proof.
  eexists. split; [reflexivity |].
  apply (dependency_lockfile_warning Cases.fs_deps "/project" ∅).
  reflexivity.
Defined.

(** ** [analyzeProject] with the registered analyzers *)

Section Project.

Variable JSON_parse : string -> js RuleSet.
Variable rulesDir : string.
Variable fs : FileSystem.
Variable projectPath : string.

Lemma analyzeProject_report (this : CodeReviewer.t) (now : string)
    (projectType : option string) :
  existsSync fs projectPath = true ->
  exists t,
    (if truthy_opt projectType then Return (default "" projectType)
     else CodeReviewer.detectProjectType fs projectPath) = Return t
    /\ CodeReviewer.analyzeProject JSON_parse rulesDir this fs now projectPath
         projectType
       = Return
           (let rules := CodeReviewer.loadRules JSON_parse rulesDir fs t in
            Report.mk projectPath t now
              (Summary.mk (length (CodeReviewer.analyzers this))
                 (Spec.count_of fs projectPath rules Result.passed
                    (CodeReviewer.analyzers this))
                 (Spec.count_of fs projectPath rules Result.failed
                    (CodeReviewer.analyzers this))
                 (Spec.count_of fs projectPath rules Result.warnings
                    (CodeReviewer.analyzers this)))
              (map (Spec.entry_of fs projectPath rules)
                   (CodeReviewer.analyzers this))).
Proof.
  intros Hex. unfold CodeReviewer.analyzeProject. rewrite Hex. cbn [negb].
  assert (Htype : exists t,
    (if truthy_opt projectType then Return (default "" projectType)
     else CodeReviewer.detectProjectType fs projectPath) = Return t).
  { destruct (truthy_opt projectType); [eauto |].
    apply detectProjectType_returns. }
  destruct Htype as (t & Ht). exists t. split; [exact Ht |].
  rewrite Ht. cbn [Js.bind]. rewrite run_analyzers. reflexivity.
Qed.

Lemma gitignore_analyze_returns (rules : RuleSet) :
  exists r,
    GitignoreAnalyzer.analyze fs projectPath rules = Return r
    /\ Findings.analyzer r = GitignoreAnalyzer.name.
Proof.
  unfold GitignoreAnalyzer.analyze. cbv zeta.
  destruct (existsSync fs (path_join projectPath ".gitignore")); cbn [negb];
    [| eexists; split; reflexivity].
  destruct (readFileSync fs (path_join projectPath ".gitignore"))
    as [content | e]; [| eexists; split; reflexivity].
  destruct (rules !! "nodejs" ≫= gitignoreRules) as [req |].
  - eexists. split; [reflexivity |].
    rewrite checkRequiredRules_findings. reflexivity.
  - destruct (rules !! "general") as [general |];
      [| eexists; split; reflexivity].
    eexists. split; [reflexivity |].
    destruct (prohibitedFolders general) as [folders |] eqn:Hf.
    + rewrite (checkGeneralRules_findings _ folders) by exact Hf. reflexivity.
    + unfold GitignoreAnalyzer.checkGeneralRules. rewrite Hf. reflexivity.
Qed.

Lemma gitignore_entry (rules : RuleSet) :
  Result.analyzer (Spec.entry_of fs projectPath rules GitignoreAnalyzer.it)
  = GitignoreAnalyzer.name
  /\ Result.error (Spec.entry_of fs projectPath rules GitignoreAnalyzer.it)
     = None.
Proof.
  unfold Spec.entry_of. cbn [analyze GitignoreAnalyzer.it].
  destruct (gitignore_analyze_returns rules) as (r & -> & Hname).
  cbn. auto.
Qed.

Lemma env_entry (rules : RuleSet) :
  Result.analyzer (Spec.entry_of fs projectPath rules EnvAnalyzer.it)
  = EnvAnalyzer.name
  /\ Result.error (Spec.entry_of fs projectPath rules EnvAnalyzer.it) = None.
Proof.
  unfold Spec.entry_of. cbn [analyze EnvAnalyzer.it].
  destruct (env_analyze_failed fs projectPath rules) as (r & -> & Hname & _).
  cbn. auto.
Qed.

Lemma dependency_entry (rules : RuleSet) :
  Result.analyzer (Spec.entry_of fs projectPath rules DependencyAnalyzer.it)
  = DependencyAnalyzer.name
  /\ (Result.error (Spec.entry_of fs projectPath rules DependencyAnalyzer.it)
      <> None
      <-> Shapes.stat_fails fs projectPath (Shapes.prohibited_folders rules)
          = true).
Proof.
  unfold Spec.entry_of. cbn [analyze DependencyAnalyzer.it name].
  unfold DependencyAnalyzer.analyze. cbv zeta.
  fold (Shapes.prohibited_folders rules).
  destruct (Shapes.stat_fails fs projectPath (Shapes.prohibited_folders rules))
    eqn:Hstat.
  - destruct (checkFolders_throws fs projectPath _
                (Findings.new DependencyAnalyzer.name) Hstat)
      as (folder & e & _ & _ & _ & ->).
    cbn. split; [reflexivity |]. split; [reflexivity | discriminate].
  - rewrite checkFolders_findings by exact Hstat. cbn [Js.bind].
    destruct (checkPackageManagerFiles_findings fs projectPath
                (Findings.mk (Findings.analyzer (Findings.new DependencyAnalyzer.name))
                   (Findings.passed (Findings.new DependencyAnalyzer.name)
                      ++ map Shapes.folder_absent
                           (List.filter
                              (fun folder =>
                                 negb (existsSync fs (path_join projectPath folder)))
                              (Shapes.prohibited_folders rules)))
                   (Findings.failed (Findings.new DependencyAnalyzer.name)
                      ++ map Shapes.folder_committed
                           (List.filter (Shapes.is_committed fs projectPath)
                              (Shapes.prohibited_folders rules)))
                   (Findings.warnings (Findings.new DependencyAnalyzer.name))))
      as (Ha & _).
    cbn [Result.of_findings Result.analyzer Result.error]. rewrite Ha.
    split; [reflexivity |]. split; [congruence | discriminate].
Qed.

End Project.

(** An error thrown by one of the registered analyzers is an error of
    [statSync]: the Gitignore and the Environment Files analyzer catch
    what the file system throws, the Dependency Folders analyzer lets the
    error of [statSync] through. *)
Lemma registered_analyzer_error (fs : FileSystem) (projectPath : string)
    (rules : RuleSet) (a : Analyzer) (e : Error) :
  In a (CodeReviewer.analyzers CodeReviewer.new) ->
  analyze a fs projectPath rules = Throw e ->
  exists folder,
    existsSync fs (path_join projectPath folder) = true
    /\ isDirectory fs (path_join projectPath folder) = Throw e.
Proof.
  intros [<- | [<- | [<- | []]]] Hthrow; cbn [analyze] in Hthrow.
  - destruct (gitignore_analyze_returns fs projectPath rules) as (r & Hr & _).
    cbn [GitignoreAnalyzer.it analyze] in Hthrow. congruence.
  - destruct (env_analyze_failed fs projectPath rules) as (r & Hr & _).
    cbn [EnvAnalyzer.it analyze] in Hthrow. congruence.
  - cbn [DependencyAnalyzer.it analyze] in Hthrow.
    unfold DependencyAnalyzer.analyze in Hthrow. cbv zeta in Hthrow.
    fold (Shapes.prohibited_folders rules) in Hthrow.
    destruct (Shapes.stat_fails fs projectPath (Shapes.prohibited_folders rules))
      eqn:Hstat.
    + destruct (checkFolders_throws fs projectPath _
                  (Findings.new DependencyAnalyzer.name) Hstat)
        as (folder & e' & _ & Hex & Hdir & Hfolders).
      rewrite Hfolders in Hthrow. cbn [Js.bind] in Hthrow.
      injection Hthrow as <-. eauto.
    + rewrite checkFolders_findings in Hthrow by exact Hstat.
      cbn [Js.bind] in Hthrow. discriminate.
Qed.

(** C3. [analyzeProject] on an existing directory returns a report with one
    entry per registered analyzer, in order.  If analyzer [i] throws, entry
    [i] carries the thrown message as [error] and three empty lists; the
    analyzers after it still run, and the entry of an analyzer that returns
    is what it returned.  The three summary counts are the sums of the
    lengths of the respective lists over the entries without error.  For a
    [CodeReviewer] whose analyzers are the registered ones, as the constructor
    leaves them, the error of a throwing analyzer is never empty: what it
    throws is an error of [statSync], and the errors of the file system
    carry a message. *)
Theorem analyzeProject_isolates_failures
    (JSON_parse : string -> js RuleSet) (rulesDir : string)
    (this : CodeReviewer.t) (fs : FileSystem) (now projectPath : string)
    (projectType : option string) :
  existsSync fs projectPath = true ->
  exists report,
    CodeReviewer.analyzeProject JSON_parse rulesDir this fs now projectPath
      projectType = Return report
    /\ let rules :=
         CodeReviewer.loadRules JSON_parse rulesDir fs
           (Report.projectType report) in
       length (Report.analyzers report) = length (CodeReviewer.analyzers this)
       /\ (forall i a e,
             CodeReviewer.analyzers this !! i = Some a ->
             analyze a fs projectPath rules = Throw e ->
             exists entry,
               Report.analyzers report !! i = Some entry
               /\ Result.error entry = Some (Js.message e)
               /\ (Js.message e <> "" -> Result.has_error entry = true)
               /\ Result.passed entry = []
               /\ Result.failed entry = []
               /\ Result.warnings entry = [])
       /\ (forall i a r,
             CodeReviewer.analyzers this !! i = Some a ->
             analyze a fs projectPath rules = Return r ->
             Report.analyzers report !! i = Some (Result.of_findings r))
       /\ Summary.passed (Report.summary report)
          = Spec.total Result.passed (Report.analyzers report)
       /\ Summary.failed (Report.summary report)
          = Spec.total Result.failed (Report.analyzers report)
       /\ Summary.warnings (Report.summary report)
          = Spec.total Result.warnings (Report.analyzers report)
       /\ ((forall a, In a (CodeReviewer.analyzers this) ->
                      In a (CodeReviewer.analyzers CodeReviewer.new)) ->
           (forall p e, isDirectory fs p = Throw e -> Js.message e <> "") ->
           forall i a e,
             CodeReviewer.analyzers this !! i = Some a ->
             analyze a fs projectPath rules = Throw e ->
             exists entry,
               Report.analyzers report !! i = Some entry
               /\ Result.error entry = Some (Js.message e)
               /\ Js.message e <> ""
               /\ Result.has_error entry = true).
Proof.
  intros E. unfold CodeReviewer.analyzeProject. rewrite E. cbn [negb].
  assert (Htype : exists t,
    (if truthy_opt projectType then Return (default "" projectType)
     else CodeReviewer.detectProjectType fs projectPath) = Return t).
  { destruct (truthy_opt projectType); [eauto|].
    apply detectProjectType_returns. }
  destruct Htype as (t & ->). cbn [Js.bind].
  rewrite run_analyzers. cbn [Report.summary Report.analyzers Report.projectType
    Summary.passed Summary.failed Summary.warnings app Nat.add].
  eexists. split; [reflexivity|].
  cbn [Report.summary Report.analyzers Report.projectType
    Summary.passed Summary.failed Summary.warnings].
  set (rules := CodeReviewer.loadRules JSON_parse rulesDir fs t).
  assert (Hentry : forall i a e,
    CodeReviewer.analyzers this !! i = Some a ->
    analyze a fs projectPath rules = Throw e ->
    map (Spec.entry_of fs projectPath rules) (CodeReviewer.analyzers this) !! i
    = Some (Result.mk (name a) (Some (Js.message e)) [] [] [])).
  { intros i a e Hi Ha. rewrite list_lookup_fmap, Hi. cbn.
    unfold Spec.entry_of. now rewrite Ha. }
  split; [now rewrite length_map |].
  split.
  { intros i a e Hi Ha. eexists. split; [exact (Hentry i a e Hi Ha) |].
    split; [reflexivity |]. split; [| repeat split].
    cbn. now destruct (Js.message e). }
  split.
  { intros i a r Hi Ha. rewrite list_lookup_fmap, Hi. cbn.
    unfold Spec.entry_of. now rewrite Ha. }
  split; [apply count_of_total; auto |].
  split; [apply count_of_total; auto |].
  split; [apply count_of_total; auto |].
  intros Hregistered Hmessage i a e Hi Ha.
  assert (Hne : Js.message e <> "").
  { assert (Hin : In a (CodeReviewer.analyzers this)).
    { apply list_elem_of_In. eapply list_elem_of_lookup_2. exact Hi. }
    destruct (registered_analyzer_error fs projectPath rules a e
                (Hregistered a Hin) Ha) as (folder & _ & Hdir).
    exact (Hmessage _ _ Hdir). }
  eexists. split; [exact (Hentry i a e Hi Ha) |].
  split; [reflexivity |]. split; [exact Hne |].
  cbn. destruct (Js.message e); [contradiction | reflexivity].
Qed.

Lemma analyzeProject_isolates_failures_witness :
  existsSync Demo.fs_denied "/project" = true
  /\ (forall p e, isDirectory Demo.fs_denied p = Throw e -> Js.message e <> "")
  /\ exists report,
       CodeReviewer.analyzeProject Demo.parse_rules "/app/rules"
         CodeReviewer.new Demo.fs_denied "2024-01-01T00:00:00.000Z"
         "/project" None = Return report
       /\ (exists entry,
             Report.analyzers report !! 2%nat = Some entry
             /\ Result.error entry
                = Some "EACCES: permission denied, stat '/project/node_modules'"
             /\ Result.has_error entry = true
             /\ Result.passed entry = []
             /\ Result.failed entry = []
             /\ Result.warnings entry = [])
       /\ Summary.failed (Report.summary report)
          = Spec.total Result.failed (Report.analyzers report).
Proof.
  assert (Hmessage : forall p e,
            isDirectory Demo.fs_denied p = Throw e -> Js.message e <> "").
  { intros p e H. cbn in H. injection H as <-. cbn [Js.message].
    intros Heq. apply (f_equal String.length) in Heq.
    rewrite length_append in Heq. cbn in Heq. discriminate. }
  split; [reflexivity |]. split; [exact Hmessage |].
  destruct (analyzeProject_isolates_failures Demo.parse_rules "/app/rules"
              CodeReviewer.new Demo.fs_denied "2024-01-01T00:00:00.000Z"
              "/project" None eq_refl)
    as (report & Hr & Hlen & Hthrow & Hret & Hp & Hf & Hw & Hnonempty).
  exists report. split; [exact Hr|]. split; [|exact Hf].
  assert (Htype : Report.projectType report = "general").
  { vm_compute in Hr. now injection Hr as <-. }
  rewrite Htype in Hthrow, Hnonempty.
  destruct (Hthrow 2%nat DependencyAnalyzer.it
              (mkError "EACCES: permission denied, stat '/project/node_modules'")
              eq_refl eq_refl)
    as (entry & He & Herr & _ & Hpassed & Hfailed & Hwarnings).
  destruct (Hnonempty (fun a Hin => Hin) Hmessage 2%nat DependencyAnalyzer.it
              (mkError "EACCES: permission denied, stat '/project/node_modules'")
              eq_refl eq_refl)
    as (entry' & He' & _ & _ & Herror).
  rewrite He in He'. injection He' as <-.
  exists entry. repeat split; assumption.
Defined.

(** X11 ([CodeReviewer.analyzeProject]).  The only error [analyzeProject]
    throws is the one for a project directory that does not exist, with
    the path in its message; a directory that cannot be listed, rule
    files that cannot be used and analyzers that throw do not make it
    throw. *)
Theorem analyzeProject_throws_only_for_missing_directory
    (JSON_parse : string -> js RuleSet) (rulesDir : string)
    (this : CodeReviewer.t) (fs : FileSystem) (now projectPath : string)
    (projectType : option string) :
  ((exists e,
      CodeReviewer.analyzeProject JSON_parse rulesDir this fs now projectPath
        projectType = Throw e)
   <-> existsSync fs projectPath = false)
  /\ forall e,
       CodeReviewer.analyzeProject JSON_parse rulesDir this fs now projectPath
         projectType = Throw e ->
       e = mkError ("Project directory does not exist: " +:+ projectPath).
Proof.
  destruct (existsSync fs projectPath) eqn:Hex.
  - destruct (analyzeProject_report JSON_parse rulesDir fs projectPath this
                now projectType Hex) as (t & _ & Hreport).
    rewrite Hreport. split.
    + split; [intros [e He]; discriminate | discriminate].
    + intros e He. discriminate.
  - unfold CodeReviewer.analyzeProject. rewrite Hex. cbn [negb]. split.
    + split; [reflexivity | intros _; eauto].
    + intros e He. now injection He as <-.
Qed.

(** X12 ([CodeReviewer.constructor], [CodeReviewer.analyzeProject]).  The
    report of the reviewer as constructed has three entries, named after
    the Gitignore, the Environment Files and the Dependency Folders
    analyzer in this order, whatever the project holds.  The first two
    never carry an error; the third carries one exactly when [statSync]
    throws on a prohibited folder that is there. *)
Theorem analyzeProject_three_entries
    (JSON_parse : string -> js RuleSet) (rulesDir : string)
    (fs : FileSystem) (now projectPath : string)
    (projectType : option string) :
  existsSync fs projectPath = true ->
  exists report gitignore env dependency,
    CodeReviewer.analyzeProject JSON_parse rulesDir CodeReviewer.new fs now
      projectPath projectType = Return report
    /\ Report.analyzers report = [gitignore; env; dependency]
    /\ Summary.totalAnalyzers (Report.summary report) = 3%nat
    /\ Result.analyzer gitignore = "Gitignore Analyzer"
    /\ Result.analyzer env = "Environment Files Analyzer"
    /\ Result.analyzer dependency = "Dependency Folders Analyzer"
    /\ Result.error gitignore = None
    /\ Result.error env = None
    /\ (Result.error dependency <> None
        <-> Shapes.stat_fails fs projectPath
              (Shapes.prohibited_folders
                 (CodeReviewer.loadRules JSON_parse rulesDir fs
                    (Report.projectType report))) = true).
Proof.
  intros Hex.
  destruct (analyzeProject_report JSON_parse rulesDir fs projectPath
              CodeReviewer.new now projectType Hex) as (t & _ & Hreport).
  rewrite Hreport. cbv zeta.
  set (rules := CodeReviewer.loadRules JSON_parse rulesDir fs t).
  destruct (gitignore_entry fs projectPath rules) as [Hg1 Hg2].
  destruct (env_entry fs projectPath rules) as [He1 He2].
  destruct (dependency_entry fs projectPath rules) as [Hd1 Hd2].
  do 4 eexists. split; [reflexivity |].
  cbn [Report.analyzers Report.summary Report.projectType
       Summary.totalAnalyzers CodeReviewer.analyzers CodeReviewer.new
       map length].
  split; [reflexivity |]. split; [reflexivity |].
  fold rules. auto 10.
Qed.

Lemma analyzeProject_three_entries_witness :
  exists report gitignore env dependency,
    CodeReviewer.analyzeProject Demo.parse_rules "/app/rules" CodeReviewer.new
      Demo.fs_denied "2024-01-01T00:00:00.000Z" "/project" None = Return report
    /\ Report.analyzers report = [gitignore; env; dependency]
    /\ Result.error gitignore = None
    /\ Result.error env = None
    /\ Result.error dependency <> None.
Proof.
  destruct (analyzeProject_three_entries Demo.parse_rules "/app/rules"
              Demo.fs_denied "2024-01-01T00:00:00.000Z" "/project" None)
    as (report & g & e & d & Hr & Hl & _ & _ & _ & _ & Hg & He & Hd);
    [reflexivity |].
  exists report, g, e, d.
  split; [exact Hr |]. split; [exact Hl |]. split; [exact Hg |].
  split; [exact He |].
  apply Hd. injection Hr as <-. vm_compute. reflexivity.
Defined.

(** X13 ([CodeReviewer.analyzeProject], [CodeReviewer.generateReport],
    [GitignoreAnalyzer.analyze]).  A project without a [.gitignore] never
    gets a clean report: the summary counts at least one failure, and
    the rendered report ends with the recommendations section. *)
Theorem missing_gitignore_is_reported
    (JSON_parse : string -> js RuleSet) (rulesDir : string)
    (fs : FileSystem) (now projectPath : string)
    (projectType : option string) :
  existsSync fs projectPath = true ->
  existsSync fs (path_join projectPath ".gitignore") = false ->
  exists report,
    CodeReviewer.analyzeProject JSON_parse rulesDir CodeReviewer.new fs now
      projectPath projectType = Return report
    /\ (1 <= Summary.failed (Report.summary report))%nat
    /\ Spec.has_recommendations (CodeReviewer.generateReport report).
Proof.
  intros Hex Hmissing.
  destruct (analyzeProject_report JSON_parse rulesDir fs projectPath
              CodeReviewer.new now projectType Hex) as (t & _ & Hreport).
  rewrite Hreport. cbv zeta.
  set (rules := CodeReviewer.loadRules JSON_parse rulesDir fs t).
  assert (Hentry : Result.failed
                     (Spec.entry_of fs projectPath rules GitignoreAnalyzer.it)
                   = [mkFinding "gitignore-exists" "❌ Missing .gitignore file"
                        (Some "Create a .gitignore file to exclude unnecessary files from version control")]
                   /\ Spec.troubled
                        (Spec.entry_of fs projectPath rules GitignoreAnalyzer.it)
                      = true).
  { unfold Spec.entry_of. cbn [analyze GitignoreAnalyzer.it].
    unfold GitignoreAnalyzer.analyze. cbv zeta. rewrite Hmissing.
    split; reflexivity. }
  destruct Hentry as [Hfailed Htroubled].
  eexists. split; [reflexivity |]. split.
  - cbn [Report.summary Summary.failed CodeReviewer.analyzers CodeReviewer.new].
    rewrite count_of_cons, Hfailed. cbn [length]. lia.
  - apply troubled_report_ends.
    cbn [Report.analyzers CodeReviewer.analyzers CodeReviewer.new map existsb].
    rewrite Htroubled. reflexivity.
Qed.

Lemma missing_gitignore_is_reported_witness :
  exists report,
    CodeReviewer.analyzeProject Demo.parse_rules "/app/rules" CodeReviewer.new
      Demo.fs_env "2024-01-01T00:00:00.000Z" "/project" None = Return report
    /\ (1 <= Summary.failed (Report.summary report))%nat
    /\ Spec.has_recommendations (CodeReviewer.generateReport report).
Proof.
  apply (missing_gitignore_is_reported Demo.parse_rules "/app/rules"
           Demo.fs_env "2024-01-01T00:00:00.000Z" "/project" None);
    reflexivity.
Defined.

(** ** The webhook handler: signatures, events and failures *)

Section Pipeline.

Import GitHubWebhookHandler.

Variable JSON_parse : bytes -> js Payload.

Lemma timingSafeEqual_true (a b : bytes) :
  timingSafeEqual a b = Return true -> a = b.
Proof.
  unfold timingSafeEqual, bytes_eqb.
  destruct (length a =? length b)%nat; [| discriminate].
  intros H. injection H as H. now apply bool_decide_eq_true in H.
Qed.

Lemma process_parse_error (req : Request) (w : World) (e : Error) :
  JSON_parse (raw_body req) = Throw e ->
  process JSON_parse req w = (Throw e, w).
Proof.
  intros H. unfold process, GitHub.bind, lift. now rewrite H.
Qed.

Lemma process_pull_request (req : Request) (w : World) (payload : Payload) :
  JSON_parse (raw_body req) = Return payload ->
  x_github_event req = Some "pull_request" ->
  process JSON_parse req w
  = match handlePullRequestEvent payload w with
    | (Return _, w') =>
        (Return (mkResponse 200 (MessageJson "Webhook processed successfully")),
         w')
    | (Throw e, w') => (Throw e, w')
    end.
Proof.
  intros Hparse Hevent. unfold process, GitHub.bind, lift. rewrite Hparse.
  rewrite bool_decide_eq_true_2 by exact Hevent.
  destruct (handlePullRequestEvent payload w) as [[[] | e] w']; reflexivity.
Qed.

Variables (owner repo : string) (prNumber : nat).

Local Abbreviation k := (owner, repo, prNumber).

Lemma commentOnPR_upserted (message : string) (w : World) :
  denied w IssuesListComments = false ->
  denied w IssuesUpdateComment = false ->
  denied w IssuesCreateComment = false ->
  exists w1,
    commentOnPR owner repo prNumber message w = (Return tt, w1)
    /\ thread w1 k = Shapes.upserted w k message
    /\ denied w1 = denied w
    /\ calls w1 = calls w ++ [ListComments k; Shapes.upsert_call w k message].
Proof.
  intros HL HU HC. unfold Shapes.upserted, Shapes.upsert_call.
  destruct (List.find Spec.bot (thread w k)) as [c |] eqn:Hfind.
  - destruct (commentOnPR_found owner repo prNumber message w c HL HU Hfind)
      as (w1 & H1 & H2 & H3 & _ & H4).
    exists w1. auto.
  - destruct (commentOnPR_missing owner repo prNumber message w HL HC Hfind)
      as (w1 & H1 & H2 & H3 & _ & H4).
    exists w1. auto.
Qed.

Local Abbreviation params := (mkPullParams owner repo None (Some prNumber)).

(** A failing first read ends [analyzePR] at once. *)
Lemma analyzePR_pull_fails (w w1 : World) (e : Error) :
  pulls_get params w = (Throw e, w1) ->
  analyzePR owner repo prNumber w = (Throw e, w1).
Proof.
  intros H. unfold analyzePR. unfold GitHub.bind at 1. now rewrite H.
Qed.

Lemma pulls_get_world (w w1 : World) (r : js PullData) :
  pulls_get params w = (r, w1) -> w1 = record_call w (GetPull params).
Proof.
  unfold pulls_get, GitHub.bind, request.
  destruct (denied w PullsGet); cbn [pull_number];
    intros H; now injection H as _ <-.
Qed.

(** When the first read is answered, it is answered with the listing, and
    the second read is rejected: it names no pull request. *)
Lemma analyzePR_files_rejected (w : World) :
  denied w PullsGet = false ->
  analyzePR owner repo prNumber w
  = (Throw (mkError (if denied w PullsListFiles
                     then "Resource not accessible by integration"
                     else "Not Found")),
     record_call (record_call w (GetPull params)) (ListFiles params)).
Proof.
  intros HG. unfold analyzePR, pulls_get, pulls_listFiles.
  unfold GitHub.bind at 1 2. unfold request at 1. rewrite HG.
  cbn [pull_number].
  unfold GitHub.bind at 1 2. unfold request at 1.
  cbn [denied record_call].
  destruct (denied w PullsListFiles); reflexivity.
Qed.

(** [analyzePR] never returns, and writes nothing. *)
Lemma analyzePR_throws (w : World) :
  exists e w1,
    analyzePR owner repo prNumber w = (Throw e, w1)
    /\ comments w1 = comments w.
Proof.
  destruct (denied w PullsGet) eqn:HG.
  - destruct (pulls_get params w) as [r w1] eqn:Hpull.
    pose proof (pulls_get_world _ _ _ Hpull) as ->.
    unfold pulls_get, GitHub.bind, request in Hpull. rewrite HG in Hpull.
    injection Hpull as <-.
    eexists. eexists. split.
    + apply analyzePR_pull_fails.
      unfold pulls_get, GitHub.bind, request. rewrite HG. reflexivity.
    + reflexivity.
  - rewrite analyzePR_files_rejected by exact HG.
    eexists. eexists. split; reflexivity.
Qed.

End Pipeline.

(** X14 ([GitHubWebhookHandler.verifyWebhookSignature]).  The check
    answers [true] for one header value only: the text [sha256=]
    followed by the lower-case hexadecimal HMAC-SHA256 of the raw body
    under the secret. *)
Theorem verifyWebhookSignature_accepts_only_expected
    (this : GitHubWebhookHandler.t) (payload : bytes) (signature : string) :
  GitHubWebhookHandler.verifyWebhookSignature this payload signature
  = Return true
  <-> signature
      = "sha256=" +:+ hmac_sha256_hex (GitHubWebhookHandler.webhookSecret this)
                                      payload.
Proof.
  change ("sha256=" +:+ hmac_sha256_hex (GitHubWebhookHandler.webhookSecret this)
                                        payload)
    with (GitHubWebhookHandler.expectedSignature this payload).
  split.
  - unfold GitHubWebhookHandler.verifyWebhookSignature. intros H.
    apply timingSafeEqual_true in H. now apply Buffer_from_inj.
  - intros ->. apply verify_expected.
Qed.

(** X15 ([GitHubWebhookHandler.handleWebhook]).  A request that carries a
    non-empty signature header other than the expected one is never
    processed: the answer is 401 or 500, the body is not parsed, and no
    request is sent to GitHub. *)
Theorem forged_signature_never_processed
    (JSON_parse : bytes -> js GitHubWebhookHandler.Payload)
    (env : GitHubWebhookHandler.Env) (req : GitHubWebhookHandler.Request)
    (w : World) (signature : string) :
  GitHubWebhookHandler.x_hub_signature_256 req = Some signature ->
  signature <> "" ->
  signature
  <> GitHubWebhookHandler.expectedSignature (GitHubWebhookHandler.new env)
       (GitHubWebhookHandler.raw_body req) ->
  GitHubWebhookHandler.handleWebhook JSON_parse (GitHubWebhookHandler.new env)
    req w
  = (GitHubWebhookHandler.mkResponse 401
       (GitHubWebhookHandler.ErrorJson "Invalid signature"), w)
  \/ GitHubWebhookHandler.handleWebhook JSON_parse
       (GitHubWebhookHandler.new env) req w
     = (GitHubWebhookHandler.mkResponse 500
          (GitHubWebhookHandler.ErrorJson "Internal server error"), w).
Proof.
  intros Hsig Hne Hwrong.
  unfold GitHubWebhookHandler.handleWebhook. cbv zeta.
  rewrite new_secret_truthy, Hsig.
  assert (Ht : truthy signature = true)
    by (destruct signature; [contradiction | reflexivity]).
  cbn [truthy_opt andb default from_option Datatypes.id]. rewrite Ht.
  unfold GitHub.bind, lift.
  destruct (Nat.eq_dec
              (length (Buffer_from signature))
              (length (Buffer_from
                         (GitHubWebhookHandler.expectedSignature
                            (GitHubWebhookHandler.new env)
                            (GitHubWebhookHandler.raw_body req)))))
    as [Hlen | Hlen].
  - left. rewrite verify_mismatch by assumption. reflexivity.
  - right. rewrite verify_length by assumption. reflexivity.
Qed.

Lemma forged_signature_never_processed_witness :
  GitHubWebhookHandler.handleWebhook Demo.parse_payload Demo.handler
    (Demo.delivery (Some "sha256=forged") "opened") Demo.world
  = (GitHubWebhookHandler.mkResponse 401
       (GitHubWebhookHandler.ErrorJson "Invalid signature"), Demo.world)
  \/ GitHubWebhookHandler.handleWebhook Demo.parse_payload Demo.handler
       (Demo.delivery (Some "sha256=forged") "opened") Demo.world
     = (GitHubWebhookHandler.mkResponse 500
          (GitHubWebhookHandler.ErrorJson "Internal server error"), Demo.world).
Proof.
  apply (forged_signature_never_processed Demo.parse_payload
           (GitHubWebhookHandler.mkEnv (Some "s3cret") (Some "ghp_example"))
           (Demo.delivery (Some "sha256=forged") "opened") Demo.world
           "sha256=forged").
  - reflexivity.
  - discriminate.
  - intros H. apply (f_equal String.length) in H.
    rewrite expected_length in H. discriminate.
Defined.

(** X16 ([GitHubWebhookHandler.handleWebhook]).  A delivery that passes
    the signature check and whose body is not JSON is answered 500
    "Internal server error", whatever the event, and has no effect. *)
Theorem unparseable_body_is_server_error
    (JSON_parse : bytes -> js GitHubWebhookHandler.Payload)
    (this : GitHubWebhookHandler.t) (req : GitHubWebhookHandler.Request)
    (e : Error) (w : World) :
  Spec.accepted this req ->
  JSON_parse (GitHubWebhookHandler.raw_body req) = Throw e ->
  GitHubWebhookHandler.handleWebhook JSON_parse this req w
  = (GitHubWebhookHandler.mkResponse 500
       (GitHubWebhookHandler.ErrorJson "Internal server error"), w).
Proof.
  intros Hacc Hparse.
  rewrite accepted_processed by exact Hacc.
  rewrite (process_parse_error JSON_parse req w e) by assumption.
  reflexivity.
Qed.

Lemma unparseable_body_is_server_error_witness :
  GitHubWebhookHandler.handleWebhook Demo.parse_payload Demo.handler
    Cases.garbled Demo.world
  = (GitHubWebhookHandler.mkResponse 500
       (GitHubWebhookHandler.ErrorJson "Internal server error"), Demo.world).
Proof.
  apply (unparseable_body_is_server_error Demo.parse_payload Demo.handler
           Cases.garbled
           (mkError "Unexpected token in JSON at position 0") Demo.world).
  - left. reflexivity.
  - vm_compute. reflexivity.
Defined.

(** X17 ([GitHubWebhookHandler.handlePullRequestEvent], [analyzePR],
    [commentOnPR]).  No review reaches the pull request.  [analyzePR]
    passes the number as [pull_request_number], which the client does not
    read, so the list of files is asked of no pull request and is
    refused with "Not Found".  On a repository where nothing is refused,
    a relevant delivery is answered 200 after four requests (the
    listing in the place of the pull request, the files, the comments,
    one write), and what it leaves as the bot's comment is the failure
    notice, whether or not the pull request and its files are there. *)
Theorem relevant_delivery_posts_failure_notice
    (JSON_parse : bytes -> js GitHubWebhookHandler.Payload)
    (this : GitHubWebhookHandler.t) (req : GitHubWebhookHandler.Request)
    (payload : GitHubWebhookHandler.Payload)
    (pull_request : GitHubWebhookHandler.PullRequestPayload)
    (repository : GitHubWebhookHandler.RepositoryPayload) (w : World) :
  let owner := GitHubWebhookHandler.owner_login repository in
  let repo := GitHubWebhookHandler.repo_name repository in
  let prNumber := GitHubWebhookHandler.number pull_request in
  let k : PRKey := (owner, repo, prNumber) in
  let params := mkPullParams owner repo None (Some prNumber) in
  let notice := GitHubWebhookHandler.failure_report "Not Found" in
  Spec.accepted this req ->
  GitHubWebhookHandler.x_github_event req = Some "pull_request" ->
  JSON_parse (GitHubWebhookHandler.raw_body req) = Return payload ->
  GitHubWebhookHandler.relevant (GitHubWebhookHandler.action payload) = true ->
  GitHubWebhookHandler.pull_request payload = Some pull_request ->
  GitHubWebhookHandler.repository payload = Some repository ->
  Shapes.allowed w ->
  exists w',
    GitHubWebhookHandler.handleWebhook JSON_parse this req w
    = (GitHubWebhookHandler.mkResponse 200
         (GitHubWebhookHandler.MessageJson "Webhook processed successfully"),
       w')
    /\ thread w' k = Shapes.upserted w k notice
    /\ calls w'
       = calls w ++ [GetPull params; ListFiles params; ListComments k;
                     Shapes.upsert_call w k notice].
Proof.
  intros owner repo prNumber k params notice Hacc Hevent Hparse Hrel Hpr Hrepo
         Hallowed.
  subst k params.
  rewrite accepted_processed by exact Hacc.
  rewrite (process_pull_request JSON_parse req w payload) by assumption.
  unfold GitHubWebhookHandler.handlePullRequestEvent.
  rewrite Hrel, Hpr, Hrepo. cbn [negb].
  unfold GitHub.try_catch. unfold GitHub.bind at 1.
  fold owner repo prNumber.
  rewrite (analyzePR_files_rejected owner repo prNumber w) by apply Hallowed.
  rewrite (Hallowed PullsListFiles). cbn [Js.message]. fold notice.
  destruct (commentOnPR_upserted owner repo prNumber notice
              (record_call
                 (record_call w
                    (GetPull (mkPullParams owner repo None (Some prNumber))))
                 (ListFiles (mkPullParams owner repo None (Some prNumber)))))
    as (w3 & Hcomment & Hthread & _ & Hcalls); try apply Hallowed.
  rewrite Hcomment. cbn [GitHubWebhookHandler.respond].
  exists w3. split; [reflexivity |]. split.
  - exact Hthread.
  - rewrite Hcalls. cbn [calls record_call].
    rewrite <- !app_assoc. reflexivity.
Qed.

Lemma relevant_delivery_posts_failure_notice_witness :
  pulls Demo.world !! Demo.pr7 = Some (mkPull "Add login" "0123456789abcdef")
  /\ exists w',
       GitHubWebhookHandler.handleWebhook Demo.parse_payload Demo.handler
         (Demo.delivery None "opened") Demo.world
       = (GitHubWebhookHandler.mkResponse 200
            (GitHubWebhookHandler.MessageJson "Webhook processed successfully"),
          w')
       /\ thread w' Demo.pr7
          = [mkComment 1 (GitHubWebhookHandler.failure_report "Not Found")]
       /\ calls w'
          = [GetPull (mkPullParams "octo" "demo" None (Some 7%nat));
             ListFiles (mkPullParams "octo" "demo" None (Some 7%nat));
             ListComments Demo.pr7;
             CreateComment Demo.pr7
               (GitHubWebhookHandler.failure_report "Not Found")].
Proof.
  split; [reflexivity |].
  apply (relevant_delivery_posts_failure_notice Demo.parse_payload Demo.handler
           (Demo.delivery None "opened") (Demo.delivery_payload "opened")
           (GitHubWebhookHandler.mkPullRequestPayload 7 "Add login" None)
           (GitHubWebhookHandler.mkRepositoryPayload "demo" "octo" "octo/demo")
           Demo.world).
  - left. reflexivity.
  - reflexivity.
  - vm_compute. reflexivity.
  - reflexivity.
  - reflexivity.
  - reflexivity.
  - intros e. reflexivity.
Defined.

(** X18 ([GitHubWebhookHandler.handlePullRequestEvent], [analyzePR],
    [commentOnPR]).  When GitHub refuses to list the comments, a
    relevant delivery is answered 500 and nothing is written: the
    analysis has failed at the list of files, the listing of the
    comments is asked for once, for the failure notice, and its refusal
    reaches [handleWebhook]. *)
Theorem comments_refused_is_server_error
    (JSON_parse : bytes -> js GitHubWebhookHandler.Payload)
    (this : GitHubWebhookHandler.t) (req : GitHubWebhookHandler.Request)
    (payload : GitHubWebhookHandler.Payload)
    (pull_request : GitHubWebhookHandler.PullRequestPayload)
    (repository : GitHubWebhookHandler.RepositoryPayload) (w : World) :
  let owner := GitHubWebhookHandler.owner_login repository in
  let repo := GitHubWebhookHandler.repo_name repository in
  let prNumber := GitHubWebhookHandler.number pull_request in
  let k : PRKey := (owner, repo, prNumber) in
  let params := mkPullParams owner repo None (Some prNumber) in
  Spec.accepted this req ->
  GitHubWebhookHandler.x_github_event req = Some "pull_request" ->
  JSON_parse (GitHubWebhookHandler.raw_body req) = Return payload ->
  GitHubWebhookHandler.relevant (GitHubWebhookHandler.action payload) = true ->
  GitHubWebhookHandler.pull_request payload = Some pull_request ->
  GitHubWebhookHandler.repository payload = Some repository ->
  denied w PullsGet = false ->
  denied w IssuesListComments = true ->
  exists w',
    GitHubWebhookHandler.handleWebhook JSON_parse this req w
    = (GitHubWebhookHandler.mkResponse 500
         (GitHubWebhookHandler.ErrorJson "Internal server error"), w')
    /\ comments w' = comments w
    /\ calls w'
       = calls w ++ [GetPull params; ListFiles params; ListComments k].
Proof.
  intros owner repo prNumber k params Hacc Hevent Hparse Hrel Hpr Hrepo HG HL.
  subst k params.
  rewrite accepted_processed by exact Hacc.
  rewrite (process_pull_request JSON_parse req w payload) by assumption.
  unfold GitHubWebhookHandler.handlePullRequestEvent.
  rewrite Hrel, Hpr, Hrepo. cbn [negb].
  unfold GitHub.try_catch. unfold GitHub.bind at 1.
  fold owner repo prNumber.
  rewrite (analyzePR_files_rejected owner repo prNumber w) by exact HG.
  rewrite commentOnPR_list_denied by exact HL.
  cbn [GitHubWebhookHandler.respond].
  eexists. split; [reflexivity |]. split; [reflexivity |].
  cbn [calls record_call]. rewrite <- !app_assoc. reflexivity.
Qed.

Lemma comments_refused_is_server_error_witness :
  exists w',
    GitHubWebhookHandler.handleWebhook Demo.parse_payload Demo.handler
      (Demo.delivery None "opened") Cases.world_silenced
    = (GitHubWebhookHandler.mkResponse 500
         (GitHubWebhookHandler.ErrorJson "Internal server error"), w')
    /\ comments w' = ∅
    /\ calls w'
       = [GetPull (mkPullParams "octo" "demo" None (Some 7%nat));
          ListFiles (mkPullParams "octo" "demo" None (Some 7%nat));
          ListComments Demo.pr7].
Proof.
  apply (comments_refused_is_server_error Demo.parse_payload Demo.handler
           (Demo.delivery None "opened") (Demo.delivery_payload "opened")
           (GitHubWebhookHandler.mkPullRequestPayload 7 "Add login" None)
           (GitHubWebhookHandler.mkRepositoryPayload "demo" "octo" "octo/demo")
           Cases.world_silenced).
  - left. reflexivity.
  - reflexivity.
  - vm_compute. reflexivity.
  - reflexivity.
  - reflexivity.
  - reflexivity.
  - reflexivity.
  - reflexivity.
Defined.

(** X19 ([GitHubWebhookHandler.handlePullRequestEvent], [commentOnPR]).
    When the pull request cannot be fetched, the delivery is still
    answered 200, and a failure notice with the text of the error is
    written as the bot's comment: over the earlier review when the
    thread holds one, as a new comment otherwise. *)
Theorem fetch_failure_posts_notice
    (JSON_parse : bytes -> js GitHubWebhookHandler.Payload)
    (this : GitHubWebhookHandler.t) (req : GitHubWebhookHandler.Request)
    (payload : GitHubWebhookHandler.Payload)
    (pull_request : GitHubWebhookHandler.PullRequestPayload)
    (repository : GitHubWebhookHandler.RepositoryPayload)
    (e : Error) (w : World) :
  let owner := GitHubWebhookHandler.owner_login repository in
  let repo := GitHubWebhookHandler.repo_name repository in
  let k : PRKey := (owner, repo, GitHubWebhookHandler.number pull_request) in
  let params :=
    mkPullParams owner repo None
      (Some (GitHubWebhookHandler.number pull_request)) in
  let notice := GitHubWebhookHandler.failure_report (Js.message e) in
  Spec.accepted this req ->
  GitHubWebhookHandler.x_github_event req = Some "pull_request" ->
  JSON_parse (GitHubWebhookHandler.raw_body req) = Return payload ->
  GitHubWebhookHandler.relevant (GitHubWebhookHandler.action payload) = true ->
  GitHubWebhookHandler.pull_request payload = Some pull_request ->
  GitHubWebhookHandler.repository payload = Some repository ->
  fst (pulls_get params w) = Throw e ->
  denied w IssuesListComments = false ->
  denied w IssuesUpdateComment = false ->
  denied w IssuesCreateComment = false ->
  exists w',
    GitHubWebhookHandler.handleWebhook JSON_parse this req w
    = (GitHubWebhookHandler.mkResponse 200
         (GitHubWebhookHandler.MessageJson "Webhook processed successfully"),
       w')
    /\ thread w' k = Shapes.upserted w k notice
    /\ calls w'
       = calls w ++ [GetPull params; ListComments k;
                     Shapes.upsert_call w k notice].
Proof.
  intros owner repo k params notice Hacc Hevent Hparse Hrel Hpr Hrepo Hget
         HL HU HC.
  subst k params.
  rewrite accepted_processed by exact Hacc.
  rewrite (process_pull_request JSON_parse req w payload) by assumption.
  unfold GitHubWebhookHandler.handlePullRequestEvent.
  rewrite Hrel, Hpr, Hrepo. cbn [negb].
  unfold GitHub.try_catch. unfold GitHub.bind at 1.
  fold owner repo.
  destruct (pulls_get
              (mkPullParams owner repo None
                 (Some (GitHubWebhookHandler.number pull_request))) w)
    as [r w1] eqn:Hpull.
  cbn [fst] in Hget. subst r.
  pose proof (pulls_get_world _ _ _ _ _ _ Hpull) as ->.
  rewrite (analyzePR_pull_fails _ _ _ _ _ _ Hpull).
  fold notice.
  destruct (commentOnPR_upserted owner repo
              (GitHubWebhookHandler.number pull_request) notice
              (record_call w
                 (GetPull
                    (mkPullParams owner repo None
                       (Some (GitHubWebhookHandler.number pull_request))))))
    as (w3 & Hcomment & Hthread & _ & Hcalls); try assumption.
  rewrite Hcomment. cbn [GitHubWebhookHandler.respond].
  exists w3. split; [reflexivity |]. split.
  - exact Hthread.
  - rewrite Hcalls. cbn [calls record_call].
    rewrite <- !app_assoc. reflexivity.
Qed.

Lemma fetch_failure_posts_notice_witness :
  exists w',
    GitHubWebhookHandler.handleWebhook Demo.parse_payload Demo.handler
      (Demo.delivery None "opened") Cases.world_reviewed_refusing
    = (GitHubWebhookHandler.mkResponse 200
         (GitHubWebhookHandler.MessageJson "Webhook processed successfully"),
       w')
    /\ thread w' Demo.pr7
       = [mkComment 1
            (GitHubWebhookHandler.failure_report
               "Resource not accessible by integration")].
Proof.
  destruct (fetch_failure_posts_notice Demo.parse_payload Demo.handler
              (Demo.delivery None "opened") (Demo.delivery_payload "opened")
              (GitHubWebhookHandler.mkPullRequestPayload 7 "Add login" None)
              (GitHubWebhookHandler.mkRepositoryPayload "demo" "octo" "octo/demo")
              (mkError "Resource not accessible by integration")
              Cases.world_reviewed_refusing)
    as (w' & Hr & Ht & _).
  - left. reflexivity.
  - reflexivity.
  - vm_compute. reflexivity.
  - reflexivity.
  - reflexivity.
  - reflexivity.
  - reflexivity.
  - reflexivity.
  - reflexivity.
  - reflexivity.
  - exists w'. split; [exact Hr |].
    etransitivity; [exact Ht |]. vm_compute. reflexivity.
Defined.

(** X20 ([GitHubWebhookHandler.analyzeFiles]).  The counters of the
    analysis of a pull request agree with its lists: [failed] is the
    number of issues, one for every changed file whose name starts with
    [.env] (other than [.env.example]) and one more for every changed
    file below [node_modules/]; [passed] is the number of successes, one
    for every [.gitignore] among the changed files; there is never a
    warning. *)
Theorem analyzeFiles_counts (owner repo sha : string) (files : list PullFile) :
  let a := GitHubWebhookHandler.analyzeFiles owner repo sha files in
  GitHubWebhookHandler.failed a = length (GitHubWebhookHandler.issues a)
  /\ GitHubWebhookHandler.passed a = length (GitHubWebhookHandler.successes a)
  /\ GitHubWebhookHandler.warnings_count a = 0%nat
  /\ GitHubWebhookHandler.warnings a = []
  /\ GitHubWebhookHandler.failed a
     = (length (List.filter (fun f => Shapes.env_like (filename f)) files)
        + length (List.filter
                    (fun f => startsWith (filename f) "node_modules/") files))%nat
  /\ GitHubWebhookHandler.passed a
     = length (List.filter (fun f => String.eqb (filename f) ".gitignore") files).
Proof.
  cbv zeta. unfold GitHubWebhookHandler.analyzeFiles. cbv zeta.
  match goal with
  | |- context [fold_left ?f files ?init] =>
      set (step := f); set (a0 := init)
  end.
  assert (Hinv : forall l acc,
    let r := fold_left step l acc in
    GitHubWebhookHandler.warnings_count r = GitHubWebhookHandler.warnings_count acc
    /\ GitHubWebhookHandler.warnings r = GitHubWebhookHandler.warnings acc
    /\ GitHubWebhookHandler.failed r
       = (GitHubWebhookHandler.failed acc
          + length (List.filter (fun f => Shapes.env_like (filename f)) l)
          + length (List.filter
                      (fun f => startsWith (filename f) "node_modules/") l))%nat
    /\ length (GitHubWebhookHandler.issues r)
       = (length (GitHubWebhookHandler.issues acc)
          + length (List.filter (fun f => Shapes.env_like (filename f)) l)
          + length (List.filter
                      (fun f => startsWith (filename f) "node_modules/") l))%nat
    /\ GitHubWebhookHandler.passed r
       = (GitHubWebhookHandler.passed acc
          + length (List.filter
                      (fun f => String.eqb (filename f) ".gitignore") l))%nat
    /\ length (GitHubWebhookHandler.successes r)
       = (length (GitHubWebhookHandler.successes acc)
          + length (List.filter
                      (fun f => String.eqb (filename f) ".gitignore") l))%nat).
  { induction l as [| f l IH]; intros acc; cbv zeta.
    - cbn. repeat split; lia.
    - cbn [fold_left List.filter].
      destruct (IH (step acc f)) as (H1 & H2 & H3 & H4 & H5 & H6).
      rewrite H1, H2, H3, H4, H5, H6. clear IH H1 H2 H3 H4 H5 H6.
      subst step. cbv beta zeta. unfold Shapes.env_like.
      destruct (startsWith (filename f) ".env"
                && negb (String.eqb (filename f) ".env.example"));
        destruct (startsWith (filename f) "node_modules/");
        destruct (String.eqb (filename f) ".gitignore");
        cbn [GitHubWebhookHandler.warnings_count GitHubWebhookHandler.warnings
             GitHubWebhookHandler.failed GitHubWebhookHandler.issues
             GitHubWebhookHandler.passed GitHubWebhookHandler.successes
             length];
        rewrite ?length_app; cbn [length]; repeat split; lia. }
  destruct (Hinv files a0) as (H1 & H2 & H3 & H4 & H5 & H6).
  subst a0.
  cbn [GitHubWebhookHandler.warnings_count GitHubWebhookHandler.warnings
       GitHubWebhookHandler.failed GitHubWebhookHandler.issues
       GitHubWebhookHandler.passed GitHubWebhookHandler.successes
       length] in H1, H2, H3, H4, H5, H6.
  repeat split; try assumption; lia.
Qed.

(** ** The other routes, the directory API and the Actions script *)

(** X21 ([GitHubWebhookHandler.constructor], [GET /health]).  The health
    check reports the webhook secret as configured whatever the
    environment holds, since the constructor puts a placeholder in the
    place of a missing secret; the GitHub token is reported as it is. *)
Theorem health_always_configured (env : GitHubWebhookHandler.Env)
    (now : string) :
  Routes.webhook (Routes.get_health (GitHubWebhookHandler.new env) now)
  = "configured"
  /\ (Routes.github (Routes.get_health (GitHubWebhookHandler.new env) now)
      = "authenticated"
      <-> truthy_opt (GitHubWebhookHandler.GITHUB_TOKEN env) = true).
Proof.
  unfold Routes.get_health. cbn [Routes.webhook Routes.github].
  rewrite new_secret_truthy. split; [reflexivity |].
  cbn [GitHubWebhookHandler.githubToken GitHubWebhookHandler.new].
  destruct (truthy_opt (GitHubWebhookHandler.GITHUB_TOKEN env)); split;
    congruence.
Qed.

Section Manual.

Import GitHubWebhookHandler.

Variable body : Routes.AnalyzeBody.

Local Abbreviation incomplete :=
  (negb (truthy_opt (Routes.owner body)) || negb (truthy_opt (Routes.repo body))
   || negb (Routes.truthy_number (Routes.pr_number body))).

Local Abbreviation k :=
  (default "" (Routes.owner body), default "" (Routes.repo body),
   default 0%nat (Routes.pr_number body)).

Lemma post_analyze_complete (w : World) :
  incomplete = false ->
  Routes.post_analyze body w
  = match analyzePR (default "" (Routes.owner body))
            (default "" (Routes.repo body))
            (default 0%nat (Routes.pr_number body)) w with
    | (Return result, w') =>
        (Routes.mkAnalyzeResponse 200
           (Routes.AnalyzeOk
              (Routes.mkAnalyzeResult true
                 (default "" (Routes.owner body) +:+ "/"
                  +:+ default "" (Routes.repo body) +:+ "#"
                  +:+ show_nat (default 0%nat (Routes.pr_number body)))
                 (fst result) (snd result))), w')
    | (Throw error, w') =>
        (Routes.mkAnalyzeResponse 500 (Routes.AnalyzeError (Js.message error)),
         w')
    end.
Proof.
  intros H. unfold Routes.post_analyze. cbv zeta. rewrite H.
  unfold GitHub.bind, ret.
  destruct (analyzePR _ _ _ w) as [[result | e] w']; reflexivity.
Qed.

End Manual.

(** X22 ([POST /analyze] of the handler).  The manual route answers 400
    exactly when [owner], [repo] or [pr_number] is missing or falsy (an
    empty name, the number 0); it then sends nothing to GitHub.  With
    the three fields it answers 200 or 500. *)
Theorem manual_analyze_required_fields (body : Routes.AnalyzeBody) (w : World) :
  let incomplete :=
    negb (truthy_opt (Routes.owner body)) || negb (truthy_opt (Routes.repo body))
    || negb (Routes.truthy_number (Routes.pr_number body)) in
  (incomplete = true ->
   Routes.post_analyze body w
   = (Routes.mkAnalyzeResponse 400
        (Routes.AnalyzeError "Missing required fields: owner, repo, pr_number"),
      w))
  /\ (incomplete = false ->
      Routes.analyze_status (fst (Routes.post_analyze body w)) = 200%nat
      \/ Routes.analyze_status (fst (Routes.post_analyze body w)) = 500%nat).
Proof.
  cbv zeta. split; intros H.
  - unfold Routes.post_analyze. cbv zeta. rewrite H. reflexivity.
  - rewrite post_analyze_complete by exact H.
    destruct (GitHubWebhookHandler.analyzePR _ _ _ w) as [[result | e] w'];
      cbn; auto.
Qed.

(** X23 ([POST /analyze] of the handler, [analyzePR]).  The manual route
    never succeeds: with the three fields present it answers 500 and
    writes no comment, since [analyzePR] passes the number under a name
    the client does not read.  On a repository where the two reads are
    not refused the answer carries "Not Found", after two requests,
    also when the pull request named is there. *)
Theorem manual_analyze_never_succeeds (body : Routes.AnalyzeBody)
    (owner repo : string) (prNumber : nat) (w : World) :
  let params := mkPullParams owner repo None (Some (S prNumber)) in
  body = Routes.mkAnalyzeBody (Some owner) (Some repo) (Some (S prNumber)) ->
  owner <> "" ->
  repo <> "" ->
  exists e w',
    Routes.post_analyze body w
    = (Routes.mkAnalyzeResponse 500 (Routes.AnalyzeError (Js.message e)), w')
    /\ comments w' = comments w
    /\ (denied w PullsGet = false ->
        denied w PullsListFiles = false ->
        Js.message e = "Not Found"
        /\ calls w' = calls w ++ [GetPull params; ListFiles params]).
Proof.
  intros params -> Howner Hrepo. subst params.
  rewrite post_analyze_complete.
  2:{ cbn [Routes.owner Routes.repo Routes.pr_number truthy_opt
           Routes.truthy_number].
      destruct owner; [contradiction |]. destruct repo; [contradiction |].
      reflexivity. }
  cbn [Routes.owner Routes.repo Routes.pr_number default from_option
       Datatypes.id].
  destruct (denied w PullsGet) eqn:HG.
  - destruct (analyzePR_throws owner repo (S prNumber) w)
      as (e & w1 & Hthrow & Hcomments).
    rewrite Hthrow. exists e, w1. split; [reflexivity |].
    split; [exact Hcomments | discriminate].
  - rewrite (analyzePR_files_rejected owner repo (S prNumber) w) by exact HG.
    eexists. eexists. split; [reflexivity |]. split; [reflexivity |].
    intros _ HF. rewrite HF. split; [reflexivity |].
    cbn [calls record_call]. rewrite <- app_assoc. reflexivity.
Qed.

Lemma manual_analyze_never_succeeds_witness :
  pulls Demo.world !! Demo.pr7 = Some (mkPull "Add login" "0123456789abcdef")
  /\ exists w',
       Routes.post_analyze
         (Routes.mkAnalyzeBody (Some "octo") (Some "demo") (Some 7%nat))
         Demo.world
       = (Routes.mkAnalyzeResponse 500 (Routes.AnalyzeError "Not Found"), w')
       /\ comments w' = comments Demo.world
       /\ calls w'
          = [GetPull (mkPullParams "octo" "demo" None (Some 7%nat));
             ListFiles (mkPullParams "octo" "demo" None (Some 7%nat))].
Proof.
  split; [reflexivity |].
  destruct (manual_analyze_never_succeeds
              (Routes.mkAnalyzeBody (Some "octo") (Some "demo") (Some 7%nat))
              "octo" "demo" 6 Demo.world)
    as (e & w' & Hr & Hc & Hnf);
    [reflexivity | discriminate | discriminate |].
  destruct (Hnf eq_refl eq_refl) as [Hmsg Hcalls].
  exists w'. rewrite Hr, Hmsg. split; [reflexivity |].
  split; [exact Hc | exact Hcalls].
Defined.

(** X24 ([POST /analyze] of the handler).  When the pull request cannot
    be fetched, the manual route answers 500 with the text of the error
    itself, and writes no failure notice: the one request it has sent is
    the fetch. *)
Theorem manual_analyze_failure_exposes_error (body : Routes.AnalyzeBody)
    (owner repo : string) (prNumber : nat) (e : Error) (w : World) :
  let params := mkPullParams owner repo None (Some (S prNumber)) in
  body = Routes.mkAnalyzeBody (Some owner) (Some repo) (Some (S prNumber)) ->
  owner <> "" ->
  repo <> "" ->
  fst (pulls_get params w) = Throw e ->
  Routes.post_analyze body w
  = (Routes.mkAnalyzeResponse 500 (Routes.AnalyzeError (Js.message e)),
     record_call w (GetPull params)).
Proof.
  intros params -> Howner Hrepo Hget. subst params.
  rewrite post_analyze_complete.
  2:{ cbn [Routes.owner Routes.repo Routes.pr_number truthy_opt
           Routes.truthy_number].
      destruct owner; [contradiction |]. destruct repo; [contradiction |].
      reflexivity. }
  cbn [Routes.owner Routes.repo Routes.pr_number default from_option
       Datatypes.id].
  destruct (pulls_get (mkPullParams owner repo None (Some (S prNumber))) w)
    as [r w1] eqn:Hpull.
  cbn [fst] in Hget. subst r.
  pose proof (pulls_get_world _ _ _ _ _ _ Hpull) as ->.
  rewrite (analyzePR_pull_fails _ _ _ _ _ _ Hpull). reflexivity.
Qed.

Lemma manual_analyze_failure_exposes_error_witness :
  Routes.post_analyze
    (Routes.mkAnalyzeBody (Some "octo") (Some "demo") (Some 7%nat))
    Demo.world_refusing
  = (Routes.mkAnalyzeResponse 500
       (Routes.AnalyzeError "Resource not accessible by integration"),
     record_call Demo.world_refusing
       (GetPull (mkPullParams "octo" "demo" None (Some 7%nat)))).
Proof.
  apply (manual_analyze_failure_exposes_error
           (Routes.mkAnalyzeBody (Some "octo") (Some "demo") (Some 7%nat))
           "octo" "demo" 6
           (mkError "Resource not accessible by integration")
           Demo.world_refusing);
    [reflexivity | discriminate | discriminate | reflexivity].
Defined.

(** X25 ([POST /analyze] of app.js, [CodeReviewer.analyzeProject]).  The
    directory API answers 400 when [projectPath] is missing or empty, 500
    with the message naming the path when the directory does not exist,
    and 200 otherwise, whatever the analyzers find; the report of a 200
    answer is the rendering of its results. *)
Theorem app_analyze_status
    (JSON_parse : string -> js RuleSet) (rulesDir : string)
    (codeReviewer : CodeReviewer.t) (fs : FileSystem) (now : string)
    (projectPath : option string) :
  let res :=
    App.post_analyze JSON_parse rulesDir codeReviewer fs now projectPath in
  (truthy_opt projectPath = false ->
   res = App.mkResponse 400 (App.ErrorJson "projectPath is required"))
  /\ (forall p,
        projectPath = Some p -> p <> "" -> existsSync fs p = false ->
        res = App.mkResponse 500
                (App.ErrorJson ("Project directory does not exist: " +:+ p)))
  /\ (forall p,
        projectPath = Some p -> p <> "" -> existsSync fs p = true ->
        exists results,
          CodeReviewer.analyzeProject JSON_parse rulesDir codeReviewer fs now
            p None = Return results
          /\ res = App.mkResponse 200
                     (App.SuccessJson results
                        (CodeReviewer.generateReport results))).
Proof.
  cbv zeta. unfold App.post_analyze. cbv zeta. split; [| split].
  - intros ->. reflexivity.
  - intros p -> Hp Hex.
    assert (Ht : truthy p = true) by (destruct p; [contradiction | reflexivity]).
    cbn [truthy_opt default from_option Datatypes.id]. rewrite Ht. cbn [negb].
    unfold CodeReviewer.analyzeProject. rewrite Hex. reflexivity.
  - intros p -> Hp Hex.
    assert (Ht : truthy p = true) by (destruct p; [contradiction | reflexivity]).
    cbn [truthy_opt default from_option Datatypes.id]. rewrite Ht. cbn [negb].
    destruct (analyzeProject_report JSON_parse rulesDir fs p codeReviewer
                now None Hex) as (t & _ & Hreport).
    rewrite Hreport. cbn [Js.bind]. eexists. split; reflexivity.
Qed.

(** X26 ([runGitHubAnalysis]).  The Actions script never fails the build
    over findings: when the project directory exists and the report can
    be written, it exits with code 0 whatever the analyzers found, the
    report file holds the rendering of the results, and the outputs are
    the four counts of the summary. *)
Theorem actions_findings_never_fail_the_build
    (JSON_parse : string -> js RuleSet) (rulesDir : string)
    (writeFileSync : string -> string -> js unit)
    (argv2 : option string) (cwd : string) (fs : FileSystem) (now : string) :
  existsSync fs (or_default argv2 cwd) = true ->
  (forall data, writeFileSync Actions.reportPath data = Return tt) ->
  exists results,
    CodeReviewer.analyzeProject JSON_parse rulesDir CodeReviewer.new fs now
      (or_default argv2 cwd) None = Return results
    /\ Actions.runGitHubAnalysis JSON_parse rulesDir writeFileSync argv2 cwd
         fs now
       = Actions.mkOutcome 0 (Some (CodeReviewer.generateReport results))
           [("passed", Summary.passed (Report.summary results));
            ("failed", Summary.failed (Report.summary results));
            ("warnings", Summary.warnings (Report.summary results));
            ("total", 3%nat)].
Proof.
  intros Hex Hwrite.
  destruct (analyzeProject_report JSON_parse rulesDir fs (or_default argv2 cwd)
              CodeReviewer.new now None Hex) as (t & _ & Hreport).
  eexists. split; [exact Hreport |].
  unfold Actions.runGitHubAnalysis. cbv zeta. rewrite Hex. cbn [negb].
  rewrite Hreport. cbn [Js.bind]. rewrite Hwrite. reflexivity.
Qed.

Lemma actions_findings_never_fail_the_build_witness :
  exists results,
    CodeReviewer.analyzeProject Demo.parse_rules "/app/rules" CodeReviewer.new
      Demo.fs_env "2024-01-01T00:00:00.000Z" "/project" None = Return results
    /\ Summary.failed (Report.summary results) = 3%nat
    /\ Actions.exit_code
         (Actions.runGitHubAnalysis Demo.parse_rules "/app/rules"
            (fun _ _ => Return tt) (Some "/project") "/home/runner"
            Demo.fs_env "2024-01-01T00:00:00.000Z") = 0%nat.
Proof.
  destruct (actions_findings_never_fail_the_build Demo.parse_rules "/app/rules"
              (fun _ _ => Return tt) (Some "/project") "/home/runner"
              Demo.fs_env "2024-01-01T00:00:00.000Z")
    as (results & Hr & Hrun); [reflexivity | reflexivity |].
  exists results. split; [exact Hr |]. split.
  - injection Hr as <-. vm_compute. reflexivity.
  - rewrite Hrun. reflexivity.
Defined.

(** X27 ([runGitHubAnalysis]).  When the project directory does not
    exist the script exits with code 1 and sets no output; the report
    file then holds the failure report with the script's own message,
    or nothing when that write fails too. *)
Theorem actions_missing_directory_fails
    (JSON_parse : string -> js RuleSet) (rulesDir : string)
    (writeFileSync : string -> string -> js unit)
    (argv2 : option string) (cwd : string) (fs : FileSystem) (now : string) :
  existsSync fs (or_default argv2 cwd) = false ->
  let outcome :=
    Actions.runGitHubAnalysis JSON_parse rulesDir writeFileSync argv2 cwd
      fs now in
  let notice :=
    Actions.errorReport
      ("Project directory not found: " +:+ or_default argv2 cwd) in
  Actions.exit_code outcome = 1%nat
  /\ Actions.outputs outcome = []
  /\ Actions.written outcome
     = match writeFileSync Actions.reportPath notice with
       | Return _ => Some notice
       | Throw _ => None
       end
  /\ startsWith notice GitHubWebhookHandler.marker = true.
Proof.
  intros Hex. cbv zeta.
  unfold Actions.runGitHubAnalysis. cbv zeta. rewrite Hex. cbn [negb Js.message].
  split; [| split; [| split]].
  - destruct (writeFileSync _ _); reflexivity.
  - destruct (writeFileSync _ _); reflexivity.
  - destruct (writeFileSync _ _); reflexivity.
  - unfold Actions.errorReport, GitHubWebhookHandler.marker, startsWith.
    apply prefix_append.
Qed.

Lemma actions_missing_directory_fails_witness :
  Actions.exit_code
    (Actions.runGitHubAnalysis Demo.parse_rules "/app/rules"
       (fun _ _ => Return tt) None "/home/runner" Demo.fs_env
       "2024-01-01T00:00:00.000Z") = 1%nat.
Proof.
  apply (actions_missing_directory_fails Demo.parse_rules "/app/rules"
           (fun _ _ => Return tt) None "/home/runner" Demo.fs_env
           "2024-01-01T00:00:00.000Z").
  reflexivity.
Defined.

(** ** The later handler: the analysis of the file list and the fallback *)

Section Later.

Import GitHubWebhookHandler GitHubWebhookHandlerV2.

Lemma push_issue_consistent (r : Analysis) (i : Issue) :
  Shapes.consistent r -> Shapes.consistent (push_issue r i).
Proof.
  unfold Shapes.consistent, push_issue. cbn. rewrite length_app. cbn.
  intros (H1 & H2 & H3). repeat split; lia.
Qed.

Lemma push_success_consistent (r : Analysis) (i : Issue) :
  Shapes.consistent r -> Shapes.consistent (push_success r i).
Proof.
  unfold Shapes.consistent, push_success. cbn. rewrite length_app. cbn.
  intros (H1 & H2 & H3). repeat split; lia.
Qed.

Lemma push_warning_consistent (r : Analysis) (i : Issue) :
  Shapes.consistent r -> Shapes.consistent (push_warning r i).
Proof.
  unfold Shapes.consistent, push_warning. cbn. rewrite length_app. cbn.
  intros (H1 & H2 & H3). repeat split; lia.
Qed.

(** What one file can change in the results of the scan. *)
Lemma scan_file_invariant (s : Scan) (file : PullFile) :
  (Shapes.consistent (results s) ->
   Shapes.consistent (results (scan_file s file)))
  /\ projectType (results (scan_file s file)) = projectType (results s)
  /\ warnings (results (scan_file s file)) = warnings (results s)
  /\ hasGitignore (scan_file s file)
     = hasGitignore s || String.eqb (filename file) ".gitignore"
  /\ (Forall (fun i => type i <> "missing-gitignore") (issues (results s)) ->
      Forall (fun i => type i <> "missing-gitignore")
             (issues (results (scan_file s file)))).
Proof.
  unfold scan_file. cbv zeta.
  destruct (startsWith (filename file) ".env"
            && negb (String.eqb (filename file) ".env.example"));
    destruct (startsWith (filename file) "node_modules/");
    destruct (startsWith (filename file) ".venv/"
              || startsWith (filename file) "venv/");
    destruct (String.eqb (filename file) ".gitignore");
    destruct (String.eqb (filename file) "package.json");
    destruct (startsWith (filename file) "src/");
    cbn [results hasGitignore projectType warnings issues push_issue
         push_success];
    rewrite ?orb_true_r, ?orb_false_r;
    (split; [intros H;
             repeat first [apply push_issue_consistent
                          | apply push_success_consistent]; exact H |]);
    (split; [reflexivity |]); (split; [reflexivity |]);
    (split; [reflexivity |]);
    intros H; rewrite <- ?app_assoc;
    repeat (apply Forall_app; split; [| repeat constructor; discriminate]);
    exact H.
Qed.

Lemma scan_files_invariant (files : list PullFile) (s : Scan) :
  let s' := fold_left scan_file files s in
  (Shapes.consistent (results s) -> Shapes.consistent (results s'))
  /\ projectType (results s') = projectType (results s)
  /\ warnings (results s') = warnings (results s)
  /\ hasGitignore s'
     = hasGitignore s
       || existsb (fun f => String.eqb (filename f) ".gitignore") files
  /\ (Forall (fun i => type i <> "missing-gitignore") (issues (results s)) ->
      Forall (fun i => type i <> "missing-gitignore") (issues (results s'))).
Proof.
  revert s. induction files as [| f files IH]; intros s; cbv zeta.
  - cbn. rewrite orb_false_r. split; [auto |]. repeat split; auto.
  - cbn [fold_left existsb].
    destruct (IH (scan_file s f)) as (H1 & H2 & H3 & H4 & H5).
    destruct (scan_file_invariant s f) as (G1 & G2 & G3 & G4 & G5).
    rewrite H2, H3, H4, G2, G3, G4, orb_assoc.
    split; [auto |]. repeat split; auto.
Qed.

End Later.

Lemma analyzeFileStructure_shape (files : list PullFile) (repoName : string) :
  let s :=
    fold_left GitHubWebhookHandlerV2.scan_file files
      (GitHubWebhookHandlerV2.mkScan
         (GitHubWebhookHandler.mkAnalysis "nodejs" 0 0 0 [] [] []) []
         GitHubWebhookHandlerV2.srcStructure0 false false) in
  let a := GitHubWebhookHandlerV2.analyzeFileStructure files repoName in
  Shapes.consistent a
  /\ GitHubWebhookHandler.projectType a = "nodejs"
  /\ (length (GitHubWebhookHandler.warnings a) <= 2)%nat
  /\ GitHubWebhookHandler.issues a
     = GitHubWebhookHandler.issues (GitHubWebhookHandlerV2.results s)
       ++ (if existsb (fun f => String.eqb (filename f) ".gitignore") files
           then [] else [Shapes.missing_gitignore]).
Proof.
  cbv zeta. unfold GitHubWebhookHandlerV2.analyzeFileStructure. cbv zeta.
  destruct (scan_files_invariant files
              (GitHubWebhookHandlerV2.mkScan
                 (GitHubWebhookHandler.mkAnalysis "nodejs" 0 0 0 [] [] []) []
                 GitHubWebhookHandlerV2.srcStructure0 false false))
    as (Hc & Ht & Hw & Hg & _).
  cbn [GitHubWebhookHandlerV2.results GitHubWebhookHandler.projectType
       GitHubWebhookHandler.warnings GitHubWebhookHandlerV2.hasGitignore orb]
    in Hc, Ht, Hw, Hg.
  assert (Hc0 : Shapes.consistent
                  (GitHubWebhookHandlerV2.results
                     (fold_left GitHubWebhookHandlerV2.scan_file files
                        (GitHubWebhookHandlerV2.mkScan
                           (GitHubWebhookHandler.mkAnalysis "nodejs" 0 0 0 [] [] [])
                           [] GitHubWebhookHandlerV2.srcStructure0 false false))))
    by (apply Hc; repeat split).
  clear Hc. rewrite Hg. clear Hg.
  set (s := fold_left GitHubWebhookHandlerV2.scan_file files _) in *.
  destruct (existsb (fun f => String.eqb (filename f) ".gitignore") files);
    destruct (existsb (fun exists_ : bool => exists_)
                (map snd (map_to_list (GitHubWebhookHandlerV2.srcStructure s))));
    destruct (List.filter
                (fun folder =>
                   negb (default false
                           (GitHubWebhookHandlerV2.srcStructure s !! folder)))
                ["controllers"; "services"; "routes"]);
    destruct (GitHubWebhookHandlerV2.filesOutsideSrc s);
    cbn [negb];
    (split; [repeat first [apply push_issue_consistent
                          | apply push_success_consistent
                          | apply push_warning_consistent]; exact Hc0 |]);
    cbn [GitHubWebhookHandler.projectType GitHubWebhookHandler.warnings
         GitHubWebhookHandler.issues
         GitHubWebhookHandlerV2.push_issue GitHubWebhookHandlerV2.push_success
         GitHubWebhookHandlerV2.push_warning];
    rewrite Ht, Hw, ?app_nil_r; cbn [app length];
    (split; [reflexivity |]); (split; [lia | reflexivity]).
Qed.

(** X28 ([analyzeFileStructure] of the later handler).  The counters of
    the file structure analysis agree with its lists, the project type is
    always [nodejs], and there are at most two warnings. *)
Theorem analyzeFileStructure_counts (files : list PullFile)
    (repoName : string) :
  let a := GitHubWebhookHandlerV2.analyzeFileStructure files repoName in
  GitHubWebhookHandler.failed a = length (GitHubWebhookHandler.issues a)
  /\ GitHubWebhookHandler.passed a = length (GitHubWebhookHandler.successes a)
  /\ GitHubWebhookHandler.warnings_count a
     = length (GitHubWebhookHandler.warnings a)
  /\ GitHubWebhookHandler.projectType a = "nodejs"
  /\ (length (GitHubWebhookHandler.warnings a) <= 2)%nat.
Proof.
  cbv zeta.
  destruct (analyzeFileStructure_shape files repoName)
    as ((H1 & H2 & H3) & H4 & H5 & _).
  auto.
Qed.

(** X29 ([analyzeFileStructure] of the later handler).  The analysis
    sees the changed files only: a pull request that does not change
    [.gitignore] itself is reported as lacking one, so it has at least
    one failure; one that changes it is not. *)
Theorem analyzeFileStructure_missing_gitignore (files : list PullFile)
    (repoName : string) :
  let a := GitHubWebhookHandlerV2.analyzeFileStructure files repoName in
  (In Shapes.missing_gitignore (GitHubWebhookHandler.issues a)
   <-> ~ In ".gitignore" (map filename files))
  /\ (~ In ".gitignore" (map filename files) ->
      (1 <= GitHubWebhookHandler.failed a)%nat).
Proof.
  cbv zeta.
  destruct (analyzeFileStructure_shape files repoName)
    as ((Hf & _) & _ & _ & Hissues).
  assert (Hex : existsb (fun f => String.eqb (filename f) ".gitignore") files
                = true
                <-> In ".gitignore" (map filename files)).
  { rewrite existsb_exists, in_map_iff. split.
    - intros (f & Hin & Heq). apply String.eqb_eq in Heq. eauto.
    - intros (f & Heq & Hin). exists f. split; [exact Hin |].
      now apply String.eqb_eq. }
  split.
  - rewrite Hissues. split.
    + intros Hin Hfile. apply in_app_or in Hin as [Hin | Hin].
      * destruct (scan_files_invariant files
                    (GitHubWebhookHandlerV2.mkScan
                       (GitHubWebhookHandler.mkAnalysis "nodejs" 0 0 0 [] [] [])
                       [] GitHubWebhookHandlerV2.srcStructure0 false false))
          as (_ & _ & _ & _ & Hnone).
        specialize (Hnone (List.Forall_nil _)).
        rewrite List.Forall_forall in Hnone.
        now apply Hnone in Hin.
      * apply Hex in Hfile. rewrite Hfile in Hin. destruct Hin.
    + intros Hfile. apply in_or_app. right.
      destruct (existsb _ files); [| now left].
      exfalso. apply Hfile. now apply Hex.
  - intros Hfile. rewrite Hf, Hissues, length_app.
    destruct (existsb _ files); [| cbn; lia].
    exfalso. apply Hfile. now apply Hex.
Qed.

Section Fallback.

Import GitHubWebhookHandler GitHubWebhookHandlerV2.

(** Three optional issues, three optional successes, then the reminder:
    the shape of the fallback analysis, whatever the tests and the
    entries are. *)
Lemma fallback_shape (c1 c2 c3 c4 c5 c6 : bool)
    (i1 i2 i3 s1 s2 s3 reminder : Issue) :
  let r := mkAnalysis "nodejs" 0 0 0 [] [] [] in
  let r := if c1 then push_issue r i1 else r in
  let r := if c2 then push_issue r i2 else r in
  let r := if c3 then push_issue r i3 else r in
  let r := if c4 then push_success r s1 else r in
  let r := if c5 then push_success r s2 else r in
  let r := if c6 then push_success r s3 else r in
  let a :=
    match issues r with
    | [] => push_warning r reminder
    | _ => r
    end in
  failed a = length (issues a)
  /\ passed a = length (successes a)
  /\ warnings_count a = length (warnings a)
  /\ warnings a = match issues a with [] => [reminder] | _ => [] end
  /\ (1 <= failed a + warnings_count a)%nat
  /\ (failed a <= 3)%nat
  /\ (passed a <= 3)%nat.
Proof.
  destruct c1, c2, c3, c4, c5, c6; cbn; repeat split; lia.
Qed.

Variable toLowerCase : string -> string.

(** X30 ([analyzePRWebhookData] of the later handler).  The fallback
    analysis of title and description never comes out clean: its
    counters agree with its lists, it holds the general reminder as its
    one warning exactly when it has found no issue, and so it always
    reports a failure or a warning. *)
Theorem analyzePRWebhookData_never_clean
    (pull_request : PullRequestPayload) (repository : RepositoryPayload) :
  let a := analyzePRWebhookData toLowerCase pull_request repository in
  failed a = length (issues a)
  /\ passed a = length (successes a)
  /\ warnings_count a = length (warnings a)
  /\ warnings a
     = match issues a with
       | [] => [Shapes.general_reminder]
       | _ => []
       end
  /\ (1 <= failed a + warnings_count a)%nat
  /\ (failed a <= 3)%nat
  /\ (passed a <= 3)%nat.
Proof.
  unfold analyzePRWebhookData.
  apply fallback_shape.
Qed.

End Fallback.
